(* ===== verification/_CoqProject ===== *)
-Q . S2P
Prelude.v
Font.v
Layout.v
FontCache.v
Drawer.v
LineTable.v
TextArea.v
Console.v
Window.v
