(* ===== verification/Prelude.v ===== *)
(** * NazaraEngine text core: a verification development

    This library models, in Rocq, the text-layout and text-editing core of
    the NazaraEngine sources under [src/], with the console and the window
    code built on it.  The files, in dependency order:

    - [Prelude.v] (this file).  It holds the integer-width helpers
      ([wrap32], [wrap64]), the strictly-increasing-list predicate of line
      tables, the hint database [nz] and the tactics [nz_lia], [nz_unwrap]
      and [nz_cases].
    - [Font.v]: the font interface of
      [src/include/Nazara/Utility/Font.hpp].  [Font::Glyph] and
      [Font::SizeInfo] are records, and the font is a record of the
      operations the drawer calls.  Fonts that answer alike are
      equivalent ([font_equiv]), and [Layout.UpdateGlyphs] is [Proper]
      for that equivalence.  It also holds the float-to-integer
      conversion of C++ ([Qtrunc], [float_to_u32]).
    - [Layout.v], [Module Layout]:
      [NzSimpleTextDrawer::UpdateGlyphs] of
      [src/src/Nazara/Utility/SimpleTextDrawer.cpp].  One iteration of the
      loop is [layout_step] on a pen state ([LayoutState]: [drawPos],
      [lastPos], [previousCharacter], the glyphs).  The loop is a
      [fold_left] over the code points.
    - [FontCache.v], [Module FontCache]: the three metric caches that
      [Font.hpp] declares (lines 150-152), as nested [gmap]s.  It holds the
      read-through queries [Font_GetGlyph], [Font_GetKerning],
      [Font_GetSizeInfo], [Precache] and the cache-clearing members.
      [Font.cpp] is not among the sources, so the operations follow the
      spec (metrics "cached by size/style/outline key"); the 64-bit key
      functions are left abstract.  [run] executes a sequence of calls.
      It caches metrics only, not the atlas placement of glyphs, and no
      claim rests on it.
    - [Drawer.v], [Module Drawer]: the drawer object of the same file.  It
      holds the constructor, the setters, [Draw], the getters (which
      refresh the cache behind [m_glyphUpdated] first) and the font
      notifications.  [drawer_step] is the relation of all its state
      changes.  A font change is constrained by what its notification
      says of the font ([notified_change]), not by the drawer's
      reaction to it.  Its Section [Listeners] models the resource-listener
      registration of [SetFont] and of the destructor on font pointers.
      The listener lists of [NzResource] (not among the sources) form the
      class [ResourceListeners], with the laws [listener_laws].
    - [LineTable.v], [Module LineTable]: the three drawer calls a text
      area makes ([GetGlyphCount], [GetLineCount], [GetLine]), as the class
      [AbstractTextDrawer].  The record [drawer_wf] is its contract.  A
      plain line table is the instance.  [spec_line_table] builds the line
      table that section 4.1 of the spec prescribes for a text; the
      drawer that builds it is not among the sources.
    - [TextArea.v], [Module TextArea]: every member of
      [src/SDK/include/NDK/Widgets/AbstractTextAreaWidget.inl]: index and
      position conversions, normalisation, cursor moves, selection,
      erase/write requests, flags.  It is proved against the class, so it
      holds for any well-formed drawer.  Signals are lists of slots run in
      connection order ([emit]).  The [for] loop of [GetCursorPosition]
      is the fuel-bounded [scan_lines].
    - [Console.v], [Module Console]: [src/SDK/src/NDK/Console.cpp].  It
      models the console's state, its four input slots, [ExecuteInput],
      [AddLine], [Clear], [SetCharacterSize], [SetTextFont], the focus
      calls and [Layout], and the relation [console_step] of all its state
      changes.  The Lua
      interpreter is a section variable.
    - [Window.v], [Module Window]: the inline members of
      [src/include/Nazara/Platform/Window.inl], the constructors
      included (the first error [Create] reports is thrown).  The members
      defined in [Window.cpp] and [Cursor.cpp] ([Destroy], [HandleEvent],
      [Create], [SetCursor(CursorRef)], [Cursor::Get]) form the class
      [WindowBackend], with the laws the inline code needs.  [window_step] relates the states
      the members produce.  [run] executes a sequence of [Call]s of the
      user thread and collects the answers of the [IsOpen] calls.

    How the parts interact.  The font answers the layout's metric
    queries, and notifies the drawer when it changes.  The drawer computes the glyphs with the layout
    and caches them.  The text area reads a drawer only through
    [AbstractTextDrawer].  The console connects slots to its input text
    area.  Its cursor-move slot is joined to the text area's
    [SetCursorPosition] by [Console.lift_index_slot].

    What the theorems show (claims C1-C40):
    - C1, C2, C11: the drawer's cache invariant (a fresh cache holds the
      layout of the current parameters).  It is kept by every step, the
      notified font changes included (C1), every getter refines the pure
      layout function (C2), and along any life of a drawer repeated
      reads give the identical cached result (C11, the read-through cache
      of spec section 5).  C5: after any
      sequence of [SetFont] calls the drawer listens to its own font only,
      and after the destructor to none.
    - C3, C4, C6-C10 and C37: glyph emission, invalid fonts, trailing
      whitespace, two-glyph placement, faux bold and italic geometry, and
      the bounding box (the rectangle up to the last drawn position).
      C10 follows the wrap-around of the unsigned pen under a negative
      kerning after a newline to its visible effect: a glyph drawn at
      2^32 + kerning and a box about 2^32 wide.  C8: without kerning, a
      tab lays out exactly as four spaces.
    - C12-C22, C25, C28, C36 and C39: the text area, and C40 for the
      spec's line table.  They cover the
      index/position round trips, normalisation, cursor clamping, hooks
      that redirect the cursor, selection ordering with its failure past
      the last line, the unsigned step of [MoveCursor], and vertical
      cursor moves.  C21 settles the open question of the spec's section
      9: comparing the cursor slots' answer by coordinates, as the code
      does, or by glyph index stores the same cursor.  C25 proves the early-exit line scan
      equal to a reference count of line starts.  C28 (Scenario B): the
      start of every line converts to column 0 of that line.  C39 shows
      what an empty line of the spec's line table does to the
      conversions.  C40: on the spec's line table, the cursor maps every
      line start to column 0 of its line exactly when no line but the
      last is empty.
    - C23-C27, C29-C31, C35 and C38: the console.  They cover the history invariant over
      all reachable states, the functional behaviour of [ExecuteInput],
      [Clear] and the arrow-key slots, the out-of-range read on an empty
      history, the recall of commands by the up key (C35), the layout
      arithmetic (C29) and the sizes for which its cast to [unsigned
      int] is undefined, zero height included (C30), and the protected
      prompt prefix (Scenario E of the spec).
    - C32-C34: the window's polling invariant, (C33, liveness)
      deferred close, and (C34) the constructors' error path, which
      returns an invalid window when [Create] fails silently.  In any interleaving of
      calls after [Close], the first [IsOpen(true)] reports the window
      closed and destroys it, and every [IsOpen] before it reports it
      open.

    Conventions.
    - C++ [unsigned int] values are [Z] values reduced with [wrap32], and
      [std::size_t] values are reduced with [wrap64].  [int] values are
      plain [Z].
    - Floating-point values are exact rationals [Q]: the constants [1.1f]
      and [0.208f] become [11/10] and [26/125].
    - A float converted to [unsigned] is truncated toward zero
      ([Qtrunc]).  Out of the range of [unsigned int] the conversion is
      undefined: [float_to_u32] gives [None], as in [Console.Layout].
      The layout loop is total: its pen advance ([Layout.advance_pen])
      wraps the truncated value modulo 2^32, as x86-64 code computes
      it, and [spaceAdvance*4] wraps likewise.
    - Out-of-range vector or line accesses, undefined behaviour or
      assertion failures in the C++, are [None].

    Bounds and fuel.
    - The only loop with a non-structural bound, the line scan of
      [GetCursorPosition], runs on fuel equal to its exact bound:
      [lineCount - 1] iterations.  The theorems show that it always
      returns, and C25 that it finds the line a reference count gives.
    - The text-area theorems assume a glyph count below 2^32 - 1
      ([drawer_wf]), so every column fits an [unsigned int].  Offsets are
      taken in the range of [int].  Negating [INT_MIN] overflows, so
      [int_neg] gives [None] there: [MoveCursor] with that offset has no
      defined result.
    - The console layout theorem C29 takes a height below 2^32 and a
      positive line height, so the line count fits an [unsigned int];
      C30 characterises the heights for which it does not.

    Not modelled.
    - UTF-8 decoding: the text is its code points.
    - Font loading, [Destroy], atlases and the placement of glyphs in
      them, the glyph border, the minimum step size and the key
      encodings: [Font.cpp] is not among the sources, and the spec says
      nothing of them.
    - [Window::GetCursorController] and [GetEventHandler]: they return
      references to sub-objects whose classes are not among the sources.
    - The widgets' own [.cpp] code.  The text operations of
      [TextAreaWidget] are string operations, and geometry is what the
      console sets.
    - The Lua interpreter's semantics.
    - The window's platform implementation; mutexes (the model is
      sequential).
    - The [IpAddress] network test, whose code under test is not among
      the sources. *)

From stdpp Require Export base list list_numbers decidable options.
From Stdlib Require Export ZArith Lia.

Declare Scope nz_scope.
Delimit Scope nz_scope with nz.

Open Scope Z_scope.

(** ** Machine widths *)

Definition u32_modulus : Z := 2 ^ 32.
Definition u64_modulus : Z := 2 ^ 64.

(** Conversion to [unsigned int] (and [unsigned int] arithmetic). *)
Definition wrap32 (z : Z) : Z := z mod u32_modulus.
(** Conversion to [std::size_t] (and [std::size_t] arithmetic). *)
Definition wrap64 (z : Z) : Z := z mod u64_modulus.

Notation "'u32[' z ']'" := (wrap32 z) (at level 0) : nz_scope.
Notation "'u64[' z ']'" := (wrap64 z) (at level 0) : nz_scope.

Definition in_u32 (z : Z) : Prop := 0 <= z < u32_modulus.
Definition in_u64 (z : Z) : Prop := 0 <= z < u64_modulus.

(** [-z] on an [int]: it overflows for [INT_MIN], which is undefined
    behaviour ([None]). *)
Definition int_neg (z : Z) : option Z := if z =? - 2 ^ 31 then None else Some (- z).

#[export] Instance in_u32_dec z : Decision (in_u32 z).
Proof. unfold in_u32. apply _. Defined.

Lemma u32_modulus_val : u32_modulus = 4294967296.
Proof. reflexivity. Qed.

Lemma u64_modulus_val : u64_modulus = 18446744073709551616.
Proof. reflexivity. Qed.

Lemma wrap32_range z : 0 <= wrap32 z < u32_modulus.
Proof. apply Z.mod_pos_bound. reflexivity. Qed.

Lemma wrap64_range z : 0 <= wrap64 z < u64_modulus.
Proof. apply Z.mod_pos_bound. reflexivity. Qed.

Lemma wrap32_small z : 0 <= z < u32_modulus -> wrap32 z = z.
Proof. apply Z.mod_small. Qed.

Lemma wrap64_small z : 0 <= z < u64_modulus -> wrap64 z = z.
Proof. apply Z.mod_small. Qed.

Lemma wrap32_in_u32 z : in_u32 (wrap32 z).
Proof. apply wrap32_range. Qed.

(** Wrapping an intermediate sum does not change the wrapped result. *)
Lemma wrap32_add_wrap_l a b : wrap32 (wrap32 a + b) = wrap32 (a + b).
Proof. apply Zplus_mod_idemp_l. Qed.

Lemma wrap32_wrap a : wrap32 (wrap32 a) = wrap32 a.
Proof. apply Zmod_mod. Qed.

(** A value below 2^32 is also below 2^64. *)
Lemma u32_lt_u64 z : z < u32_modulus -> z < u64_modulus.
Proof. rewrite u32_modulus_val, u64_modulus_val. lia. Qed.

(** Subtraction below zero wraps to the top of the range. *)
Lemma int_neg_Some z : - 2 ^ 31 < z -> int_neg z = Some (- z).
Proof. intros Hz. unfold int_neg. destruct (Z.eqb_spec z (- 2 ^ 31)); [lia|done]. Qed.

Lemma int_neg_min : int_neg (- 2 ^ 31) = None.
Proof. reflexivity. Qed.

Lemma wrap32_neg z : - u32_modulus <= z < 0 -> wrap32 z = z + u32_modulus.
Proof.
  intros H. unfold wrap32.
  rewrite <- (Z.mod_add z 1 u32_modulus) by (rewrite u32_modulus_val; lia).
  apply Z.mod_small. lia.
Qed.

Lemma wrap64_neg z : - u64_modulus <= z < 0 -> wrap64 z = z + u64_modulus.
Proof.
  intros H. unfold wrap64.
  rewrite <- (Z.mod_add z 1 u64_modulus) by (rewrite u64_modulus_val; lia).
  apply Z.mod_small. lia.
Qed.

(** [size_t] -1 converted to [unsigned int] is the largest [unsigned int]. *)
Lemma wrap32_max_u64 : wrap32 (-1 + u64_modulus) = u32_modulus - 1.
Proof. reflexivity. Qed.

Create HintDb nz discriminated.
#[export] Hint Resolve wrap32_range wrap64_range wrap32_in_u32 : nz.
#[export] Hint Rewrite wrap32_small wrap64_small using (unfold u32_modulus, u64_modulus in *; lia) : nz.

(** [nz_lia] closes arithmetic goals over the two moduli. *)
Ltac nz_lia :=
  unfold in_u32, in_u64 in *;
  rewrite ?u32_modulus_val, ?u64_modulus_val in *; lia.

(** Rewrites every [wrap32]/[wrap64] whose argument is provably in range,
    innermost first when an outer one cannot be discharged yet. *)
Ltac nz_unwrap :=
  repeat match goal with
         | |- context [wrap32 ?z] => rewrite (wrap32_small z) by nz_lia
         | |- context [wrap64 ?z] => rewrite (wrap64_small z) by nz_lia
         end.

(** [nz_ranges] records the range of every [wrap32]/[wrap64] of the goal. *)
Ltac nz_ranges :=
  repeat match goal with
         | |- context [wrap32 ?z] =>
             lazymatch goal with
             | _ : 0 <= wrap32 z < u32_modulus |- _ => fail
             | _ => pose proof (wrap32_range z)
             end
         | |- context [wrap64 ?z] =>
             lazymatch goal with
             | _ : 0 <= wrap64 z < u64_modulus |- _ => fail
             | _ => pose proof (wrap64_range z)
             end
         end.

(** [nz_cases] splits every boolean comparison of the goal into its two
    cases, recording the arithmetic fact in each, and reduces the
    resulting [if]s. *)
Ltac nz_cases :=
  repeat match goal with
         | |- context [Z.eqb ?a ?b] => destruct (Z.eqb_spec a b); lazy iota
         | |- context [Z.ltb ?a ?b] => destruct (Z.ltb_spec a b); lazy iota
         | |- context [Z.leb ?a ?b] => destruct (Z.leb_spec a b); lazy iota
         end.

(** ** Strictly increasing lists (line tables) *)

Fixpoint strictly_increasing (l : list Z) : bool :=
  match l with
  | a :: ((b :: _) as t) => (a <? b) && strictly_increasing t
  | _ => true
  end.

Lemma strictly_increasing_tail a l :
  strictly_increasing (a :: l) = true -> strictly_increasing l = true.
Proof. destruct l; simpl; [done|]. intros [_ ?]%andb_prop. done. Qed.

(** A list whose adjacent entries increase is strictly increasing. *)
Lemma strictly_increasing_intro l :
  (forall i a b, l !! i = Some a -> l !! S i = Some b -> a < b) -> strictly_increasing l = true.
Proof.
  induction l as [|x l IH]; intros H; [done|]. destruct l as [|y l]; [done|].
  cbn [strictly_increasing]. apply andb_true_intro. split.
  - apply Z.ltb_lt. apply (H 0%nat); done.
  - apply IH. intros i a b Ha Hb. apply (H (S i)); done.
Qed.

(** Adjacent entries of a strictly increasing list are increasing. *)
Lemma strictly_increasing_succ l i a b :
  strictly_increasing l = true -> l !! i = Some a -> l !! S i = Some b -> a < b.
Proof.
  revert i. induction l as [|x l IH]; intros i Hs Ha Hb; [done|].
  destruct i as [|i].
  - destruct l as [|y l]; [done|]. simpl in *. simplify_eq.
    apply andb_prop in Hs as [H _]. lia.
  - eapply IH; eauto using strictly_increasing_tail.
Qed.

(** Any two entries are ordered as their indices. *)
Lemma strictly_increasing_lt l i j a b :
  strictly_increasing l = true -> (i < j)%nat ->
  l !! i = Some a -> l !! j = Some b -> a < b.
Proof.
  intros Hs Hij. revert b. induction Hij as [|j Hij IH]; intros b Ha Hb.
  - eauto using strictly_increasing_succ.
  - destruct (l !! j) as [c|] eqn:Hc.
    + pose proof (IH c Ha eq_refl). pose proof (strictly_increasing_succ l j c b Hs Hc Hb). lia.
    + apply lookup_ge_None in Hc. apply lookup_lt_Some in Hb. lia.
Qed.

Lemma strictly_increasing_le l i j a b :
  strictly_increasing l = true -> (i <= j)%nat ->
  l !! i = Some a -> l !! j = Some b -> a <= b.
Proof.
  intros Hs Hij Ha Hb. destruct (decide (i = j)) as [->|]; [rewrite Ha in Hb; injection Hb; lia|].
  enough (a < b) by lia. apply (strictly_increasing_lt l i j); auto; lia.
Qed.

#[export] Hint Resolve strictly_increasing_tail : nz.

(** ** Counting with [filter] *)

(** Filtering with two predicates that agree on the elements of the list. *)
Lemma list_filter_iff_in {A} (P1 P2 : A -> Prop)
    `{!forall x, Decision (P1 x), !forall x, Decision (P2 x)} (l : list A) :
  (forall x, x ∈ l -> (P1 x <-> P2 x)) -> filter P1 l = filter P2 l.
Proof.
  induction l as [|a l IH]; intros Hiff; [done|].
  assert (Ha : P1 a <-> P2 a) by (apply Hiff; constructor).
  rewrite !filter_cons. rewrite IH by (intros x Hx; apply Hiff; by constructor).
  destruct (decide (P1 a)), (decide (P2 a)); [done|exfalso; tauto..|done].
Qed.

(** Among [1 .. n], exactly [min L n] numbers are at most [L]. *)
Lemma filter_seqZ_le (L : Z) (n : nat) :
  0 <= L -> length (filter (fun i => i <= L) (seqZ 1 (Z.of_nat n))) = Z.to_nat (Z.min L (Z.of_nat n)).
Proof.
  intros HL. induction n as [|n IH]; [simpl; lia|].
  rewrite seqZ_S, stdpp.list_basics.list.filter_app, length_app, IH.
  destruct (decide (1 + Z.of_nat n <= L)).
  - rewrite filter_cons_True by done. simpl. lia.
  - rewrite filter_cons_False by done. simpl. lia.
Qed.
