(* ===== verification/Font.v ===== *)
(** * The font interface ([Font.hpp])

    The drawer only reads a font, through the operations named in
    [src/include/Nazara/Utility/Font.hpp].  The two metric structures
    [Font::Glyph] and [Font::SizeInfo] are records here.  The font itself
    is a record of the operations the drawer calls; [FontCache.v] models
    the caches behind them.  Two fonts that answer every query alike are
    equivalent ([font_equiv]). *)

From S2P Require Import Prelude.
From Stdlib Require Import QArith Qround.

(** [Nz::Rect<int>] and [Nz::Rect<unsigned int>]: position and extent. *)
Record Recti := mkRecti { ri_x : Z; ri_y : Z; ri_width : Z; ri_height : Z }.

(** [Font::Glyph] (Font.hpp, lines 102-113). *)
Record FontGlyph := mkFontGlyph {
  aabb : Recti;
  atlasRect : Recti;
  requireFauxBold : bool;
  requireFauxItalic : bool;
  flipped : bool;
  valid : bool;
  fauxOutlineThickness : Q;
  advance : Z;
  layerIndex : Z
}.

(** [Font::SizeInfo] (Font.hpp, lines 115-121). *)
Record SizeInfo := mkSizeInfo {
  spaceAdvance : Z;
  lineHeight : Z;
  underlinePosition : Q;
  underlineThickness : Q
}.

(** The operations of [Font] that the drawer uses.  [GetAtlasLayer]
    stands for [GetAtlas()->GetLayer(i)], an opaque layer handle.
    Characters are UTF-32 code points ([char32_t]) kept as [Z]. *)
Record Font := mkFont {
  IsValid : bool;
  GetGlyph : Z -> Z -> Z -> FontGlyph;   (* characterSize, style, character *)
  GetKerning : Z -> Z -> Z -> Z;         (* characterSize, first, second *)
  GetSizeInfo : Z -> SizeInfo;           (* characterSize *)
  GetAtlasLayer : Z -> Z
}.

(** [Nz::Color]: four 8-bit channels. *)
Record Color := mkColor { col_r : Z; col_g : Z; col_b : Z; col_a : Z }.

Definition Color_White : Color := mkColor 255 255 255 255.

(** Two fonts are equivalent when they answer every query alike.  The
    drawer cannot tell them apart; a font that answers through its caches
    is equivalent to its metrics source ([FontCache.v]). *)
#[export] Instance font_equiv : Equiv Font := fun f1 f2 =>
  IsValid f1 = IsValid f2 /\
  (forall s st c, GetGlyph f1 s st c = GetGlyph f2 s st c) /\
  (forall s a b, GetKerning f1 s a b = GetKerning f2 s a b) /\
  (forall s, GetSizeInfo f1 s = GetSizeInfo f2 s) /\
  (forall i, GetAtlasLayer f1 i = GetAtlasLayer f2 i).

#[export] Instance font_equiv_Equivalence : Equivalence (≡@{Font}).
Proof.
  split.
  - intros f. split_and!; done.
  - intros f1 f2 (?&?&?&?&?). split_and!; congruence.
  - intros f1 f2 f3 (?&?&?&?&?) (?&?&?&?&?). split_and!; congruence.
Qed.

(** ** Float to unsigned conversions

    A float converted to an integer type is truncated toward zero, and the
    conversion is defined only when the truncated value fits the target
    type (C++ [conv.fpint]).  [float_to_u32] is that conversion to
    [unsigned int], with [None] where it is undefined. *)
Definition Qtrunc (q : Q) : Z := if Qle_bool 0 q then Qfloor q else Qceiling q.

Definition float_to_u32 (q : Q) : option Z :=
  let t := Qtrunc q in if bool_decide (0 <= t < u32_modulus)%Z then Some t else None.

Lemma Qtrunc_Z z : Qtrunc (inject_Z z) = z.
Proof. unfold Qtrunc. destruct (Qle_bool _ _); [apply Qfloor_Z | apply Qceiling_Z]. Qed.

Lemma float_to_u32_Z z : float_to_u32 (inject_Z z) = if bool_decide (0 <= z < u32_modulus)%Z then Some z else None.
Proof. unfold float_to_u32. rewrite Qtrunc_Z. done. Qed.
