(* ===== verification/Layout.v ===== *)
(** * Glyph layout: [NzSimpleTextDrawer::UpdateGlyphs]

    The model of [src/src/Nazara/Utility/SimpleTextDrawer.cpp], lines
    189-305.  The drawing pen [drawPos], the last drawn position [lastPos],
    the kerning memory [previousCharacter] and the glyph vector [m_glyphs]
    together form a [LayoutState].  One iteration of the [for] loop is
    [layout_step], and the loop is a [fold_left] over the code points.
    The rectangle and corner computations are in [Q].  The pen is
    [unsigned int], with wrap-around. *)

From S2P Require Import Prelude Font.
From Stdlib Require Import QArith Qround Lqa.

Module Layout.

Local Open Scope Z_scope.

(** ** Data *)

(** [Nz::Vector2ui]. *)
Record Vec2ui := mkVec2ui { ux : Z; uy : Z }.

(** [Nz::Vector2f]. *)
Record Vec2f := mkVec2f { fx : Q; fy : Q }.

(** [Nz::Rectf]. *)
Record Rectf := mkRectf { rf_x : Q; rf_y : Q; rf_width : Q; rf_height : Q }.

(** The four corners of a glyph quad ([Glyph::corners]). *)
Record Corners := mkCorners { corner0 : Vec2f; corner1 : Vec2f; corner2 : Vec2f; corner3 : Vec2f }.

(** [NzAbstractTextDrawer::Glyph]. *)
Record Glyph := mkGlyph {
  g_atlas : Z;
  g_atlasRect : Recti;
  g_color : Color;
  g_corners : Corners;
  g_flipped : bool
}.

(** [Rect::GetCenter] and [Rect::GetMaximum]. *)
Definition rect_center (r : Rectf) : Vec2f :=
  mkVec2f (rf_x r + rf_width r / 2)%Q (rf_y r + rf_height r / 2)%Q.

Definition rect_maximum (r : Rectf) : Vec2f :=
  mkVec2f (rf_x r + rf_width r)%Q (rf_y r + rf_height r)%Q.

(** [Rect<unsigned>::MakeZero] and [Rect::ExtendTo(point)]. *)
Definition rect_zero : Recti := mkRecti 0 0 0 0.

Definition rect_extend_to (r : Recti) (p : Vec2ui) : Recti :=
  let xMax := Z.max (ri_x r + ri_width r) (ux p) in
  let yMax := Z.max (ri_y r + ri_height r) (uy p) in
  let x := Z.min (ri_x r) (ux p) in
  let y := Z.min (ri_y r) (uy p) in
  mkRecti x y (xMax - x) (yMax - y).

(** ** Character classes of the [switch] (lines 233-251) *)

Inductive CharClass := CSpace | CNewline | CTab | COther.

Definition classify (c : Z) : CharClass :=
  if c =? 32 then CSpace
  else if c =? 10 then CNewline
  else if c =? 9 then CTab
  else COther.

Definition is_whitespace (c : Z) : bool :=
  match classify c with COther => false | _ => true end.

(** ** Faux bold and faux italic geometry (lines 266-296) *)

Definition faux_bold_factor : Q := 11 # 10.
Definition faux_italic_skew : Q := 26 # 125.

(** [NzRectf bounds(fontGlyph.aabb); bounds.x += drawPos.x; bounds.y += drawPos.y;] *)
Definition glyph_rect (fg : FontGlyph) (p : Vec2ui) : Rectf :=
  let b := aabb fg in
  mkRectf (inject_Z (ri_x b) + inject_Z (ux p))%Q (inject_Z (ri_y b) + inject_Z (uy p))%Q
          (inject_Z (ri_width b)) (inject_Z (ri_height b)).

(** Lines 274-282: grow by 1.1 and move back to the original vertical centre. *)
Definition apply_faux_bold (r : Rectf) : Rectf :=
  let center := rect_center r in
  let grown := mkRectf (rf_x r) (rf_y r) (rf_width r * faux_bold_factor)%Q
                       (rf_height r * faux_bold_factor)%Q in
  let offset_y := (fy (rect_center grown) - fy center)%Q in
  mkRectf (rf_x grown) (rf_y grown - offset_y)%Q (rf_width grown) (rf_height grown).

(** Lines 289-296: the corners, sheared by the italic skew. *)
Definition glyph_corners (italic : bool) (r : Rectf) : Corners :=
  let it := if italic then faux_italic_skew else 0%Q in
  let italicTop := (it * rf_y r)%Q in
  let italicBottom := (it * fy (rect_maximum r))%Q in
  mkCorners
    (mkVec2f (rf_x r - italicTop)%Q (rf_y r))
    (mkVec2f (rf_x r + rf_width r - italicTop)%Q (rf_y r))
    (mkVec2f (rf_x r - italicBottom)%Q (rf_y r + rf_height r)%Q)
    (mkVec2f (rf_x r + rf_width r - italicBottom)%Q (rf_y r + rf_height r)%Q).

(** [float advance = fontGlyph.advance;] and [advance *= 1.1f] under faux bold. *)
Definition glyph_advance (fg : FontGlyph) : Q :=
  if requireFauxBold fg then (inject_Z (advance fg) * faux_bold_factor)%Q
  else inject_Z (advance fg).

(** [drawPos.x += advance] (line 301): the unsigned pen plus the float
    advance, converted back to [unsigned int] by truncation toward zero.
    The conversion is undefined when the sum leaves [0, 2^32); the layout
    keeps it total by wrapping there, as x86-64 code computes it (the
    truncated value taken modulo 2^32). *)
Definition advance_pen (p : Vec2ui) (adv : Q) : Vec2ui :=
  mkVec2ui (wrap32 (Qtrunc (inject_Z (ux p) + adv)%Q)) (uy p).

(** ** The layout loop *)

Record LayoutState := mkLayoutState {
  drawPos : Vec2ui;
  lastPos : Vec2ui;
  previousCharacter : Z;
  glyphs : list Glyph
}.

(** The pen and the last drawn position are [Vector2ui] values: their
    coordinates fit an [unsigned int]. *)
Definition pen_u32 (st : LayoutState) : Prop :=
  in_u32 (ux (drawPos st)) /\ in_u32 (uy (drawPos st)) /\
  in_u32 (ux (lastPos st)) /\ in_u32 (uy (lastPos st)).

(** A valid [Rect<unsigned int>]. *)
Definition rect_u32 (r : Recti) : Prop :=
  in_u32 (ri_x r) /\ in_u32 (ri_y r) /\ in_u32 (ri_width r) /\ in_u32 (ri_height r).

Section WithFont.
Context (font : Font) (characterSize style : Z) (color : Color).

(** Lines 260-264 and 268-296: the glyph emitted at pen position [p]. *)
Definition make_glyph (fg : FontGlyph) (p : Vec2ui) : Glyph :=
  let r0 := glyph_rect fg p in
  let r := if requireFauxBold fg then apply_faux_bold r0 else r0 in
  mkGlyph (GetAtlasLayer font (layerIndex fg)) (atlasRect fg) color
          (glyph_corners (requireFauxItalic fg) r) (flipped fg).

(** Lines 227-228: kerning with the previous character, if any. *)
Definition kern_pen (st : LayoutState) (c : Z) : Vec2ui :=
  let p := drawPos st in
  if previousCharacter st =? 0 then p
  else mkVec2ui (wrap32 (ux p + GetKerning font characterSize (previousCharacter st) c)) (uy p).

(** Lines 233-251: the pen after a whitespace character, [None] otherwise.
    [spaceAdvance*4] is an [int] product, undefined when it overflows
    (for a space advance of 2^29 or more); the model computes it exactly
    and wraps the sum into the unsigned pen. *)
Definition whitespace_pen (si : SizeInfo) (c : Z) (p : Vec2ui) : option Vec2ui :=
  match classify c with
  | CSpace => Some (mkVec2ui (wrap32 (ux p + spaceAdvance si)) (uy p))
  | CNewline => Some (mkVec2ui 0 (wrap32 (uy p + lineHeight si)))
  | CTab => Some (mkVec2ui (wrap32 (ux p + spaceAdvance si * 4)) (uy p))
  | COther => None
  end.

(** One iteration of the loop of lines 223-302. *)
Definition layout_step (si : SizeInfo) (st : LayoutState) (c : Z) : LayoutState :=
  let p := kern_pen st c in
  match whitespace_pen si c p with
  | Some p' => mkLayoutState p' (lastPos st) c (glyphs st)
  | None =>
      let fg := GetGlyph font characterSize style c in
      if valid fg then
        mkLayoutState (advance_pen p (glyph_advance fg)) p c (glyphs st ++ [make_glyph fg p])
      else mkLayoutState p (lastPos st) c (glyphs st)
  end.

(** Lines 218-222: the state before the loop. *)
Definition layout_init : LayoutState :=
  mkLayoutState (mkVec2ui 0 characterSize) (mkVec2ui 0 0) 0 [].

Definition layout_run (text : list Z) : LayoutState :=
  fold_left (layout_step (GetSizeInfo font characterSize)) text layout_init.

(** A character that yields a glyph. *)
Definition emits (c : Z) : bool :=
  negb (is_whitespace c) && valid (GetGlyph font characterSize style c).
End WithFont.

(** [UpdateGlyphs], lines 189-305.  A null or invalid font and an empty
    text give no glyph and the zero rectangle. *)
Definition UpdateGlyphs (font : option Font) (characterSize style : Z) (color : Color)
    (text : list Z) : list Glyph * Recti :=
  match font with
  | None => ([], rect_zero)
  | Some f =>
      if negb (IsValid f) then ([], rect_zero)
      else match text with
           | [] => ([], rect_zero)
           | _ :: _ =>
               let st := layout_run f characterSize style color text in
               (glyphs st, rect_extend_to rect_zero (lastPos st))
           end
  end.

(** A small font used by the examples: every character but NUL has a valid
    8x10 glyph with advance 8, lines are 12 high, spaces 4 wide, and every
    kerning pair is [kern]. *)
Definition sample_font (kern : Z) : Font :=
  mkFont true
    (fun _ _ c => mkFontGlyph (mkRecti 0 (-10) 8 10) (mkRecti 0 0 8 10)
                    false false false (negb (c =? 0)) 0 8 0)
    (fun _ _ _ => kern)
    (fun _ => mkSizeInfo 4 12 0 0)
    (fun i => i).

(** ** Properties of the layout *)

Section LayoutProperties.
Context (font : Font) (characterSize style : Z) (color : Color).

Local Abbreviation step := (layout_step font characterSize style color (GetSizeInfo font characterSize)).
Local Abbreviation run := (layout_run font characterSize style color).
Local Abbreviation emits' := (emits font characterSize style).
Local Abbreviation glyph_of c p := (make_glyph font color (GetGlyph font characterSize style c) p).

(** One step appends exactly the glyph of an emitting character, drawn
    at the kerned pen position, and records that position. *)
Lemma layout_step_glyphs st c :
  glyphs (step st c) =
    glyphs st ++ (if emits' c then [glyph_of c (kern_pen font characterSize st c)] else []) /\
  lastPos (step st c) = (if emits' c then kern_pen font characterSize st c else lastPos st).
Proof.
  unfold layout_step, whitespace_pen, emits, is_whitespace.
  destruct (classify c); simpl; rewrite ?app_nil_r; [done..|].
  destruct (valid _); simpl; rewrite ?app_nil_r; done.
Qed.

Lemma fold_glyph_count text st :
  length (glyphs (fold_left step text st)) = (length (glyphs st) + length (filter emits' text))%nat.
Proof.
  revert st. induction text as [|c text IH]; intros st; simpl; [lia|].
  rewrite IH, (proj1 (layout_step_glyphs st c)), length_app, filter_cons.
  destruct (emits' c); simpl; lia.
Qed.

(** Characters that emit nothing leave the glyphs and [lastPos] alone. *)
Lemma fold_silent text st :
  Forall (fun c => emits' c = false) text ->
  glyphs (fold_left step text st) = glyphs st /\ lastPos (fold_left step text st) = lastPos st.
Proof.
  revert st. induction text as [|c text IH]; intros st Hs; simpl; [done|].
  inversion Hs as [|? ? Hc Hs0]; subst; clear Hs; rename Hs0 into Hs.
  destruct (IH (step st c) Hs) as [-> ->].
  destruct (layout_step_glyphs st c) as [-> ->]. rewrite Hc, app_nil_r. done.
Qed.

Lemma whitespace_silent text :
  Forall (fun c => is_whitespace c = true) text -> Forall (fun c => emits' c = false) text.
Proof. apply Forall_impl. unfold emits. intros c ->. done. Qed.

Lemma rect_extend_to_origin : rect_extend_to rect_zero (mkVec2ui 0 0) = rect_zero.
Proof. reflexivity. Qed.

(** An emitting character draws its glyph at the kerned pen and
    advances the pen past it. *)
Lemma layout_step_emit st c :
  emits' c = true ->
  step st c =
    mkLayoutState (advance_pen (kern_pen font characterSize st c)
                     (glyph_advance (GetGlyph font characterSize style c)))
                  (kern_pen font characterSize st c) c
                  (glyphs st ++ [glyph_of c (kern_pen font characterSize st c)]).
Proof.
  unfold emits, is_whitespace, layout_step, whitespace_pen.
  destruct (classify c); simpl; [discriminate..|]. intros Hv. rewrite ?Hv. done.
Qed.

Lemma kern_pen_init c : kern_pen font characterSize (layout_init characterSize) c = mkVec2ui 0 characterSize.
Proof. reflexivity. Qed.

(** A zero kerning leaves an in-range pen where it is. *)
Lemma kern_pen_zero st c :
  GetKerning font characterSize (previousCharacter st) c = 0 -> in_u32 (ux (drawPos st)) ->
  kern_pen font characterSize st c = drawPos st.
Proof.
  intros Hk Hin. unfold kern_pen. destruct (_ =? 0); [done|].
  rewrite Hk, Z.add_0_r, wrap32_small by done. destruct (drawPos st); done.
Qed.

(** Helper: the layout of a nonempty text through a valid font. *)
Lemma UpdateGlyphs_valid_run text :
  IsValid font = true -> text <> [] ->
  UpdateGlyphs (Some font) characterSize style color text =
    (glyphs (run text), rect_extend_to rect_zero (lastPos (run text))).
Proof. intros Hv Hne. unfold UpdateGlyphs. rewrite ?Hv. destruct text; done. Qed.

Lemma layout_step_pen st c : pen_u32 st -> pen_u32 (step st c).
Proof.
  intros (Hx & Hy & Hlx & Hly).
  assert (Hk : in_u32 (ux (kern_pen font characterSize st c)) /\
               uy (kern_pen font characterSize st c) = uy (drawPos st)).
  { unfold kern_pen. destruct (_ =? 0); simpl; [done|]. split; [apply wrap32_in_u32|done]. }
  destruct Hk as [Hkx Hky].
  unfold layout_step, whitespace_pen, pen_u32.
  destruct (classify c); simpl; [| | |destruct (valid _); simpl];
    rewrite ?Hky; unfold in_u32 in *; nz_ranges; simpl; nz_lia.
Qed.

Lemma fold_pen text st : pen_u32 st -> pen_u32 (fold_left step text st).
Proof.
  revert st. induction text as [|c text IH]; intros st Hp; simpl; [done|].
  apply IH, layout_step_pen, Hp.
Qed.

(** The last glyph, if any, is the glyph of some character drawn at
    [lastPos]. *)
Lemma fold_last_glyph text st :
  (glyphs st = [] \/ exists c, list.last (glyphs st) = Some (glyph_of c (lastPos st))) ->
  pen_u32 st ->
  (glyphs (fold_left step text st) = [] \/
   exists c, list.last (glyphs (fold_left step text st)) = Some (glyph_of c (lastPos (fold_left step text st)))) /\
  pen_u32 (fold_left step text st).
Proof.
  revert st. induction text as [|c text IH]; intros st Hl Hp; simpl; [done|].
  apply IH; [|by apply layout_step_pen].
  destruct (layout_step_glyphs st c) as [-> ->]. destruct (emits' c).
  - right. exists c. apply last_snoc.
  - rewrite app_nil_r. done.
Qed.
(** The pen's abscissa stays an [unsigned int]. *)
Lemma layout_step_ux st c : in_u32 (ux (drawPos st)) -> in_u32 (ux (drawPos (step st c))).
Proof.
  intros Hx. unfold layout_step, whitespace_pen, kern_pen.
  destruct (_ =? 0), (classify c); simpl; try destruct (valid _); simpl;
    first [apply wrap32_in_u32 | done | unfold in_u32; nz_lia].
Qed.

Lemma fold_ux text st : in_u32 (ux (drawPos st)) -> in_u32 (ux (drawPos (fold_left step text st))).
Proof.
  revert st. induction text as [|c text IH]; intros st Hx; simpl; [done|].
  apply IH, layout_step_ux, Hx.
Qed.

Section ZeroKerning.
Hypothesis Hk : forall a b, GetKerning font characterSize a b = 0.
Local Set Default Proof Using "All".

(** Without kerning, a step does not read the previous character. *)
Lemma step_zero_kerning st1 st2 c :
  drawPos st1 = drawPos st2 -> lastPos st1 = lastPos st2 -> glyphs st1 = glyphs st2 ->
  in_u32 (ux (drawPos st1)) -> step st1 c = step st2 c.
Proof.
  intros Hd Hl Hg Hx. unfold layout_step.
  rewrite (kern_pen_zero st1 c), (kern_pen_zero st2 c), Hd, Hl, Hg; rewrite ?Hk, <- ?Hd; done.
Qed.

Lemma fold_zero_kerning text st1 st2 :
  drawPos st1 = drawPos st2 -> lastPos st1 = lastPos st2 -> glyphs st1 = glyphs st2 ->
  in_u32 (ux (drawPos st1)) ->
  glyphs (fold_left step text st1) = glyphs (fold_left step text st2) /\
  lastPos (fold_left step text st1) = lastPos (fold_left step text st2).
Proof.
  destruct text as [|c text]; intros Hd Hl Hg Hx; simpl; [done|].
  rewrite (step_zero_kerning st1 st2 c) by done. done.
Qed.

(** A tab moves the pen as four spaces do, and neither draws. *)
Lemma tab_four_spaces st :
  in_u32 (ux (drawPos st)) ->
  drawPos (step st 9) = drawPos (fold_left step [32; 32; 32; 32] st) /\
  lastPos (step st 9) = lastPos (fold_left step [32; 32; 32; 32] st) /\
  glyphs (step st 9) = glyphs (fold_left step [32; 32; 32; 32] st) /\
  in_u32 (ux (drawPos (step st 9))).
Proof.
  intros Hx. split_and!; [|done|done|by apply layout_step_ux].
  unfold layout_step, whitespace_pen. simpl.
  rewrite !(kern_pen_zero st), !Hk by (rewrite ?Hk; done).
  rewrite !Z.add_0_r, !wrap32_wrap.
  repeat (rewrite <- ?Z.add_assoc; rewrite wrap32_add_wrap_l). do 2 f_equal. lia.
Qed.
End ZeroKerning.
End LayoutProperties.

(** ** The layout only reads the font

    [UpdateGlyphs] gives the same result on equivalent fonts, so a font
    may be replaced by any font that answers alike (setoid rewriting with
    [≡]). *)

Lemma layout_step_equiv f1 f2 characterSize style color si st c :
  f1 ≡ f2 ->
  layout_step f1 characterSize style color si st c = layout_step f2 characterSize style color si st c.
Proof.
  intros (_ & Hg & Hk & _ & Ha). unfold layout_step, kern_pen, make_glyph.
  rewrite ?Hk, ?Hg, ?Ha. done.
Qed.

Lemma layout_run_equiv f1 f2 characterSize style color text :
  f1 ≡ f2 -> layout_run f1 characterSize style color text = layout_run f2 characterSize style color text.
Proof.
  intros Hf. unfold layout_run. pose proof Hf as (_ & _ & _ & Hs & _). rewrite Hs.
  generalize (layout_init characterSize). induction text as [|c text IH]; intros st; [done|].
  simpl. rewrite (layout_step_equiv f1 f2) by done. apply IH.
Qed.

#[export] Instance UpdateGlyphs_proper :
  Proper ((≡@{option Font}) ==> (=) ==> (=) ==> (=) ==> (=) ==> (=)) UpdateGlyphs.
Proof.
  intros fo1 fo2 Hfo cs ? <- style ? <- color ? <- text ? <-.
  destruct Hfo as [f1 f2 Hf|]; [|done]. unfold UpdateGlyphs.
  rewrite (layout_run_equiv f1 f2) by done. destruct Hf as [Hv _]. by rewrite ?Hv.
Qed.

(** C3: the number of glyphs is the number of characters that are neither
    a space, a newline nor a tab and whose font glyph is valid. *)
Theorem UpdateGlyphs_glyph_count (f : Font) characterSize style color text :
  IsValid f = true ->
  length (UpdateGlyphs (Some f) characterSize style color text).1 =
    length (filter (emits f characterSize style) text).
Proof.
  intros Hv. destruct text as [|c text]; [unfold UpdateGlyphs; rewrite ?Hv; done|].
  rewrite UpdateGlyphs_valid_run by done. simpl.
  unfold layout_run. rewrite fold_glyph_count. done.
Qed.

Lemma UpdateGlyphs_glyph_count_witness :
  length (UpdateGlyphs (Some (sample_font 0)) 10 0 Color_White [65; 32; 0; 66]).1 =
    length (filter (emits (sample_font 0) 10 0) [65; 32; 0; 66]).
Proof. apply UpdateGlyphs_glyph_count. reflexivity. Defined.

(** Helper: without faux bold, the pen advances by the integer advance. *)
Lemma advance_pen_int p fg :
  requireFauxBold fg = false ->
  advance_pen p (glyph_advance fg) = mkVec2ui (wrap32 (ux p + advance fg)) (uy p).
Proof.
  intros Hb. unfold advance_pen, glyph_advance. rewrite Hb, <- inject_Z_plus, Qtrunc_Z. done.
Qed.

(** C4: with no font, or an invalid one, the layout is empty and the bounds
    are the zero rectangle, whatever the text. *)
Theorem UpdateGlyphs_invalid_font fo characterSize style color text :
  (forall f, fo = Some f -> IsValid f = false) ->
  UpdateGlyphs fo characterSize style color text = ([], rect_zero).
Proof.
  intros H. destruct fo as [f|]; [|done]. simpl. rewrite (H f eq_refl). done.
Qed.

Lemma UpdateGlyphs_invalid_font_witness :
  UpdateGlyphs None 12 0 Color_White [65; 66] = ([], rect_zero).
Proof. apply UpdateGlyphs_invalid_font. intros f Hf. discriminate Hf. Defined.

(** A text made only of spaces, tabs and newlines yields no glyph and
    the zero rectangle, although the pen moves. *)
Theorem UpdateGlyphs_whitespace_only fo characterSize style color text :
  Forall (fun c => is_whitespace c = true) text ->
  UpdateGlyphs fo characterSize style color text = ([], rect_zero).
Proof.
  intros Hws. destruct fo as [f|]; [|done]. unfold UpdateGlyphs.
  destruct text as [|c t]; [destruct (IsValid f); done|].
  destruct (fold_silent f characterSize style color (c :: t) (layout_init characterSize))
    as [Hg Hl].
  { by apply whitespace_silent. }
  unfold layout_run. rewrite Hg, Hl. destruct (IsValid f); done.
Qed.

(** C6: whitespace after the last glyph, newlines included, changes neither
    the glyphs nor the bounding box: the box only grows when a glyph is
    emitted ([lastPos] is only written at line 300). *)
Theorem UpdateGlyphs_trailing_whitespace (f : Font) characterSize style color text ws :
  IsValid f = true -> text <> [] ->
  Forall (fun c => is_whitespace c = true) ws ->
  UpdateGlyphs (Some f) characterSize style color (text ++ ws) =
    UpdateGlyphs (Some f) characterSize style color text.
Proof.
  intros Hv Hne Hws.
  rewrite !UpdateGlyphs_valid_run by (done || (destruct text; done)).
  unfold layout_run. rewrite fold_left_app.
  destruct (fold_silent f characterSize style color ws
              (fold_left (layout_step f characterSize style color
                 (GetSizeInfo f characterSize)) text (layout_init characterSize))) as [-> ->].
  { by apply whitespace_silent. }
  done.
Qed.

Lemma UpdateGlyphs_trailing_whitespace_witness :
  UpdateGlyphs (Some (sample_font 0)) 10 0 Color_White ([65] ++ [10; 10; 32]) =
    UpdateGlyphs (Some (sample_font 0)) 10 0 Color_White [65].
Proof. apply UpdateGlyphs_trailing_whitespace; [reflexivity | discriminate | repeat constructor]. Defined.

(** C7 (Scenario A): two glyphs with no kerning between them.  The second
    glyph starts one advance of the first to the right, and the bounding box
    reaches the pen position of the second glyph. *)
Theorem UpdateGlyphs_two_glyphs (f : Font) characterSize style color a b :
  IsValid f = true ->
  emits f characterSize style a = true -> emits f characterSize style b = true ->
  GetKerning f characterSize a b = 0 ->
  requireFauxBold (GetGlyph f characterSize style a) = false ->
  requireFauxItalic (GetGlyph f characterSize style a) = false ->
  requireFauxItalic (GetGlyph f characterSize style b) = false ->
  ri_x (aabb (GetGlyph f characterSize style a)) = ri_x (aabb (GetGlyph f characterSize style b)) ->
  0 <= advance (GetGlyph f characterSize style a) < u32_modulus ->
  0 <= characterSize ->
  exists g1 g2,
    UpdateGlyphs (Some f) characterSize style color [a; b] =
      ([g1; g2], mkRecti 0 0 (advance (GetGlyph f characterSize style a)) characterSize) /\
    (fx (corner0 (g_corners g2)) ==
       fx (corner0 (g_corners g1)) + inject_Z (advance (GetGlyph f characterSize style a)))%Q.
Proof.
  intros Hv Ha Hb Hk Hbold Hia Hib Hx Hadv Hcs.
  rewrite UpdateGlyphs_valid_run by done. unfold layout_run. simpl.
  rewrite (layout_step_emit _ _ _ _ _ a), kern_pen_init by done. simpl.
  rewrite advance_pen_int by done. simpl.
  rewrite layout_step_emit, kern_pen_zero by (simpl; auto with nz). simpl.
  nz_unwrap. rewrite Z.add_0_l.
  eexists _, _. split; [f_equal; unfold rect_extend_to; simpl; f_equal; lia|].
  unfold make_glyph, glyph_corners. rewrite Hia, Hib.
  destruct (requireFauxBold (GetGlyph f characterSize style b)); rewrite ?Hbold; simpl.
    all: rewrite Hx; change (inject_Z 0) with 0%Q; rewrite !Qmult_0_l; lra.
Qed.

Lemma UpdateGlyphs_two_glyphs_witness :
  exists g1 g2,
    UpdateGlyphs (Some (sample_font 0)) 10 0 Color_White [65; 66] =
      ([g1; g2], mkRecti 0 0 (advance (GetGlyph (sample_font 0) 10 0 65)) 10) /\
    (fx (corner0 (g_corners g2)) ==
       fx (corner0 (g_corners g1)) + inject_Z (advance (GetGlyph (sample_font 0) 10 0 65)))%Q.
Proof. apply UpdateGlyphs_two_glyphs; try reflexivity; simpl; nz_lia. Defined.

(** C8: a tab advances the pen as four spaces do (spec section 4.1:
    [4 x spaceAdvance]).  With a font that has no kerning, a text with a
    tab lays out exactly as the text with the tab replaced by four spaces:
    the same glyphs at the same places and the same bounds.  The product
    [spaceAdvance*4] and the four sums agree modulo 2^32. *)
Theorem UpdateGlyphs_tab_four_spaces font characterSize style color pre post :
  (forall a b, GetKerning font characterSize a b = 0) ->
  UpdateGlyphs (Some font) characterSize style color (pre ++ 9 :: post) =
    UpdateGlyphs (Some font) characterSize style color (pre ++ [32; 32; 32; 32] ++ post).
Proof.
  intros Hk. destruct (IsValid font) eqn:Hv; [|unfold UpdateGlyphs; rewrite Hv; done].
  rewrite !(UpdateGlyphs_valid_run font) by (done || by destruct pre).
  unfold layout_run. rewrite !fold_left_app.
  change (fold_left ?f (9 :: post) ?a) with (fold_left f post (f a 9)).
  pose proof (fold_ux font characterSize style color pre (layout_init characterSize)
                ltac:(unfold in_u32; simpl; nz_lia)) as Hx.
  destruct (tab_four_spaces font characterSize style color Hk _ Hx) as (Hd & Hl & Hg & Hx1).
  destruct (fold_zero_kerning font characterSize style color Hk post _ _ Hd Hl Hg Hx1) as [-> ->].
  done.
Qed.

Lemma UpdateGlyphs_tab_four_spaces_witness :
  UpdateGlyphs (Some (sample_font 0)) 10 0 Color_White ([65] ++ 9 :: [66]) =
    UpdateGlyphs (Some (sample_font 0)) 10 0 Color_White ([65] ++ [32; 32; 32; 32] ++ [66]).
Proof. apply UpdateGlyphs_tab_four_spaces. intros a b. reflexivity. Defined.

(** C9: faux bold grows the glyph rectangle by the factor 1.1 in both
    directions.  It keeps the left edge and the vertical centre, so the
    glyph grows to the right and evenly up and down. *)
Theorem apply_faux_bold_spec r :
  (rf_x (apply_faux_bold r) == rf_x r /\
   rf_width (apply_faux_bold r) == faux_bold_factor * rf_width r /\
   rf_height (apply_faux_bold r) == faux_bold_factor * rf_height r /\
   fy (rect_center (apply_faux_bold r)) == fy (rect_center r))%Q.
Proof. unfold apply_faux_bold, rect_center; simpl; repeat split; ring. Qed.

(** The pen is an [unsigned int] and the kerning an [int].  A negative
    kerning larger than the pen's abscissa (for instance at the start of a
    line, where [previousCharacter] is the newline) wraps the pen around to
    about 2^32 instead of clamping it at 0. *)
Theorem kern_pen_wraps (f : Font) characterSize st c :
  previousCharacter st <> 0 -> in_u32 (ux (drawPos st)) ->
  - u32_modulus <= ux (drawPos st) + GetKerning f characterSize (previousCharacter st) c < 0 ->
  ux (kern_pen f characterSize st c) =
    ux (drawPos st) + GetKerning f characterSize (previousCharacter st) c + u32_modulus.
Proof.
  intros Hp Hin Hneg. unfold kern_pen.
  apply Z.eqb_neq in Hp. rewrite Hp. simpl. apply wrap32_neg. done.
Qed.

(** C10 (end to end): after a newline, a negative kerning wraps the pen
    around.  For a text made of a newline and one character that yields a
    glyph, with a negative kerning between the two, the glyph is drawn at
    abscissa [2^32 + kerning] instead of near 0, and the bounds reach it:
    the box is about 2^32 wide. *)
Theorem UpdateGlyphs_kerning_wraps (f : Font) characterSize style color c :
  IsValid f = true -> emits f characterSize style c = true ->
  - u32_modulus <= GetKerning f characterSize 10 c < 0 ->
  let p := mkVec2ui (u32_modulus + GetKerning f characterSize 10 c)
                    (wrap32 (characterSize + lineHeight (GetSizeInfo f characterSize))) in
  UpdateGlyphs (Some f) characterSize style color [10; c] =
    ([make_glyph f color (GetGlyph f characterSize style c) p], mkRecti 0 0 (ux p) (uy p)).
Proof.
  intros Hv He Hk p. rewrite UpdateGlyphs_valid_run by done. unfold layout_run. simpl.
  rewrite layout_step_emit by done. simpl.
  assert (Hp : kern_pen f characterSize (layout_step f characterSize style color
                 (GetSizeInfo f characterSize) (layout_init characterSize) 10) c = p).
  { unfold kern_pen, p. simpl. rewrite wrap32_neg by lia. f_equal. lia. }
  rewrite Hp. unfold rect_extend_to, p. simpl. pose proof (wrap32_range (characterSize + lineHeight (GetSizeInfo f characterSize))).
  f_equal. f_equal; lia.
Qed.

(** The layout of ["\nB"] with kerning -2: the box reaches 2^32 - 2. *)
Lemma UpdateGlyphs_kerning_wraps_witness :
  (UpdateGlyphs (Some (sample_font (-2))) 10 0 Color_White [10; 66]).2 = mkRecti 0 0 4294967294 22 /\
  let p := mkVec2ui (u32_modulus + GetKerning (sample_font (-2)) 10 10 66)
                    (wrap32 (10 + lineHeight (GetSizeInfo (sample_font (-2)) 10))) in
  UpdateGlyphs (Some (sample_font (-2))) 10 0 Color_White [10; 66] =
    ([make_glyph (sample_font (-2)) Color_White (GetGlyph (sample_font (-2)) 10 0 66) p],
     mkRecti 0 0 (ux p) (uy p)).
Proof.
  split; [vm_compute; reflexivity|].
  apply UpdateGlyphs_kerning_wraps; [reflexivity|reflexivity|simpl; nz_lia].
Defined.

(** C37: the bounds that [UpdateGlyphs] reports are the rectangle from
    the origin to the pen position at which the last glyph was drawn.  The
    last glyph itself, which extends from that position by its box, lies
    outside them. *)
Theorem UpdateGlyphs_bounds_last_pen (f : Font) characterSize style color text :
  IsValid f = true -> in_u32 characterSize ->
  (UpdateGlyphs (Some f) characterSize style color text).1 = [] \/
  exists c p, list.last (UpdateGlyphs (Some f) characterSize style color text).1 =
                Some (make_glyph f color (GetGlyph f characterSize style c) p) /\
              (UpdateGlyphs (Some f) characterSize style color text).2 = mkRecti 0 0 (ux p) (uy p).
Proof.
  intros Hv Hcs. destruct text as [|c0 text]; [left; unfold UpdateGlyphs; rewrite ?Hv; done|].
  rewrite UpdateGlyphs_valid_run by done. unfold layout_run. cbn [fst snd].
  destruct (fold_last_glyph f characterSize style color (c0 :: text) (layout_init characterSize))
    as [Hl (_ & _ & Hx & Hy)]; [by left|unfold pen_u32, layout_init; simpl; unfold in_u32 in *; nz_lia|].
  unfold in_u32 in Hx, Hy.
  destruct Hl as [Hn|(c & Hc)]; [by left|].
  right. do 2 eexists. split; [exact Hc|].
  unfold rect_extend_to, rect_zero. cbn [ri_x ri_y ri_width ri_height]. f_equal; lia.
Qed.

(** The layout of "AB": B is drawn at x = 8 and reaches x = 16, while the
    bounds stop at x = 8. *)
Lemma UpdateGlyphs_bounds_last_pen_witness :
  (UpdateGlyphs (Some (sample_font 0)) 10 0 Color_White [65; 66]).2 = mkRecti 0 0 8 10 /\
  option_map (fun g => fx (corner1 (g_corners g)))
    (list.last (UpdateGlyphs (Some (sample_font 0)) 10 0 Color_White [65; 66]).1) = Some 16%Q /\
  ((UpdateGlyphs (Some (sample_font 0)) 10 0 Color_White [65; 66]).1 = [] \/
   exists c p, list.last (UpdateGlyphs (Some (sample_font 0)) 10 0 Color_White [65; 66]).1 =
                 Some (make_glyph (sample_font 0) Color_White (GetGlyph (sample_font 0) 10 0 c) p) /\
               (UpdateGlyphs (Some (sample_font 0)) 10 0 Color_White [65; 66]).2 = mkRecti 0 0 (ux p) (uy p)).
Proof.
  split; [vm_compute; reflexivity|]. split; [vm_compute; reflexivity|].
  apply UpdateGlyphs_bounds_last_pen; [reflexivity|nz_lia].
Defined.

End Layout.
