(* ===== verification/FontCache.v ===== *)
(** * The font's metric caches ([Font.hpp], lines 133-152)

    [Font::GetGlyph], [GetKerning] and [GetSizeInfo] are [const] members
    that answer through three [mutable] caches (lines 150-152).  Their
    bodies are in [Font.cpp], which is not among the sources, so they are
    modelled from the spec: section 2 says the metrics are "cached by
    size/style/outline key", and section 6 lists the three queries.  The
    layout of the caches is the header's:
    - [m_glyphes]: a glyph map ([GlyphMap], line 133) per key that
      [ComputeKey] (line 135) computes from the size and the style;
    - [m_kerningCache]: a map per character size, indexed by a key of the
      character pair;
    - [m_sizeInfoCache]: one [SizeInfo] per character size.
    The 64-bit keys are computed by functions the model leaves abstract
    ([ComputeKey], [KerningKey]).  The outline thickness is not part of the
    interface the drawer uses, so it is not a key component here.

    The metrics source [FontData] ([m_data], line 149) answers each query.
    A query is answered from the cache on a hit.  On a miss the source is
    asked and the answer stored.  [run_ok] shows that, when the keys only
    merge queries the source answers alike, a font answers every sequence
    of queries as its source would.

    Limits.  This is a model of the caches as the spec describes them,
    not of [Font.cpp].  It caches metrics only: a glyph extracted again
    after [ClearGlyphCache] gets the same answer, whereas the font places
    it again in its atlas, where its [atlasRect] and [layerIndex] may
    change.  That is why the drawer invalidates its layout on a cleared
    glyph cache; [Drawer.notified_change] states what each notification
    allows, independently of this file.  No property of the development
    rests on this file. *)

From stdpp Require Import gmap.
From Stdlib Require Import QArith.
From S2P Require Import Prelude Font Layout.
Import Layout.

Module FontCache.

(** The metrics source of a created font ([std::unique_ptr<FontData>]). *)
Record FontData := mkFontData {
  ExtractGlyph : Z -> Z -> Z -> FontGlyph;   (* characterSize, style, character *)
  QueryKerning : Z -> Z -> Z -> Z;           (* characterSize, first, second *)
  QuerySizeInfo : Z -> SizeInfo              (* characterSize *)
}.

(** [using GlyphMap = std::unordered_map<char32_t, Glyph>] (line 133). *)
Abbreviation GlyphMap := (gmap Z FontGlyph).

(** The three [mutable] caches (lines 150-152). *)
Record FontCaches := mkFontCaches {
  m_kerningCache : gmap Z (gmap Z Z);
  m_glyphes : gmap Z GlyphMap;
  m_sizeInfoCache : gmap Z SizeInfo
}.

Definition empty_caches : FontCaches := mkFontCaches ∅ ∅ ∅.

(** The queries and cache operations a client performs, and their answers. *)
Inductive FontCall :=
  | CallGetGlyph (characterSize style character : Z)
  | CallGetKerning (characterSize first second : Z)
  | CallGetSizeInfo (characterSize : Z)
  | CallPrecache (characterSize style character : Z)
  | CallClearGlyphCache
  | CallClearKerningCache
  | CallClearSizeInfoCache.

Inductive FontAnswer :=
  | AnsGlyph (g : FontGlyph)
  | AnsKerning (k : Z)
  | AnsSizeInfo (si : SizeInfo)
  | AnsBool (b : bool).

Section Caches.
Context (fd : FontData) (ComputeKey : Z -> Z -> Z) (KerningKey : Z -> Z -> Z).

(** [GetGlyph] with [PrecacheGlyph]: look the character up in the glyph
    map of the key, extract and store it on a miss. *)
Definition Font_GetGlyph (characterSize style character : Z) (c : FontCaches)
    : FontGlyph * FontCaches :=
  let key := ComputeKey characterSize style in
  let glyphMap := default ∅ (m_glyphes c !! key) in
  match glyphMap !! character with
  | Some g => (g, c)
  | None =>
      let g := ExtractGlyph fd characterSize style character in
      (g, mkFontCaches (m_kerningCache c) (<[key := <[character := g]> glyphMap]> (m_glyphes c))
                       (m_sizeInfoCache c))
  end.

(** [GetKerning]: the map of the size, then the key of the pair. *)
Definition Font_GetKerning (characterSize first second : Z) (c : FontCaches) : Z * FontCaches :=
  let kerningMap := default ∅ (m_kerningCache c !! characterSize) in
  let key := KerningKey first second in
  match kerningMap !! key with
  | Some k => (k, c)
  | None =>
      let k := QueryKerning fd characterSize first second in
      (k, mkFontCaches (<[characterSize := <[key := k]> kerningMap]> (m_kerningCache c))
                       (m_glyphes c) (m_sizeInfoCache c))
  end.

(** [GetSizeInfo]. *)
Definition Font_GetSizeInfo (characterSize : Z) (c : FontCaches) : SizeInfo * FontCaches :=
  match m_sizeInfoCache c !! characterSize with
  | Some si => (si, c)
  | None =>
      let si := QuerySizeInfo fd characterSize in
      (si, mkFontCaches (m_kerningCache c) (m_glyphes c) (<[characterSize := si]> (m_sizeInfoCache c)))
  end.

(** [Precache(characterSize, style, character)]: cache the glyph and tell
    whether it is valid. *)
Definition Precache (characterSize style character : Z) (c : FontCaches) : bool * FontCaches :=
  let '(g, c') := Font_GetGlyph characterSize style character c in (valid g, c').

(** [ClearGlyphCache], [ClearKerningCache], [ClearSizeInfoCache] (lines
    55-57); the signals they emit are not modelled here. *)
Definition ClearGlyphCache (c : FontCaches) : FontCaches :=
  mkFontCaches (m_kerningCache c) ∅ (m_sizeInfoCache c).
Definition ClearKerningCache (c : FontCaches) : FontCaches :=
  mkFontCaches ∅ (m_glyphes c) (m_sizeInfoCache c).
Definition ClearSizeInfoCache (c : FontCaches) : FontCaches :=
  mkFontCaches (m_kerningCache c) (m_glyphes c) ∅.

(** One call, with its answer ([None] for the [void] members). *)
Definition exec (call : FontCall) (c : FontCaches) : option FontAnswer * FontCaches :=
  match call with
  | CallGetGlyph s st ch => let '(g, c') := Font_GetGlyph s st ch c in (Some (AnsGlyph g), c')
  | CallGetKerning s a b => let '(k, c') := Font_GetKerning s a b c in (Some (AnsKerning k), c')
  | CallGetSizeInfo s => let '(si, c') := Font_GetSizeInfo s c in (Some (AnsSizeInfo si), c')
  | CallPrecache s st ch => let '(v, c') := Precache s st ch c in (Some (AnsBool v), c')
  | CallClearGlyphCache => (None, ClearGlyphCache c)
  | CallClearKerningCache => (None, ClearKerningCache c)
  | CallClearSizeInfoCache => (None, ClearSizeInfoCache c)
  end.

(** A sequence of calls, with the answers in order. *)
Fixpoint run (calls : list FontCall) (c : FontCaches) : list FontAnswer * FontCaches :=
  match calls with
  | [] => ([], c)
  | call :: calls' =>
      let '(a, c1) := exec call c in
      let '(rest, c2) := run calls' c1 in
      (option_list a ++ rest, c2)
  end.

(** What the metrics source itself answers. *)
Definition source_answer (call : FontCall) : option FontAnswer :=
  match call with
  | CallGetGlyph s st ch => Some (AnsGlyph (ExtractGlyph fd s st ch))
  | CallGetKerning s a b => Some (AnsKerning (QueryKerning fd s a b))
  | CallGetSizeInfo s => Some (AnsSizeInfo (QuerySizeInfo fd s))
  | CallPrecache s st ch => Some (AnsBool (valid (ExtractGlyph fd s st ch)))
  | _ => None
  end.

(** The font as the drawer sees it: queries answered through the caches
    [c], or straight from the source. *)
Definition cached_font (isValid : bool) (layer : Z -> Z) (c : FontCaches) : Font :=
  mkFont isValid (fun s st ch => (Font_GetGlyph s st ch c).1)
    (fun s a b => (Font_GetKerning s a b c).1) (fun s => (Font_GetSizeInfo s c).1) layer.

Definition source_font (isValid : bool) (layer : Z -> Z) : Font :=
  mkFont isValid (ExtractGlyph fd) (QueryKerning fd) (QuerySizeInfo fd) layer.

(** Every cached entry is what the source answers for some query with
    that key. *)
Definition caches_ok (c : FontCaches) : Prop :=
  (forall key gm ch g, m_glyphes c !! key = Some gm -> gm !! ch = Some g ->
     exists s st, ComputeKey s st = key /\ g = ExtractGlyph fd s st ch) /\
  (forall s km k v, m_kerningCache c !! s = Some km -> km !! k = Some v ->
     exists a b, KerningKey a b = k /\ v = QueryKerning fd s a b) /\
  (forall s si, m_sizeInfoCache c !! s = Some si -> si = QuerySizeInfo fd s).
End Caches.

(** ** Nested caches *)

(** A hit in the inner map of a nested cache. *)
Lemma nested_lookup_Some {V} (m : gmap Z (gmap Z V)) k1 k2 x :
  default ∅ (m !! k1) !! k2 = Some x -> exists gm, m !! k1 = Some gm /\ gm !! k2 = Some x.
Proof. intros Hx. destruct (m !! k1) as [gm|]; cbn [default] in Hx; [eauto|by rewrite lookup_empty in Hx]. Qed.

(** Storing an entry that satisfies [P] in a nested cache whose entries all
    satisfy [P]. *)
Lemma nested_insert_forall {V} (P : Z -> Z -> V -> Prop) (m : gmap Z (gmap Z V)) k1 k2 v :
  (forall a gm b x, m !! a = Some gm -> gm !! b = Some x -> P a b x) -> P k1 k2 v ->
  forall a gm b x, <[k1 := <[k2 := v]> (default ∅ (m !! k1))]> m !! a = Some gm ->
    gm !! b = Some x -> P a b x.
Proof.
  intros Hall Hv a gm b x. rewrite lookup_insert_Some. intros [[<- <-]|[_ Hgm]]; [|eauto].
  rewrite lookup_insert_Some. intros [[<- <-]|[_ Hx]]; [done|].
  destruct (nested_lookup_Some m k1 b x Hx) as (gm' & ? & ?). eauto.
Qed.

Section Refinement.
Context (fd : FontData) (ComputeKey KerningKey : Z -> Z -> Z).
(** The keys only merge queries the source answers alike. *)
Hypothesis key_faithful : forall s1 st1 s2 st2 ch,
  ComputeKey s1 st1 = ComputeKey s2 st2 -> ExtractGlyph fd s1 st1 ch = ExtractGlyph fd s2 st2 ch.
Hypothesis kerning_key_faithful : forall s a b a' b',
  KerningKey a b = KerningKey a' b' -> QueryKerning fd s a b = QueryKerning fd s a' b'.

Local Set Default Proof Using "All".
Local Abbreviation ok := (caches_ok fd ComputeKey KerningKey).

Lemma empty_caches_ok : ok empty_caches.
Proof using.
  split_and!; intros ? ?; cbn [empty_caches m_glyphes m_kerningCache m_sizeInfoCache];
    rewrite lookup_empty; done.
Qed.

Lemma GetGlyph_ok s st ch c :
  ok c -> (Font_GetGlyph fd ComputeKey s st ch c).1 = ExtractGlyph fd s st ch /\
          ok (Font_GetGlyph fd ComputeKey s st ch c).2.
Proof.
  intros (Hg & Hk & Hs). unfold Font_GetGlyph.
  destruct (default ∅ (m_glyphes c !! ComputeKey s st) !! ch) as [g|] eqn:Hl; simpl.
  - destruct (nested_lookup_Some _ _ _ _ Hl) as (gm & Hgm & Hx).
    destruct (Hg _ _ _ _ Hgm Hx) as (s' & st' & Hkey & ->).
    split; [by apply key_faithful|by split_and!].
  - split; [done|]. split_and!; [|done|done].
    apply (nested_insert_forall (fun key ch g => exists s st, ComputeKey s st = key /\ g = ExtractGlyph fd s st ch));
      eauto.
Qed.

Lemma GetKerning_ok s a b c :
  ok c -> (Font_GetKerning fd KerningKey s a b c).1 = QueryKerning fd s a b /\
          ok (Font_GetKerning fd KerningKey s a b c).2.
Proof.
  intros (Hg & Hk & Hs). unfold Font_GetKerning.
  destruct (default ∅ (m_kerningCache c !! s) !! KerningKey a b) as [k|] eqn:Hl; simpl.
  - destruct (nested_lookup_Some _ _ _ _ Hl) as (km & Hkm & Hx).
    destruct (Hk _ _ _ _ Hkm Hx) as (a' & b' & Hkey & ->).
    split; [by apply kerning_key_faithful|by split_and!].
  - split; [done|]. split_and!; [done| |done].
    apply (nested_insert_forall (fun s k v => exists a b, KerningKey a b = k /\ v = QueryKerning fd s a b));
      eauto.
Qed.

Lemma GetSizeInfo_ok s c :
  ok c -> (Font_GetSizeInfo fd s c).1 = QuerySizeInfo fd s /\ ok (Font_GetSizeInfo fd s c).2.
Proof.
  intros (Hg & Hk & Hs). unfold Font_GetSizeInfo.
  destruct (m_sizeInfoCache c !! s) as [si|] eqn:Hl; simpl; [split; [eauto|by split_and!]|].
  split; [done|]. split_and!; [done|done|]. simpl.
  intros s' si'. rewrite lookup_insert_Some. intros [[<- <-]|[_ ?]]; eauto.
Qed.

Lemma exec_ok call c :
  ok c -> (exec fd ComputeKey KerningKey call c).1 = source_answer fd call /\
          ok (exec fd ComputeKey KerningKey call c).2.
Proof.
  intros Hok. destruct call as [s st ch|s a b|s|s st ch| | |]; simpl.
  - destruct (GetGlyph_ok s st ch c Hok) as [H1 H2].
    destruct (Font_GetGlyph _ _ _ _ _ _). simpl in *. subst. done.
  - destruct (GetKerning_ok s a b c Hok) as [H1 H2].
    destruct (Font_GetKerning _ _ _ _ _ _). simpl in *. subst. done.
  - destruct (GetSizeInfo_ok s c Hok) as [H1 H2].
    destruct (Font_GetSizeInfo _ _ _). simpl in *. subst. done.
  - unfold Precache. destruct (GetGlyph_ok s st ch c Hok) as [H1 H2].
    destruct (Font_GetGlyph _ _ _ _ _ _). simpl in *. subst. done.
  - destruct Hok as (? & ? & ?). split; [done|]. split_and!; [|done|done].
    intros ? ? ? ? Hl. cbn [ClearGlyphCache ClearKerningCache ClearSizeInfoCache m_glyphes m_kerningCache m_sizeInfoCache] in Hl.
    by rewrite lookup_empty in Hl.
  - destruct Hok as (? & ? & ?). split; [done|]. split_and!; [done| |done].
    intros ? ? ? ? Hl. cbn [ClearGlyphCache ClearKerningCache ClearSizeInfoCache m_glyphes m_kerningCache m_sizeInfoCache] in Hl.
    by rewrite lookup_empty in Hl.
  - destruct Hok as (? & ? & ?). split; [done|]. split_and!; [done|done|].
    intros ? ? Hl. cbn [ClearGlyphCache ClearKerningCache ClearSizeInfoCache m_glyphes m_kerningCache m_sizeInfoCache] in Hl.
    by rewrite lookup_empty in Hl.
Qed.

Lemma run_ok calls c :
  ok c -> (run fd ComputeKey KerningKey calls c).1 = omap (source_answer fd) calls /\
          ok (run fd ComputeKey KerningKey calls c).2.
Proof.
  revert c. induction calls as [|call calls IH]; intros c Hok; [done|]. simpl.
  destruct (exec_ok call c Hok) as [Ha Hok']. destruct (exec _ _ _ call c) as [a c1]. simpl in *.
  destruct (IH c1 Hok') as [Hr Hok'']. destruct (run _ _ _ calls c1) as [rest c2]. simpl in *.
  subst. split; [|done]. by destruct (source_answer fd call).
Qed.

(** Through coherent caches, a font answers as its source. *)
Lemma cached_font_equiv isValid layer c :
  ok c -> cached_font fd ComputeKey KerningKey isValid layer c ≡ source_font fd isValid layer.
Proof.
  intros Hok. split_and!; simpl; try done.
  - intros s st ch. apply (proj1 (GetGlyph_ok s st ch c Hok)).
  - intros s a b. apply (proj1 (GetKerning_ok s a b c Hok)).
  - intros s. apply (proj1 (GetSizeInfo_ok s c Hok)).
Qed.

End Refinement.

(** ** Examples *)

(** A source whose answers depend only on the keys: the glyph on the
    size, the kerning on the packed pair. *)
Definition sample_ComputeKey (characterSize style : Z) : Z := characterSize.
Definition sample_KerningKey (first second : Z) : Z := first * 65536 + second.
Definition sample_data : FontData :=
  mkFontData
    (fun s _ ch => mkFontGlyph (mkRecti 0 (- s) s s) (mkRecti 0 0 s s) false false false
                     (negb (ch =? 0)) 0%Q s 0)
    (fun _ a b => if sample_KerningKey a b =? 65 * 65536 + 86 then -1 else 0)
    (fun s => mkSizeInfo (s / 2) (s + 2) 0%Q 0%Q).

Lemma sample_key_faithful s1 st1 s2 st2 ch :
  sample_ComputeKey s1 st1 = sample_ComputeKey s2 st2 ->
  ExtractGlyph sample_data s1 st1 ch = ExtractGlyph sample_data s2 st2 ch.
Proof. unfold sample_ComputeKey. intros ->. reflexivity. Qed.

Lemma sample_kerning_key_faithful s a b a' b' :
  sample_KerningKey a b = sample_KerningKey a' b' ->
  QueryKerning sample_data s a b = QueryKerning sample_data s a' b'.
Proof. simpl. intros ->. reflexivity. Qed.

Definition sample_calls : list FontCall :=
  [CallGetGlyph 10 0 65; CallGetGlyph 10 1 65; CallGetKerning 10 65 86; CallGetKerning 10 65 86;
   CallClearGlyphCache; CallPrecache 10 0 0; CallGetSizeInfo 10].

(** The second [GetGlyph] and [GetKerning] are cache hits. *)
Lemma sample_calls_ok :
  (run sample_data sample_ComputeKey sample_KerningKey sample_calls empty_caches).1 =
    omap (source_answer sample_data) sample_calls /\
  caches_ok sample_data sample_ComputeKey sample_KerningKey
    (run sample_data sample_ComputeKey sample_KerningKey sample_calls empty_caches).2.
Proof.
  apply (run_ok sample_data sample_ComputeKey sample_KerningKey
           sample_key_faithful sample_kerning_key_faithful).
  apply empty_caches_ok.
Qed.

End FontCache.
