(* ===== verification/Drawer.v ===== *)
(** * The drawer object and its lazy layout cache

    The model of the [NzSimpleTextDrawer] object of
    [src/src/Nazara/Utility/SimpleTextDrawer.cpp].  Its fields are a record.
    Every setter writes its field and clears [m_glyphUpdated].  Every getter
    of layout data first runs [UpdateGlyphs] if the flag is clear, so a
    getter returns its value together with the new drawer.  The font
    notifications ([OnResourceModified], [OnResourceReleased]) invalidate
    the cache.  A font change followed by its notification is one step of
    the relation [drawer_step].

    The cache invariant [cache_ok] says that a fresh cache holds the layout
    of the current parameters.  It holds after [Draw] and every step keeps
    it, so every getter returns the value of the pure function
    [Layout.UpdateGlyphs].

    A notified font change is a step whose new font is constrained by
    what the notification says of the font ([notified_change]): a
    cleared kerning or size-info cache leaves the answers as they were
    ([≡]), a cleared glyph cache or a changed atlas keeps the metrics but
    may move glyphs in the atlas.  This contract is the font's, stated
    independently of the drawer's reaction ([invalidates]), so the
    invariant checks that the drawer clears its cache on every
    notification after which the layout may differ.

    The Section [Listeners] models the listener registration that
    [SetFont] and the destructor perform on font pointers. *)

From S2P Require Import Prelude Font Layout.
From stdpp Require Import relations.
Import Layout.

Module Drawer.

Local Open Scope Z_scope.

(** The members of [NzSimpleTextDrawer]. *)
Record SimpleTextDrawer := mkDrawer {
  m_characterSize : Z;
  m_color : Color;
  m_font : option Font;
  m_style : Z;
  m_text : list Z;
  m_glyphUpdated : bool;
  m_glyphs : list Glyph;
  m_bounds : Recti
}.

(** [nzTextStyle_Regular]. *)
Definition nzTextStyle_Regular : Z := 0.

(** The codes of [NzFont::ModificationCode] that the font passes to
    [OnResourceModified] (the enumeration of this revision is not among
    the sources; lines 163-165 name three of its five codes): atlas
    changed, atlas layer changed, glyph cache cleared, kerning cache
    cleared, size-info cache cleared. *)
Inductive ModificationCode :=
  | ModificationCode_AtlasChanged
  | ModificationCode_AtlasLayerChanged
  | ModificationCode_GlyphCacheCleared
  | ModificationCode_KerningCacheCleared
  | ModificationCode_SizeInfoCacheCleared.

(** Lines 11-16.  The constructor sets only the colour and the style.  The
    other members take the values [cs0], [font0], [updated0] and [bounds0]
    that the class declaration (not among the sources) gives them; the
    text and the glyph vector start empty. *)
Definition NzSimpleTextDrawer_ctor (cs0 : Z) (font0 : option Font) (updated0 : bool)
    (bounds0 : Recti) : SimpleTextDrawer :=
  mkDrawer cs0 Color_White font0 nzTextStyle_Regular [] updated0 [] bounds0.

(** ** Setters (lines 52-90): each clears [m_glyphUpdated]. *)

Definition SetCharacterSize (cs : Z) (d : SimpleTextDrawer) : SimpleTextDrawer :=
  mkDrawer cs (m_color d) (m_font d) (m_style d) (m_text d) false (m_glyphs d) (m_bounds d).

Definition SetColor (c : Color) (d : SimpleTextDrawer) : SimpleTextDrawer :=
  mkDrawer (m_characterSize d) c (m_font d) (m_style d) (m_text d) false (m_glyphs d) (m_bounds d).

(** Lines 66-76.  The listener registration on the old and new fonts is
    font-side bookkeeping and is not modelled. *)
Definition SetFont (fo : option Font) (d : SimpleTextDrawer) : SimpleTextDrawer :=
  mkDrawer (m_characterSize d) (m_color d) fo (m_style d) (m_text d) false (m_glyphs d) (m_bounds d).

Definition SetStyle (s : Z) (d : SimpleTextDrawer) : SimpleTextDrawer :=
  mkDrawer (m_characterSize d) (m_color d) (m_font d) s (m_text d) false (m_glyphs d) (m_bounds d).

Definition SetText (t : list Z) (d : SimpleTextDrawer) : SimpleTextDrawer :=
  mkDrawer (m_characterSize d) (m_color d) (m_font d) (m_style d) t false (m_glyphs d) (m_bounds d).

(** Lines 92-114: the two static [Draw] helpers, applied to a freshly
    constructed drawer. *)
Definition Draw (d0 : SimpleTextDrawer) (str : list Z) (cs style : Z) (color : Color)
    : SimpleTextDrawer :=
  SetText str (SetStyle style (SetColor color (SetCharacterSize cs d0))).

Definition DrawWithFont (d0 : SimpleTextDrawer) (font : option Font) (str : list Z)
    (cs style : Z) (color : Color) : SimpleTextDrawer :=
  SetText str (SetStyle style (SetFont font (SetColor color (SetCharacterSize cs d0)))).

(** ** The cache *)

(** [UpdateGlyphs] as a member function (lines 189-305): recompute, store,
    and set the flag. *)
Definition UpdateGlyphs_member (d : SimpleTextDrawer) : SimpleTextDrawer :=
  let r := UpdateGlyphs (m_font d) (m_characterSize d) (m_style d) (m_color d) (m_text d) in
  mkDrawer (m_characterSize d) (m_color d) (m_font d) (m_style d) (m_text d) true r.1 r.2.

(** [if (!m_glyphUpdated) UpdateGlyphs();] *)
Definition ensure_glyphs (d : SimpleTextDrawer) : SimpleTextDrawer :=
  if m_glyphUpdated d then d else UpdateGlyphs_member d.

(** Lines 24-30, 134-148: the layout getters. *)
Definition GetBounds (d : SimpleTextDrawer) : Recti * SimpleTextDrawer :=
  let d' := ensure_glyphs d in (m_bounds d', d').

Definition GetGlyphCount (d : SimpleTextDrawer) : nat * SimpleTextDrawer :=
  let d' := ensure_glyphs d in (length (m_glyphs d'), d').

(** [m_glyphs[index]]: [None] when out of range. *)
Definition GetGlyph (d : SimpleTextDrawer) (index : nat) : option Glyph * SimpleTextDrawer :=
  let d' := ensure_glyphs d in (m_glyphs d' !! index, d').

(** Lines 116-132.  [GetFont(index)] reports an error and returns null
    for any index but 0. *)
Definition GetFont (d : SimpleTextDrawer) (index : nat) : option Font :=
  if (0 <? index)%nat then None else m_font d.

Definition GetFontCount (d : SimpleTextDrawer) : nat := 1.

(** Lines 32-50: the parameter getters read their member and leave the
    cache alone.  [GetFont_current] is the overload without an index. *)
Definition GetCharacterSize (d : SimpleTextDrawer) : Z := m_characterSize d.
Definition GetColor (d : SimpleTextDrawer) : Color := m_color d.
Definition GetFont_current (d : SimpleTextDrawer) : option Font := m_font d.
Definition GetStyle (d : SimpleTextDrawer) : Z := m_style d.

(** ** Font notifications (lines 150-187) *)

Definition invalidates (code : ModificationCode) : bool :=
  match code with
  | ModificationCode_AtlasChanged | ModificationCode_AtlasLayerChanged
  | ModificationCode_GlyphCacheCleared => true
  | _ => false
  end.

(** Returns [true] and clears the flag on the three codes of lines 163-165. *)
Definition OnResourceModified (code : ModificationCode) (d : SimpleTextDrawer)
    : bool * SimpleTextDrawer :=
  (true, if invalidates code
         then mkDrawer (m_characterSize d) (m_color d) (m_font d) (m_style d) (m_text d)
                       false (m_glyphs d) (m_bounds d)
         else d).

Definition OnResourceReleased (d : SimpleTextDrawer) : SimpleTextDrawer := SetFont None d.

(** The font object behind [m_font] is shared with other users.  When its
    contents change, the drawer reads the new contents [f'] and then gets
    the notification [code]. *)
Definition font_changed (f' : Font) (d : SimpleTextDrawer) : SimpleTextDrawer :=
  mkDrawer (m_characterSize d) (m_color d) (Some f') (m_style d) (m_text d)
           (m_glyphUpdated d) (m_glyphs d) (m_bounds d).

(** ** What a notification says of the font

    The font notifies its listeners after it changed.  A cleared kerning
    or size-info cache is filled again from the same font data, so the
    font answers every query as before ([≡]).  A cleared glyph cache, a
    changed atlas or a changed atlas layer keeps the metrics of every
    glyph, but the glyphs may be placed elsewhere in the atlas: their
    [atlasRect] and [layerIndex], and the atlas layers, may change. *)
Definition same_glyph_metrics (g1 g2 : FontGlyph) : Prop :=
  aabb g1 = aabb g2 /\ requireFauxBold g1 = requireFauxBold g2 /\
  requireFauxItalic g1 = requireFauxItalic g2 /\ flipped g1 = flipped g2 /\
  valid g1 = valid g2 /\ fauxOutlineThickness g1 = fauxOutlineThickness g2 /\
  advance g1 = advance g2.

Definition same_metrics (f1 f2 : Font) : Prop :=
  IsValid f1 = IsValid f2 /\
  (forall s st c, same_glyph_metrics (Font.GetGlyph f1 s st c) (Font.GetGlyph f2 s st c)) /\
  (forall s a b, GetKerning f1 s a b = GetKerning f2 s a b) /\
  (forall s, GetSizeInfo f1 s = GetSizeInfo f2 s).

Definition notified_change (code : ModificationCode) (f f' : Font) : Prop :=
  match code with
  | ModificationCode_KerningCacheCleared | ModificationCode_SizeInfoCacheCleared => f' ≡ f
  | ModificationCode_AtlasChanged | ModificationCode_AtlasLayerChanged
  | ModificationCode_GlyphCacheCleared => same_metrics f' f
  end.

(** ** The life of a drawer, as a step relation *)

Inductive drawer_step : SimpleTextDrawer -> SimpleTextDrawer -> Prop :=
  | step_SetCharacterSize d cs : drawer_step d (SetCharacterSize cs d)
  | step_SetColor d c : drawer_step d (SetColor c d)
  | step_SetFont d fo : drawer_step d (SetFont fo d)
  | step_SetStyle d s : drawer_step d (SetStyle s d)
  | step_SetText d t : drawer_step d (SetText t d)
  | step_GetBounds d : drawer_step d (GetBounds d).2
  | step_GetGlyphCount d : drawer_step d (GetGlyphCount d).2
  | step_GetGlyph d i : drawer_step d (GetGlyph d i).2
  (** A change of the font, then its notification: the new font [f'] is
      any font that the notification allows after [f]. *)
  | step_FontModified d f f' code :
      m_font d = Some f -> notified_change code f f' ->
      drawer_step d (OnResourceModified code (font_changed f' d)).2
  | step_FontReleased d : drawer_step d (OnResourceReleased d).

(** ** Font listeners

    [SetFont] (lines 68-73) and the destructor (lines 18-22) keep the
    drawer registered as a resource listener of its font.  The listener
    lists belong to [NzResource], which is not among the sources: the
    class [ResourceListeners] gives the two members the drawer calls and
    a reading [registered r p] (is this drawer among the listeners of the
    font at [p]), and [listener_laws] what the drawer relies on.  A font is
    known here by its pointer [P]; the first component of the state is
    the pointer held in [m_font]. *)
Class ResourceListeners (P R : Type) := {
  AddResourceListener : R -> P -> R;
  RemoveResourceListener : R -> P -> R;
  registered : R -> P -> bool
}.

Record listener_laws (P R : Type) `{EqDecision P} `{ResourceListeners P R} : Prop := {
  Add_registered : forall r p q,
    registered (AddResourceListener r p) q = registered r q || bool_decide (p = q);
  Remove_registered : forall r p q,
    registered (RemoveResourceListener r p) q = registered r q && negb (bool_decide (p = q))
}.

Section Listeners.
Context {P R : Type} `{EqDecision P} `{ResourceListeners P R}.

(** Lines 68-73. *)
Definition SetFont_listeners (font : option P) (st : option P * R) : option P * R :=
  let r := match st.1 with Some p => RemoveResourceListener st.2 p | None => st.2 end in
  (font, match font with Some p => AddResourceListener r p | None => r end).

(** Lines 18-22: the listener lists the destructor leaves. *)
Definition NzSimpleTextDrawer_dtor (st : option P * R) : R :=
  match st.1 with Some p => RemoveResourceListener st.2 p | None => st.2 end.

(** The drawer is a listener of its own font and of no other. *)
Definition listeners_ok (st : option P * R) : Prop :=
  forall q, registered st.2 q = bool_decide (st.1 = Some q).
End Listeners.

(** Listener lists as a list of fonts, for the examples. *)
#[global] Instance list_listeners : ResourceListeners nat (list nat) := {|
  AddResourceListener := fun r p => p :: r;
  RemoveResourceListener := fun r p => filter (fun q => q <> p) r;
  registered := fun r q => bool_decide (q ∈ r)
|}.

(** ** The abstract view: what the layout of the current parameters is *)

Definition spec_layout (d : SimpleTextDrawer) : list Glyph * Recti :=
  UpdateGlyphs (m_font d) (m_characterSize d) (m_style d) (m_color d) (m_text d).

(** The cache invariant. *)
Definition cache_ok (d : SimpleTextDrawer) : Prop :=
  m_glyphUpdated d = true -> (m_glyphs d, m_bounds d) = spec_layout d.

(** The layout getters alone: a sequence of reads with no mutation. *)
Inductive read_step : SimpleTextDrawer -> SimpleTextDrawer -> Prop :=
  | read_GetBounds d : read_step d (GetBounds d).2
  | read_GetGlyphCount d : read_step d (GetGlyphCount d).2
  | read_GetGlyph d i : read_step d (GetGlyph d i).2.

(** [sample_font 0] after its glyph cache was cleared and its glyphs were
    placed again elsewhere in the atlas: same metrics, a new atlas
    rectangle, layer index and layer. *)
Definition moved_font : Font :=
  let f := sample_font 0 in
  mkFont (IsValid f)
    (fun s st c => let g := Font.GetGlyph f s st c in
       mkFontGlyph (aabb g) (mkRecti 8 0 8 10) (requireFauxBold g) (requireFauxItalic g)
                   (flipped g) (valid g) (fauxOutlineThickness g) (advance g) 1)
    (GetKerning f) (GetSizeInfo f) (fun i => i + 1).

(** ** Properties *)

Lemma cache_ok_stale d : m_glyphUpdated d = false -> cache_ok d.
Proof. unfold cache_ok. intros ->. discriminate. Qed.

Lemma UpdateGlyphs_member_ok d :
  m_glyphUpdated (UpdateGlyphs_member d) = true /\
  (m_glyphs (UpdateGlyphs_member d), m_bounds (UpdateGlyphs_member d)) = spec_layout d /\
  spec_layout (UpdateGlyphs_member d) = spec_layout d.
Proof. unfold UpdateGlyphs_member, spec_layout. simpl. destruct (UpdateGlyphs _ _ _ _ _); done. Qed.

(** After [ensure_glyphs] the cache is fresh and holds the layout; the
    parameters are unchanged. *)
Lemma ensure_glyphs_ok d :
  cache_ok d ->
  m_glyphUpdated (ensure_glyphs d) = true /\
  (m_glyphs (ensure_glyphs d), m_bounds (ensure_glyphs d)) = spec_layout d /\
  spec_layout (ensure_glyphs d) = spec_layout d.
Proof.
  unfold ensure_glyphs, cache_ok. destruct (m_glyphUpdated d) eqn:Hu.
  - intros H. auto.
  - intros _. apply UpdateGlyphs_member_ok.
Qed.

Lemma ensure_glyphs_cache_ok d : cache_ok d -> cache_ok (ensure_glyphs d).
Proof.
  intros H. destruct (ensure_glyphs_ok d H) as (_ & Hg & Hs). unfold cache_ok. rewrite Hs. done.
Qed.

#[local] Hint Resolve cache_ok_stale ensure_glyphs_cache_ok : core.

(** A step keeps the cache invariant: a setter clears the flag, a getter
    refreshes the cache, and after a notified font change either the
    drawer cleared its flag or the notification guarantees the answers
    of the font unchanged. *)
Lemma cache_ok_step d d' : drawer_step d d' -> cache_ok d -> cache_ok d'.
Proof.
  intros Hstep Hok. destruct Hstep as [| | | | | | | | d f f' code Hf Hch |]; simpl; auto.
  destruct code; simpl; auto;
    unfold cache_ok, spec_layout, font_changed in *;
    cbn [m_glyphUpdated m_glyphs m_bounds m_font m_characterSize m_style m_color m_text];
    cbn [notified_change] in Hch; rewrite Hch, <- Hf; exact Hok.
Qed.

Lemma rtc_cache_ok d0 d : cache_ok d0 -> rtc drawer_step d0 d -> cache_ok d.
Proof. intros H0 Hr. induction Hr; eauto using cache_ok_step. Qed.

(** Reads keep the cache coherent and the parameters unchanged. *)
Lemma read_steps_ok d d' :
  rtc read_step d d' -> cache_ok d -> cache_ok d' /\ spec_layout d' = spec_layout d.
Proof.
  intros Hr. induction Hr as [|d1 d2 d3 Hs _ IH]; intros Hok; [done|].
  assert (E : d2 = ensure_glyphs d1) by (destruct Hs; done). subst d2.
  destruct (ensure_glyphs_ok d1 Hok) as (_ & _ & Hsp).
  destruct (IH (ensure_glyphs_cache_ok d1 Hok)) as [? ->]. done.
Qed.

Lemma moved_font_notified : notified_change ModificationCode_GlyphCacheCleared (sample_font 0) moved_font.
Proof. split_and!; intros; try split_and!; reflexivity. Qed.

(** C1: every step of a drawer's life keeps the cache invariant, the
    notified font changes included: whatever the font does that its
    notification allows, a drawer whose cache is fresh after the step
    holds the layout of the current text and font. *)
Theorem drawer_step_cache_ok d d' : drawer_step d d' -> cache_ok d -> cache_ok d'.
Proof. exact (cache_ok_step d d'). Qed.

(** A drawer with a fresh cache whose font then clears its glyph cache
    and moves its glyphs in the atlas. *)
Lemma drawer_step_cache_ok_witness :
  let d := (GetBounds (Draw (NzSimpleTextDrawer_ctor 0 (Some (sample_font 0)) false rect_zero)
                        [65] 10 0 Color_White)).2 in
  m_glyphUpdated d = true /\
  cache_ok (OnResourceModified ModificationCode_GlyphCacheCleared (font_changed moved_font d)).2.
Proof.
  intros d. split; [reflexivity|].
  apply (drawer_step_cache_ok d).
  - eapply step_FontModified; [reflexivity|apply moved_font_notified].
  - apply ensure_glyphs_cache_ok, cache_ok_stale. reflexivity.
Defined.

(** C2: refinement.  On a drawer whose cache is coherent, each layout getter
    returns what the pure layout of the current parameters gives, and leaves
    a fresh cache with the same parameters. *)
Theorem getters_refine_layout d :
  cache_ok d ->
  (GetGlyphCount d).1 = length (spec_layout d).1 /\
  (GetBounds d).1 = (spec_layout d).2 /\
  (forall i, (GetGlyph d i).1 = (spec_layout d).1 !! i) /\
  m_glyphUpdated (ensure_glyphs d) = true /\ spec_layout (ensure_glyphs d) = spec_layout d.
Proof.
  intros Hok. destruct (ensure_glyphs_ok d Hok) as (Hu & Hg & Hs).
  unfold GetGlyphCount, GetBounds, GetGlyph. simpl. rewrite <- Hg. simpl. rewrite Hs, Hg. auto.
Qed.

Lemma getters_refine_layout_witness :
  let d := Draw (NzSimpleTextDrawer_ctor 0 (Some (sample_font 0)) false rect_zero) [65] 10 0 Color_White in
  (GetGlyphCount d).1 = length (spec_layout d).1 /\
  (GetBounds d).1 = (spec_layout d).2 /\
  (forall i, (GetGlyph d i).1 = (spec_layout d).1 !! i) /\
  m_glyphUpdated (ensure_glyphs d) = true /\ spec_layout (ensure_glyphs d) = spec_layout d.
Proof. intros d. apply getters_refine_layout. apply cache_ok_stale. reflexivity. Defined.

(** C11: the read-through cache of spec section 5.  From a drawer whose
    cache starts stale (as after [Draw] or any setter), after any
    sequence of operations and notified font changes reaching [d], every
    sequence of layout reads returns, at each read, the layout of the
    parameters of [d]: repeated reads with no mutation between them give
    identical results, and these are the pure layout's. *)
Theorem reachable_getters_refine d0 d d' :
  m_glyphUpdated d0 = false -> rtc drawer_step d0 d -> rtc read_step d d' ->
  (GetGlyphCount d').1 = length (spec_layout d).1 /\
  (GetBounds d').1 = (spec_layout d).2 /\
  (forall i, (GetGlyph d' i).1 = (spec_layout d).1 !! i).
Proof.
  intros H0 Hr Hrd. pose proof (rtc_cache_ok d0 d (cache_ok_stale d0 H0) Hr) as Hok.
  destruct (read_steps_ok d d' Hrd Hok) as [Hok' <-].
  destruct (ensure_glyphs_ok d' Hok') as (_ & Hg & _).
  unfold GetGlyphCount, GetBounds, GetGlyph. simpl. rewrite <- Hg. auto.
Qed.

(** A drawer laid out, read, notified of a moved glyph cache, then read
    twice. *)
Lemma reachable_getters_refine_witness :
  let d0 := Draw (NzSimpleTextDrawer_ctor 0 (Some (sample_font 0)) true rect_zero) [65; 10; 66] 10 0 Color_White in
  let d1 := (GetBounds d0).2 in
  let d := (OnResourceModified ModificationCode_GlyphCacheCleared (font_changed moved_font d1)).2 in
  let d' := (GetGlyph (GetBounds d).2 1).2 in
  (GetGlyphCount d').1 = length (spec_layout d).1 /\
  (GetBounds d').1 = (spec_layout d).2 /\
  (forall i, (GetGlyph d' i).1 = (spec_layout d).1 !! i).
Proof.
  intros d0 d1 d d'. apply (reachable_getters_refine d0); [reflexivity| |].
  - eapply rtc_l; [apply step_GetBounds|].
    eapply rtc_l; [eapply step_FontModified; [reflexivity|apply moved_font_notified]|]. apply rtc_refl.
  - eapply rtc_l; [apply read_GetBounds|]. eapply rtc_l; [apply (read_GetGlyph _ 1)|]. apply rtc_refl.
Defined.

(** ** Font listeners: properties *)

Lemma list_listeners_laws : listener_laws nat (list nat).
Proof.
  split; intros r p q; simpl.
  - rewrite <-bool_decide_or. apply bool_decide_ext. rewrite elem_of_cons. naive_solver.
  - rewrite <-bool_decide_not, <-bool_decide_and. apply bool_decide_ext.
    rewrite list_elem_of_filter. naive_solver.
Qed.

Section ListenerLaws.
Context {P R : Type} `{EqDecision P} `{ResourceListeners P R} (Hl : listener_laws P R).
Local Set Default Proof Using "All".

Ltac listeners_simpl Hok :=
  rewrite ?(Add_registered _ _ Hl), ?(Remove_registered _ _ Hl), ?Hok;
  repeat case_bool_decide; simplify_eq/=; try done; congruence.

Lemma SetFont_listeners_ok font st : listeners_ok st -> listeners_ok (SetFont_listeners font st).
Proof.
  destruct st as [fp r]. intros Hok q. unfold SetFont_listeners. simpl in *.
  destruct fp as [p|], font as [p'|]; simpl; listeners_simpl Hok.
Qed.

Lemma fold_SetFont_listeners_ok fonts st :
  listeners_ok st -> listeners_ok (fold_left (fun st f => SetFont_listeners f st) fonts st).
Proof.
  revert st. induction fonts as [|f fonts IH]; intros st Hok; [done|].
  apply IH, SetFont_listeners_ok, Hok.
Qed.

Lemma dtor_unregistered st q :
  listeners_ok st -> registered (NzSimpleTextDrawer_dtor st) q = false.
Proof.
  destruct st as [[p|] r]; intros Hok; unfold NzSimpleTextDrawer_dtor; simpl;
    listeners_simpl Hok.
Qed.

(** C5: from a drawer registered with exactly its own font (as one with
    no font), after any sequence of [SetFont] calls the drawer is a
    listener of its current font and of no other, and the destructor
    leaves it a listener of no font. *)
Theorem SetFont_listeners_dtor st0 fonts :
  listeners_ok st0 ->
  listeners_ok (fold_left (fun st f => SetFont_listeners f st) fonts st0) /\
  (forall q, registered (NzSimpleTextDrawer_dtor
                (fold_left (fun st f => SetFont_listeners f st) fonts st0)) q = false).
Proof.
  intros Hok. pose proof (fold_SetFont_listeners_ok fonts st0 Hok) as Hf.
  split; [done|]. intros q. by apply dtor_unregistered.
Qed.
End ListenerLaws.

Lemma SetFont_listeners_dtor_witness :
  let fonts := [Some 1; Some 2; Some 2; None; Some 3]%nat in
  (fold_left (fun st f => SetFont_listeners f st) fonts (None, [])).2 = [3]%nat /\
  listeners_ok (fold_left (fun st f => SetFont_listeners f st) fonts (None, [])) /\
  (forall q, registered (NzSimpleTextDrawer_dtor
                (fold_left (fun st f => SetFont_listeners f st) fonts (None, []))) q = false).
Proof.
  intros fonts. split; [reflexivity|].
  apply (SetFont_listeners_dtor list_listeners_laws). intros q. reflexivity.
Defined.

End Drawer.
