(* ===== verification/LineTable.v ===== *)
(** * The drawer interface seen by a text area

    [AbstractTextAreaWidget.inl] reads its text drawer through three calls:
    [GetGlyphCount()], [GetLineCount()] and [GetLine(i).glyphIndex].  The
    class [AbstractTextDrawer] states these calls.  An out-of-range [GetLine]
    (an assertion failure in the engine) is [None].  The record [drawer_wf]
    states what the text area relies on: at least one line, line 0 starting
    at glyph 0, strictly increasing line starts, no start past the glyph
    count, and a glyph count that fits an [unsigned int] cursor column.

    [LineTable] is the plain instance: a glyph count and the list of line
    starts.  [line_table_wf] discharges [drawer_wf] from a boolean check
    that a witness can evaluate. *)

From S2P Require Import Prelude.

Module LineTable.

Local Open Scope Z_scope.

(** [AbstractTextDrawer::Line]: the text area reads only [glyphIndex]. *)
Record Line := mkLine { glyphIndex : Z }.

Class AbstractTextDrawer (D : Type) := {
  GetGlyphCount : D -> Z;
  GetLineCount : D -> Z;
  GetLine : D -> Z -> option Line
}.

(** What a well-formed drawer promises to the text area. *)
Record drawer_wf {D} `{AbstractTextDrawer D} (d : D) : Prop := {
  wf_count_range : 0 <= GetGlyphCount d /\ GetGlyphCount d + 1 < u32_modulus;
  wf_line_count : 1 <= GetLineCount d;
  wf_line_some : forall i, 0 <= i < GetLineCount d -> exists l, GetLine d i = Some l;
  wf_line_none : forall i, (i < 0 \/ GetLineCount d <= i) -> GetLine d i = None;
  wf_first : GetLine d 0 = Some (mkLine 0);
  wf_increasing : forall i li l', GetLine d i = Some li -> GetLine d (i + 1) = Some l' ->
                  glyphIndex li < glyphIndex l';
  wf_le_count : forall i l, GetLine d i = Some l -> glyphIndex l <= GetGlyphCount d
}.

(** ** The line-table instance *)

Record LineTableData := mkLineTable { lt_glyphCount : Z; lt_lines : list Z }.

Definition lt_GetLine (t : LineTableData) (i : Z) : option Line :=
  if 0 <=? i then mkLine <$> lt_lines t !! Z.to_nat i else None.

#[export] Instance LineTable_drawer : AbstractTextDrawer LineTableData := {
  GetGlyphCount := lt_glyphCount;
  GetLineCount := fun t => Z.of_nat (length (lt_lines t));
  GetLine := lt_GetLine
}.

(** The executable well-formedness check of a line table. *)
Definition line_table_wfb (t : LineTableData) : bool :=
  (0 <=? lt_glyphCount t) && (lt_glyphCount t + 1 <? u32_modulus) &&
  match lt_lines t with [] => false | s :: _ => s =? 0 end &&
  strictly_increasing (lt_lines t) &&
  forallb (fun s => s <=? lt_glyphCount t) (lt_lines t).

(** The line table that section 4.1 of the spec prescribes (the drawer
    that builds it is not among the sources).  Line 0 starts at glyph 0.
    Each newline ends the current line, and the next line starts at the
    number of glyphs emitted so far.  [emits] tells which characters
    yield a glyph. *)
Fixpoint spec_line_starts (emits : Z -> bool) (text : list Z) (count : Z) : list Z :=
  match text with
  | [] => []
  | c :: t =>
      if c =? 10 then count :: spec_line_starts emits t count
      else spec_line_starts emits t (if emits c then count + 1 else count)
  end.

Definition spec_line_table (emits : Z -> bool) (text : list Z) : LineTableData :=
  mkLineTable (Z.of_nat (length (filter emits text))) (0 :: spec_line_starts emits text 0).

(** Every line but the last holds a glyph: each newline follows a glyph
    emitted since the previous newline (or the start of the text).
    [seen] records whether the current line has one yet. *)
Fixpoint lines_nonempty (emits : Z -> bool) (text : list Z) (seen : bool) : bool :=
  match text with
  | [] => true
  | c :: t => if c =? 10 then seen && lines_nonempty emits t false
              else lines_nonempty emits t (seen || emits c)
  end.

(** Two lines, "ab" and "cd", with the newline as glyph 2. *)
Definition sample_table : LineTableData := mkLineTable 5 [0; 3].

(** ** Facts every well-formed drawer has *)

Section WfFacts.
Context {D : Type} `{AbstractTextDrawer D} (d : D) (Hwf : drawer_wf d).
Local Set Default Proof Using "All".

(** The start of line [i], read through [GetLine]; 0 out of range. *)
Definition line_start (i : Z) : Z :=
  match GetLine d i with Some l => glyphIndex l | None => 0 end.

Lemma GetLine_start i :
  0 <= i < GetLineCount d -> GetLine d i = Some (mkLine (line_start i)).
Proof.
  intros Hi. destruct (wf_line_some d Hwf i Hi) as [[g] Hl].
  unfold line_start. rewrite Hl. done.
Qed.

Lemma line_start_0 : line_start 0 = 0.
Proof. unfold line_start. rewrite (wf_first d Hwf). done. Qed.

Lemma line_start_succ i :
  0 <= i -> i + 1 < GetLineCount d -> line_start i < line_start (i + 1).
Proof.
  intros H0 Hi.
  exact (wf_increasing d Hwf i _ _ (GetLine_start i ltac:(lia)) (GetLine_start (i + 1) ltac:(lia))).
Qed.

Lemma line_start_mono_nat i (k : nat) :
  0 <= i -> i + Z.of_nat k < GetLineCount d -> line_start i + Z.of_nat k <= line_start (i + Z.of_nat k).
Proof.
  intros Hi. induction k as [|k IH]; intros Hk; [simpl Z.of_nat; rewrite !Z.add_0_r; lia|].
  rewrite Nat2Z.inj_succ.
  replace (i + Z.succ (Z.of_nat k)) with (i + Z.of_nat k + 1) by lia.
  pose proof (line_start_succ (i + Z.of_nat k) ltac:(lia) ltac:(lia)).
  specialize (IH ltac:(lia)). lia.
Qed.

(** Line starts increase at least as fast as the line number. *)
Lemma line_start_mono i j :
  0 <= i <= j -> j < GetLineCount d -> line_start i + (j - i) <= line_start j.
Proof.
  intros Hij Hj. pose proof (line_start_mono_nat i (Z.to_nat (j - i))) as Hm.
  rewrite Z2Nat.id in Hm by lia. replace (i + (j - i)) with j in Hm by lia. apply Hm; lia.
Qed.

Lemma line_start_le_count i : line_start i <= GetGlyphCount d.
Proof.
  unfold line_start. destruct (GetLine d i) eqn:Hl.
  - eapply (wf_le_count d Hwf); eauto.
  - pose proof (wf_count_range d Hwf). lia.
Qed.

Lemma line_start_nonneg i : 0 <= i < GetLineCount d -> i <= line_start i.
Proof. intros Hi. pose proof (line_start_mono 0 i ltac:(lia) ltac:(lia)). rewrite line_start_0 in *. lia. Qed.

(** A line that [GetLine] returns exists and starts at a nonnegative glyph. *)
Lemma GetLine_some i l :
  GetLine d i = Some l -> 0 <= i < GetLineCount d /\ i <= glyphIndex l <= GetGlyphCount d.
Proof.
  intros Hl. assert (Hi : 0 <= i < GetLineCount d).
  { destruct (decide (0 <= i < GetLineCount d)); [done|].
    rewrite (wf_line_none d Hwf i) in Hl by lia. done. }
  split; [done|]. pose proof (line_start_nonneg i Hi). pose proof (line_start_le_count i).
  unfold line_start in *. rewrite Hl in *. lia.
Qed.

(** There are at most one more lines than glyphs. *)
Lemma line_count_le : GetLineCount d <= GetGlyphCount d + 1.
Proof.
  pose proof (wf_line_count d Hwf) as Hc.
  assert (Hr : 0 <= GetLineCount d - 1 < GetLineCount d) by lia.
  pose proof (line_start_nonneg (GetLineCount d - 1) Hr).
  pose proof (line_start_le_count (GetLineCount d - 1)). lia.
Qed.
End WfFacts.

(** The boolean check establishes the interface contract. *)
Lemma line_table_wf (t : LineTableData) : line_table_wfb t = true -> drawer_wf t.
Proof.
  destruct t as [n ls]. unfold line_table_wfb. simpl.
  intros H. rewrite !andb_true_iff in H. destruct H as [[[[H0 H1] Hhd] Hinc] Hle].
  apply Z.leb_le in H0. apply Z.ltb_lt in H1.
  destruct ls as [|s ls]; [done|]. apply Z.eqb_eq in Hhd. subst s.
  split; simpl; unfold lt_GetLine; simpl.
  - lia.
  - lia.
  - intros i Hi. destruct (Z.leb_spec 0 i); [|lia].
    destruct (lookup_lt_is_Some_2 (0 :: ls) (Z.to_nat i)) as [x Hx]; [simpl; lia|].
    rewrite Hx. eauto.
  - intros i [Hi|Hi]; destruct (Z.leb_spec 0 i); try lia; [done|].
    rewrite lookup_ge_None_2; [done|]. simpl. lia.
  - done.
  - intros i li l'. destruct (Z.leb_spec 0 i); [|done].
    destruct (Z.leb_spec 0 (i + 1)); [|lia].
    intros (a & Ha & ->)%fmap_Some (b & Hb & ->)%fmap_Some. simpl.
    rewrite Z2Nat.inj_add, Nat.add_comm in Hb by lia.
    eapply strictly_increasing_succ; eauto.
  - intros i l. destruct (Z.leb_spec 0 i); [|done].
    intros (a & Ha & ->)%fmap_Some. simpl.
    apply forallb_forall with (x := a) in Hle; [lia|].
    apply list_elem_of_In, list_elem_of_lookup. eauto.
Qed.

(** The starts after a line that started at [p] increase strictly when
    every line but the last holds a glyph. *)
Lemma spec_line_starts_increasing (emits : Z -> bool) text : forall seen p n,
  lines_nonempty emits text seen = true -> (if seen then p < n else p = n) ->
  strictly_increasing (p :: spec_line_starts emits text n) = true.
Proof.
  induction text as [|c t IH]; intros seen p n Hne Hp; [done|]. simpl in Hne |- *.
  destruct (Z.eqb_spec c 10).
  - apply andb_prop in Hne as [Hs Hne]. rewrite Hs in Hp. simpl.
    apply andb_true_intro. split; [apply Z.ltb_lt; done|]. apply (IH false); done.
  - apply (IH (seen || emits c)); [done|].
    destruct seen, (emits c); simpl; lia.
Qed.

(** The starts lie between the current count and the count of glyphs
    still to come. *)
Lemma spec_line_starts_le (emits : Z -> bool) text : forall n,
  Forall (fun s => n <= s <= n + Z.of_nat (length (filter emits text))) (spec_line_starts emits text n).
Proof.
  induction text as [|c t IH]; intros n; simpl; [done|].
  rewrite filter_cons. destruct (Z.eqb_spec c 10).
  - constructor; [destruct (emits c); simpl; lia|].
    eapply Forall_impl; [|exact (IH n)]. intros s Hs. destruct (emits c); simpl in *; lia.
  - eapply Forall_impl; [|exact (IH _)]. intros s Hs. destruct (emits c); simpl in *; lia.
Qed.

(** The spec's line table of a text whose lines (but the last) all hold a
    glyph meets the text area's contract. *)
Lemma spec_line_table_wf (emits : Z -> bool) text :
  lines_nonempty emits text false = true ->
  Z.of_nat (length (filter emits text)) + 1 < u32_modulus ->
  drawer_wf (spec_line_table emits text).
Proof.
  intros Hne Hc. apply line_table_wf. unfold line_table_wfb, spec_line_table.
  cbn [lt_glyphCount lt_lines]. rewrite !andb_true_iff. split_and!.
  - apply Z.leb_le. lia.
  - apply Z.ltb_lt. done.
  - done.
  - apply (spec_line_starts_increasing emits text false 0 0 Hne eq_refl).
  - apply forallb_forall. intros s Hs. apply Z.leb_le.
    destruct Hs as [<-|Hs]; [lia|].
    pose proof (proj1 (Forall_forall _ _) (spec_line_starts_le emits text 0) s Hs) as Hb.
    cbv beta in Hb. lia.
Qed.

(** [GetLine] reads the [i]-th start of a line table. *)
Lemma lt_GetLine_lookup (t : LineTableData) (i : nat) a :
  lt_lines t !! i = Some a -> GetLine t (Z.of_nat i) = Some (mkLine a).
Proof.
  intros Ha. cbn [GetLine LineTable_drawer]. unfold lt_GetLine.
  rewrite (proj2 (Z.leb_le _ _)) by lia. rewrite Nat2Z.id, Ha. done.
Qed.

(** The starts of the spec's line table lie between 0 and the glyph count. *)
Lemma spec_line_table_le_count (emits : Z -> bool) text a :
  a ∈ lt_lines (spec_line_table emits text) -> 0 <= a <= lt_glyphCount (spec_line_table emits text).
Proof.
  cbn [lt_lines lt_glyphCount spec_line_table]. intros [->|Hs]%elem_of_cons; [lia|].
  pose proof (proj1 (Forall_forall _ _) (spec_line_starts_le emits text 0) a (proj1 (list_elem_of_In _ _) Hs)) as Hb.
  cbv beta in Hb. lia.
Qed.

(** The line starts of a well-formed line table increase strictly. *)
Lemma line_table_increasing (t : LineTableData) :
  drawer_wf t -> strictly_increasing (lt_lines t) = true.
Proof.
  intros Hwf. apply strictly_increasing_intro. intros i a b Ha Hb.
  apply (wf_increasing t Hwf (Z.of_nat i) (mkLine a) (mkLine b)); cbn [GetLine LineTable_drawer];
    unfold lt_GetLine; rewrite (proj2 (Z.leb_le _ _)) by lia.
  - rewrite Nat2Z.id, Ha. done.
  - replace (Z.to_nat (Z.of_nat i + 1)) with (S i) by lia. rewrite Hb. done.
Qed.

(** Conversely, strictly increasing starts mean that every line but the
    last holds a glyph. *)
Lemma spec_line_starts_increasing_inv (emits : Z -> bool) text : forall (seen : bool) (p n : Z),
  strictly_increasing (p :: spec_line_starts emits text n) = true -> (if seen then p < n else p = n) ->
  lines_nonempty emits text seen = true.
Proof.
  induction text as [|c t IH]; intros seen p n Hinc Hp; [done|]. simpl in Hinc |- *.
  destruct (Z.eqb_spec c 10).
  - apply andb_prop in Hinc as [Hlt Hinc]. apply Z.ltb_lt in Hlt.
    destruct seen; [|lia]. apply (IH false n n); done.
  - apply (IH (seen || emits c) p _ Hinc). destruct seen, (emits c); simpl; lia.
Qed.

(** The spec's line table meets the text area's contract exactly when
    every line of the text but the last holds a glyph. *)
Lemma spec_line_table_wf_iff (emits : Z -> bool) text :
  Z.of_nat (length (filter emits text)) + 1 < u32_modulus ->
  drawer_wf (spec_line_table emits text) <-> lines_nonempty emits text false = true.
Proof.
  intros Hc. split; [|intros Hne; apply spec_line_table_wf; done].
  intros Hwf. apply (spec_line_starts_increasing_inv emits text false 0 0); [|done].
  exact (line_table_increasing _ Hwf).
Qed.

Lemma sample_table_wf : drawer_wf sample_table.
Proof. apply line_table_wf. reflexivity. Qed.

End LineTable.
