(* ===== verification/TextArea.v ===== *)
(** * Cursor and selection of a text area ([AbstractTextAreaWidget.inl])

    The model of [src/SDK/include/NDK/Widgets/AbstractTextAreaWidget.inl].
    The widget's state is a record: its text drawer (any instance of the
    [AbstractTextDrawer] interface), the selection ends
    [m_cursorPositionBegin] and [m_cursorPositionEnd] (a position is a
    column [x] and a line [y], both [unsigned int]) and the flags.  Every
    inline member is a function.  Any call that can read a line out of range
    returns [option].  The two notification signals are lists of slots.
    A slot gets the widget and the proposed value and returns the value it
    leaves; the slots run in connection order ([emit]).  [RefreshCursor]
    only redraws, so the model counts its calls ([cursor_refreshes]).  The
    ranged [Erase] and the indexed [Write] are defined in the widget's .cpp
    file: the inline members that delegate to them return the call they
    make ([TextRequest]). *)

From stdpp Require Import relations.
From S2P Require Import Prelude LineTable.
Import LineTable.

Module TextArea.

Local Open Scope Z_scope.

(** [Nz::Vector2ui] used as a cursor position: [x] is the column, [y] the line. *)
Record Vec2ui := mkVec2ui { x : Z; y : Z }.

#[export] Instance Vec2ui_eq_dec : EqDecision Vec2ui.
Proof. solve_decision. Defined.

(** The reordering test of lines 212 and 220: [a] comes strictly before [b]. *)
Definition pos_ltb (a b : Vec2ui) : bool :=
  (y a <? y b) || ((y a =? y b) && (x a <? x b)).

Definition pos_leb (a b : Vec2ui) : bool := negb (pos_ltb b a).

(** [EchoMode] (an enum of the widget header). *)
Inductive EchoMode := EchoMode_Normal | EchoMode_Password | EchoMode_PasswordExceptLast.

(** The calls the inline members make to the non-inline text mutations. *)
Inductive TextRequest :=
  | EraseRange (firstGlyph lastGlyph : Z)
  | WriteAt (text : list Z) (glyphIndex : Z).

Record TextArea (D : Type) := mkTextArea {
  ta_drawer : D;
  m_cursorPositionBegin : Vec2ui;
  m_cursorPositionEnd : Vec2ui;
  m_multiLineEnabled : bool;
  m_tabEnabled : bool;
  m_readOnly : bool;
  m_echoMode : EchoMode;
  m_characterFilter : option (Z -> bool);
  ta_hasFocus : bool;
  cursor_enabled : bool;
  cursor_refreshes : nat;
  m_isLineWrapEnabled : bool      (* written only by the widget's .cpp (EnableLineWrap) *)
}.

Arguments mkTextArea {D}.
Arguments ta_drawer {D}.
Arguments m_cursorPositionBegin {D}.
Arguments m_cursorPositionEnd {D}.
Arguments m_multiLineEnabled {D}.
Arguments m_tabEnabled {D}.
Arguments m_readOnly {D}.
Arguments m_echoMode {D}.
Arguments m_characterFilter {D}.
Arguments ta_hasFocus {D}.
Arguments cursor_enabled {D}.
Arguments cursor_refreshes {D}.
Arguments m_isLineWrapEnabled {D}.

(** A signal: its slots run in connection order on one mutable value. *)
Definition emit {W A : Type} (slots : list (W -> A -> A)) (w : W) (a : A) : A :=
  fold_left (fun acc slot => slot w acc) slots a.

Section Widget.
Context {D : Type} `{AbstractTextDrawer D}.

(** Lines 50-56: the line scan of [GetCursorPosition]. *)
Fixpoint scan_lines (d : D) (glyphIndex : Z) (i : Z) (n : nat) (line : Z) : option Z :=
  match n with
  | O => Some line
  | S n' =>
      match GetLine d i with
      | None => None
      | Some li =>
          if glyphIndex <? LineTable.glyphIndex li then Some line
          else scan_lines d glyphIndex (i + 1) n' i
      end
  end.

(** Lines 42-65. *)
Definition GetCursorPosition (d : D) (glyphIndex : Z) : option Vec2ui :=
  let gi := Z.min glyphIndex (GetGlyphCount d) in
  line ← scan_lines d gi 1 (Z.to_nat (GetLineCount d - 1)) 0;
  lineInfo ← GetLine d line;
  Some (mkVec2ui (wrap32 (wrap64 (gi - LineTable.glyphIndex lineInfo))) (wrap32 line)).

(** Lines 77-88. *)
Definition GetGlyphIndex (d : D) (p : Vec2ui) : option Z :=
  lineInfo ← GetLine d (y p);
  let gi := wrap64 (LineTable.glyphIndex lineInfo + x p) in
  if wrap32 (y p + 1) <? GetLineCount d then
    next ← GetLine d (wrap32 (y p + 1));
    Some (Z.min gi (wrap64 (LineTable.glyphIndex next - 1)))
  else Some (Z.min gi (GetGlyphCount d)).

(** Lines 153-169. *)
Definition NormalizeCursorPosition (d : D) (p : Vec2ui) : option Vec2ui :=
  let lineCount := GetLineCount d in
  let py := if lineCount <=? y p then wrap32 (wrap64 (lineCount - 1)) else y p in
  lineInfo ← GetLine d py;
  if wrap32 (py + 1) <? lineCount then
    nextLineInfo ← GetLine d (wrap32 (py + 1));
    Some (mkVec2ui (Z.min (x p) (wrap32 (wrap64 (LineTable.glyphIndex nextLineInfo
                                           - LineTable.glyphIndex lineInfo - 1)))) py)
  else Some (mkVec2ui (x p) py).

(** Line 90-93. *)
Definition HasSelection (w : TextArea D) : bool :=
  bool_decide (m_cursorPositionBegin w <> m_cursorPositionEnd w).

(** Lines 245-251: both ends at [p], then [RefreshCursor()]. *)
Definition SetCursorPositionInternal (w : TextArea D) (p : Vec2ui) : TextArea D :=
  mkTextArea (ta_drawer w) p p (m_multiLineEnabled w) (m_tabEnabled w) (m_readOnly w)
    (m_echoMode w) (m_characterFilter w) (ta_hasFocus w) (cursor_enabled w)
    (S (cursor_refreshes w)) (m_isLineWrapEnabled w).

(** Lines 240-243. *)
Definition SetCursorPositionInternal_index (w : TextArea D) (glyphIndex : Z)
    : option (TextArea D) :=
  p ← GetCursorPosition (ta_drawer w) glyphIndex;
  Some (SetCursorPositionInternal w p).

(** Lines 209-228: the stored selection after the ordering, the hook and
    the normalisation. *)
Definition order_positions (p : Vec2ui * Vec2ui) : Vec2ui * Vec2ui :=
  if pos_ltb p.2 p.1 then (p.2, p.1) else p.

Section Slots.
Context (OnTextAreaCursorMove : list (TextArea D -> Vec2ui -> Vec2ui)).
Context (OnTextAreaSelection : list (TextArea D -> Vec2ui * Vec2ui -> Vec2ui * Vec2ui)).

(** Lines 176-187. *)
Definition SetCursorPosition_index (w : TextArea D) (glyphIndex : Z) : option (TextArea D) :=
  position ← GetCursorPosition (ta_drawer w) glyphIndex;
  let newPosition := emit OnTextAreaCursorMove w position in
  if decide (position = newPosition) then Some (SetCursorPositionInternal w position)
  else
    gi ← GetGlyphIndex (ta_drawer w) newPosition;
    SetCursorPositionInternal_index w gi.

(** The other reading of lines 176-187 that section 9 of the spec leaves
    open: compare the slots' answer with the original position by the
    glyph index it denotes, not by its coordinates. *)
Definition SetCursorPosition_index_by_index (w : TextArea D) (glyphIndex : Z) : option (TextArea D) :=
  position ← GetCursorPosition (ta_drawer w) glyphIndex;
  let newPosition := emit OnTextAreaCursorMove w position in
  gi ← GetGlyphIndex (ta_drawer w) newPosition;
  if decide (gi = Z.min glyphIndex (GetGlyphCount (ta_drawer w)))
  then Some (SetCursorPositionInternal w position)
  else SetCursorPositionInternal_index w gi.

(** Lines 189-194. *)
Definition SetCursorPosition_pos (w : TextArea D) (cursorPosition : Vec2ui)
    : option (TextArea D) :=
  let p := emit OnTextAreaCursorMove w cursorPosition in
  np ← NormalizeCursorPosition (ta_drawer w) p;
  Some (SetCursorPositionInternal w np).

(** Lines 115-128. *)
Definition MoveCursor_int (w : TextArea D) (offset : Z) : option (TextArea D) :=
  cursorGlyph ← GetGlyphIndex (ta_drawer w) (m_cursorPositionBegin w);
  if 0 <=? offset then SetCursorPosition_index w (wrap64 (cursorGlyph + offset))
  else
    negOffset ← int_neg offset;
    let nOffset := wrap64 negOffset in
    if cursorGlyph <=? nOffset then SetCursorPosition_index w 0
    else SetCursorPosition_index w (cursorGlyph - nOffset).

(** Lines 132-144: the lambda [ClampOffset]. *)
Definition ClampOffset (cursorPosition cursorOffset : Z) : option Z :=
  if 0 <=? cursorOffset then Some (wrap32 (cursorPosition + cursorOffset))
  else
    negOffset ← int_neg cursorOffset;
    let nOffset := wrap32 negOffset in
    Some (if cursorPosition <=? nOffset then 0 else cursorPosition - nOffset).

(** Lines 130-151. *)
Definition MoveCursor_vec (w : TextArea D) (ox oy : Z) : option (TextArea D) :=
  let c := m_cursorPositionBegin w in
  px ← ClampOffset (x c) ox;
  py ← ClampOffset (y c) oy;
  SetCursorPosition_pos w (mkVec2ui px py).

(** Lines 209-228. *)
Definition SetSelection (w : TextArea D) (fromPosition toPosition : Vec2ui)
    : option (TextArea D) :=
  let '(f, t) := order_positions (fromPosition, toPosition) in
  if decide (m_cursorPositionBegin w <> f \/ m_cursorPositionEnd w <> t) then
    let '(f', t') := order_positions (emit OnTextAreaSelection w (f, t)) in
    b ← NormalizeCursorPosition (ta_drawer w) f';
    e ← NormalizeCursorPosition (ta_drawer w) t';
    Some (mkTextArea (ta_drawer w) b e (m_multiLineEnabled w) (m_tabEnabled w)
            (m_readOnly w) (m_echoMode w) (m_characterFilter w) (ta_hasFocus w)
            (cursor_enabled w) (S (cursor_refreshes w)) (m_isLineWrapEnabled w))
  else Some w.
End Slots.

(** Lines 19-30: [Erase(glyphPosition)] and [EraseSelection()].  The
    latter issues no call without a selection. *)
Definition Erase (w : TextArea D) (glyphPosition : Z) : TextRequest :=
  EraseRange glyphPosition (wrap64 (glyphPosition + 1)).

Definition EraseSelection (w : TextArea D) : option (option TextRequest) :=
  if HasSelection w then
    b ← GetGlyphIndex (ta_drawer w) (m_cursorPositionBegin w);
    e ← GetGlyphIndex (ta_drawer w) (m_cursorPositionEnd w);
    Some (Some (EraseRange b e))
  else Some None.

(** Lines 230-238: writing at the cursor or at a position. *)
Definition Write (w : TextArea D) (text : list Z) : option TextRequest :=
  i ← GetGlyphIndex (ta_drawer w) (m_cursorPositionBegin w);
  Some (WriteAt text i).

Definition Write_pos (w : TextArea D) (text : list Z) (glyphPosition : Vec2ui)
    : option TextRequest :=
  i ← GetGlyphIndex (ta_drawer w) glyphPosition;
  Some (WriteAt text i).

(** Lines 9-17, 171-174, 196-207: the flag setters.  [SetEchoMode] also
    rebuilds the displayed text ([UpdateDisplayText], not inline). *)
Definition EnableMultiline (w : TextArea D) (enable : bool) : TextArea D :=
  mkTextArea (ta_drawer w) (m_cursorPositionBegin w) (m_cursorPositionEnd w) enable
    (m_tabEnabled w) (m_readOnly w) (m_echoMode w) (m_characterFilter w) (ta_hasFocus w)
    (cursor_enabled w) (cursor_refreshes w) (m_isLineWrapEnabled w).

Definition EnableTabWriting (w : TextArea D) (enable : bool) : TextArea D :=
  mkTextArea (ta_drawer w) (m_cursorPositionBegin w) (m_cursorPositionEnd w)
    (m_multiLineEnabled w) enable (m_readOnly w) (m_echoMode w) (m_characterFilter w)
    (ta_hasFocus w) (cursor_enabled w) (cursor_refreshes w) (m_isLineWrapEnabled w).

Definition SetCharacterFilter (w : TextArea D) (filter : option (Z -> bool)) : TextArea D :=
  mkTextArea (ta_drawer w) (m_cursorPositionBegin w) (m_cursorPositionEnd w)
    (m_multiLineEnabled w) (m_tabEnabled w) (m_readOnly w) (m_echoMode w) filter
    (ta_hasFocus w) (cursor_enabled w) (cursor_refreshes w) (m_isLineWrapEnabled w).

(** Lines 196-201.  The [UpdateDisplayText()] call of line 200 rebuilds
    the drawer's text from the echo mode; it is defined in the widget's
    .cpp (not among the sources) and the drawer is abstract here, so the
    call is not represented. *)
Definition SetEchoMode (w : TextArea D) (echoMode : EchoMode) : TextArea D :=
  mkTextArea (ta_drawer w) (m_cursorPositionBegin w) (m_cursorPositionEnd w)
    (m_multiLineEnabled w) (m_tabEnabled w) (m_readOnly w) echoMode (m_characterFilter w)
    (ta_hasFocus w) (cursor_enabled w) (cursor_refreshes w) (m_isLineWrapEnabled w).

(** [m_cursorEntity->Enable(!m_readOnly && HasFocus())]. *)
Definition SetReadOnly (w : TextArea D) (readOnly : bool) : TextArea D :=
  mkTextArea (ta_drawer w) (m_cursorPositionBegin w) (m_cursorPositionEnd w)
    (m_multiLineEnabled w) (m_tabEnabled w) readOnly (m_echoMode w) (m_characterFilter w)
    (ta_hasFocus w) (negb readOnly && ta_hasFocus w) (cursor_refreshes w) (m_isLineWrapEnabled w).

(** Lines 32-40, 67-75, 95-113: the getters.  [GetCursorPosition()] and
    [GetGlyphIndex()] read the selection begin; the [_current] suffix
    tells them from the overloads with an argument. *)
Definition GetCharacterFilter (w : TextArea D) : option (Z -> bool) := m_characterFilter w.
Definition GetCursorPosition_current (w : TextArea D) : Vec2ui := m_cursorPositionBegin w.
Definition GetEchoMode (w : TextArea D) : EchoMode := m_echoMode w.
Definition GetGlyphIndex_current (w : TextArea D) : option Z :=
  GetGlyphIndex (ta_drawer w) (m_cursorPositionBegin w).
Definition IsLineWrapEnabled (w : TextArea D) : bool := m_isLineWrapEnabled w.
Definition IsMultilineEnabled (w : TextArea D) : bool := m_multiLineEnabled w.
Definition IsTabWritingEnabled (w : TextArea D) : bool := m_tabEnabled w.
Definition IsReadOnly (w : TextArea D) : bool := m_readOnly w.

(** ** Positions that a well-formed drawer can show *)

(** The last glyph index a column of line [l] can reach: one before the
    next line's start, or the glyph count on the last line. *)
Definition line_end (d : D) (l : Z) : Z :=
  if l + 1 <? GetLineCount d then line_start d (l + 1) - 1 else GetGlyphCount d.

Definition valid_pos (d : D) (p : Vec2ui) : Prop :=
  0 <= y p < GetLineCount d /\ 0 <= x p /\ line_start d (y p) + x p <= line_end d (y p).

#[export] Instance valid_pos_dec d p : Decision (valid_pos d p).
Proof. unfold valid_pos. apply _. Defined.

(** [l] is the line that holds glyph index [g]. *)
Definition line_of (d : D) (g l : Z) : Prop :=
  0 <= l < GetLineCount d /\ line_start d l <= g /\
  (l + 1 < GetLineCount d -> g < line_start d (l + 1)).

(** The reference line lookup: the number of lines, after the first, that
    start at or before glyph [g].  The scan of [GetCursorPosition] stops
    early instead of counting them all. *)
Definition line_of_index (d : D) (g : Z) : Z :=
  Z.of_nat (length (filter (fun i => line_start d i <= g) (seqZ 1 (GetLineCount d - 1)))).

End Widget.

(** A widget on the line table of "ab\ncd" (see [sample_table]), cursor at
    the start of the second line; used by the examples. *)
Definition sample_widget (b e : Vec2ui) : TextArea LineTableData :=
  mkTextArea sample_table b e false false false EchoMode_Normal None false false 0 false.

(** The line table the spec prescribes for "A\n\nB": [[0; 1; 1]], with
    the empty line 1. *)
Definition empty_line_table : LineTableData :=
  spec_line_table (fun c => negb (c =? 10)) [65; 10; 10; 66].

(** The line table of "abc\nd": a last line shorter than the first. *)
Definition short_last_line : LineTableData := mkLineTable 5 [0; 4].

Definition short_last_line_widget (b : Vec2ui) : TextArea LineTableData :=
  mkTextArea short_last_line b b false false false EchoMode_Normal None false false 0 false.

(** ** Specifications of the conversions *)

Section Conversions.
Context {D : Type} `{AbstractTextDrawer D} (d : D) (Hwf : drawer_wf d).
Local Set Default Proof Using "All".

Local Ltac wf_facts :=
  pose proof (wf_count_range d Hwf); pose proof (wf_line_count d Hwf);
  pose proof (line_count_le d Hwf).

Lemma scan_lines_spec gi n i line :
  Z.of_nat n = GetLineCount d - i -> line + 1 = i -> 0 <= line ->
  line_start d line <= gi ->
  exists L, scan_lines d gi i n line = Some L /\ line_of d gi L.
Proof.
  revert i line. induction n as [|n IH]; intros i line Hn Hi H0 Hs; simpl.
  - exists line. repeat split; lia.
  - rewrite (GetLine_start d Hwf i) by lia. simpl.
    destruct (Z.ltb_spec gi (line_start d i)).
    + exists line. repeat split; try lia. intros _. subst i. done.
    + apply IH; lia.
Qed.

(** [GetCursorPosition] finds the line of the clamped index, and the
    column is the offset from that line's start. *)
Lemma GetCursorPosition_spec gi :
  0 <= gi < u64_modulus ->
  exists L, line_of d (Z.min gi (GetGlyphCount d)) L /\
    GetCursorPosition d gi =
      Some (mkVec2ui (Z.min gi (GetGlyphCount d) - line_start d L) L).
Proof.
  intros Hgi. wf_facts.
  destruct (scan_lines_spec (Z.min gi (GetGlyphCount d)) (Z.to_nat (GetLineCount d - 1)) 1 0)
    as (L & HL & Hof); [rewrite Z2Nat.id; lia | lia | lia | rewrite (line_start_0 d Hwf); lia |].
  exists L. split; [done|]. unfold GetCursorPosition. rewrite HL. simpl.
  destruct Hof as (HL1 & HL2 & HL3).
  rewrite (GetLine_start d Hwf L) by lia. simpl.
  pose proof (line_start_le_count d Hwf L).
  pose proof (line_start_nonneg d Hwf L ltac:(lia)).
  nz_unwrap. done.
Qed.

(** On a line that exists, [GetGlyphIndex] is the line start plus the
    column, capped by the end of the line. *)
Lemma GetGlyphIndex_spec p :
  0 <= y p < GetLineCount d -> in_u32 (x p) ->
  GetGlyphIndex d p = Some (Z.min (line_start d (y p) + x p) (line_end d (y p))).
Proof.
  intros Hy Hx. wf_facts. unfold GetGlyphIndex, line_end.
  rewrite (GetLine_start d Hwf (y p)) by lia. simpl.
  pose proof (line_start_le_count d Hwf (y p)).
  pose proof (line_start_nonneg d Hwf (y p) Hy).
  rewrite (wrap32_small (y p + 1)) by nz_lia.
  destruct (Z.ltb_spec (y p + 1) (GetLineCount d)).
  - rewrite (GetLine_start d Hwf (y p + 1)) by lia. simpl.
    pose proof (line_start_succ d Hwf (y p) ltac:(lia) ltac:(lia)).
    pose proof (line_start_le_count d Hwf (y p + 1)). nz_unwrap. done.
  - nz_unwrap. done.
Qed.

(** A line past the last one is read out of range. *)
Lemma GetGlyphIndex_out_of_range p :
  GetLineCount d <= y p -> GetGlyphIndex d p = None.
Proof. intros Hy. unfold GetGlyphIndex. rewrite (wf_line_none d Hwf (y p)) by lia. reflexivity. Qed.

(** [NormalizeCursorPosition] clamps the line to the last one, and the
    column to the line's length on every line but the last. *)
Lemma NormalizeCursorPosition_spec p :
  0 <= y p -> in_u32 (y p) ->
  let py := Z.min (y p) (GetLineCount d - 1) in
  NormalizeCursorPosition d p =
    Some (mkVec2ui (if py + 1 <? GetLineCount d
                    then Z.min (x p) (line_start d (py + 1) - line_start d py - 1)
                    else x p) py).
Proof.
  intros Hy0 Hy. wf_facts. unfold NormalizeCursorPosition. simpl.
  assert (Hpy : (if GetLineCount d <=? y p then wrap32 (wrap64 (GetLineCount d - 1)) else y p)
                = Z.min (y p) (GetLineCount d - 1)).
  { destruct (Z.leb_spec (GetLineCount d) (y p)); nz_unwrap; lia. }
  rewrite Hpy. set (py := Z.min (y p) (GetLineCount d - 1)).
  rewrite (GetLine_start d Hwf py) by lia. simpl.
  rewrite (wrap32_small (py + 1)) by nz_lia.
  destruct (Z.ltb_spec (py + 1) (GetLineCount d)); [|done].
  rewrite (GetLine_start d Hwf (py + 1)) by lia. simpl.
  pose proof (line_start_succ d Hwf py ltac:(lia) ltac:(lia)).
  pose proof (line_start_le_count d Hwf (py + 1)).
  pose proof (line_start_nonneg d Hwf py ltac:(lia)).
  nz_unwrap. done.
Qed.

Lemma line_end_bounds l :
  0 <= l < GetLineCount d ->
  line_start d l <= line_end d l <= GetGlyphCount d /\
  (l + 1 < GetLineCount d -> line_end d l = line_start d (l + 1) - 1) /\
  (GetLineCount d <= l + 1 -> line_end d l = GetGlyphCount d).
Proof.
  intros Hl. wf_facts. unfold line_end.
  pose proof (line_start_le_count d Hwf l).
  destruct (Z.ltb_spec (l + 1) (GetLineCount d)); [|lia].
  pose proof (line_start_succ d Hwf l ltac:(lia) ltac:(lia)).
  pose proof (line_start_le_count d Hwf (l + 1)). lia.
Qed.

(** Each glyph index lies on one line only. *)
Lemma line_of_unique g a b : line_of d g a -> line_of d g b -> a = b.
Proof.
  intros (Ha & Hsa & Hna) (Hb & Hsb & Hnb).
  destruct (Z.lt_trichotomy a b) as [Hab|[Hab|Hab]]; [|done|].
  - pose proof (line_start_mono d Hwf (a + 1) b ltac:(lia) ltac:(lia)). specialize (Hna ltac:(lia)). lia.
  - pose proof (line_start_mono d Hwf (b + 1) a ltac:(lia) ltac:(lia)). specialize (Hnb ltac:(lia)). lia.
Qed.

(** The column of a valid position fits an [unsigned int]. *)
Lemma valid_pos_u32 p : valid_pos d p -> in_u32 (x p) /\ in_u32 (y p).
Proof.
  intros (Hy & Hx & Hle). wf_facts.
  pose proof (line_end_bounds (y p) Hy). pose proof (line_start_nonneg d Hwf (y p) Hy). nz_lia.
Qed.

Lemma valid_pos_index p :
  valid_pos d p -> GetGlyphIndex d p = Some (line_start d (y p) + x p) /\
                   line_of d (line_start d (y p) + x p) (y p).
Proof.
  intros Hv. pose proof Hv as (Hy & Hx & Hle). destruct (valid_pos_u32 p Hv) as [Hxu _].
  rewrite GetGlyphIndex_spec by done. destruct (line_end_bounds (y p) Hy) as [_ Hn].
  split; [f_equal; lia|]. repeat split; lia.
Qed.

(** Index to position and back (shared by the cursor theorems). *)
Lemma index_position_roundtrip i :
  0 <= i <= GetGlyphCount d ->
  exists p, GetCursorPosition d i = Some p /\ valid_pos d p /\ GetGlyphIndex d p = Some i.
Proof.
  intros Hi. wf_facts.
  destruct (GetCursorPosition_spec i ltac:(nz_lia)) as (L & Hof & ->).
  rewrite Z.min_l in * by lia. destruct Hof as (HL & Hs & Hn).
  destruct (line_end_bounds L HL) as (Hb & Heq & Hlast).
  assert (Hend : i <= line_end d L) by lia.
  assert (Hv : valid_pos d (mkVec2ui (i - line_start d L) L)) by (repeat split; simpl; lia).
  eexists; split; [done|]. split; [done|].
  destruct (valid_pos_index _ Hv) as [-> _]. simpl. f_equal. lia.
Qed.

(** The reference lookup finds the line that holds the glyph. *)
Lemma line_of_index_spec g L : line_of d g L -> line_of_index d g = L.
Proof.
  intros (HL & Hs & Hn). wf_facts. unfold line_of_index.
  replace (GetLineCount d - 1) with (Z.of_nat (Z.to_nat (GetLineCount d - 1))) by lia.
  rewrite (list_filter_iff_in _ (fun i => i <= L)).
  - rewrite filter_seqZ_le by lia. lia.
  - intros i Hi. apply elem_of_seqZ in Hi. split; intros Hle.
    + destruct (Z.le_gt_cases i L) as [|Hgt]; [done|].
      pose proof (line_start_mono d Hwf (L + 1) i ltac:(lia) ltac:(lia)). specialize (Hn ltac:(lia)). lia.
    + pose proof (line_start_mono d Hwf i L ltac:(lia) ltac:(lia)). lia.
Qed.

(** C12: index round trip.  Every glyph index from 0 to the glyph count
    (the end of the text included) converts to a valid position, and that
    position converts back to the same index. *)
Theorem GetCursorPosition_roundtrip i :
  0 <= i <= GetGlyphCount d ->
  exists p, GetCursorPosition d i = Some p /\ valid_pos d p /\ GetGlyphIndex d p = Some i.
Proof. apply index_position_roundtrip. Qed.

(** C25: the early-exit line scan of [GetCursorPosition] computes the
    reference lookup [line_of_index].  For every index the result is the
    column and line the reference gives for the clamped index. *)
Theorem GetCursorPosition_reference gi :
  0 <= gi < u64_modulus ->
  GetCursorPosition d gi =
    Some (mkVec2ui (Z.min gi (GetGlyphCount d) - line_start d (line_of_index d (Z.min gi (GetGlyphCount d))))
                   (line_of_index d (Z.min gi (GetGlyphCount d)))).
Proof.
  intros Hgi. destruct (GetCursorPosition_spec gi Hgi) as (L & Hof & ->).
  rewrite (line_of_index_spec _ _ Hof). done.
Qed.



(** C13: position round trip.  A valid position converts to an index that
    converts back to the same position. *)
Theorem GetGlyphIndex_roundtrip p :
  valid_pos d p -> exists i, GetGlyphIndex d p = Some i /\ GetCursorPosition d i = Some p.
Proof.
  intros Hv. destruct (valid_pos_index p Hv) as [-> Hof]. eexists; split; [done|].
  pose proof Hv as (Hy & Hx & Hle). wf_facts. destruct (line_end_bounds (y p) Hy) as [Hb _].
  destruct (GetCursorPosition_spec (line_start d (y p) + x p)) as (L & HofL & ->).
  { pose proof (line_start_nonneg d Hwf (y p) Hy). nz_lia. }
  rewrite Z.min_l in * by lia. rewrite (line_of_unique _ _ _ HofL Hof).
  destruct p; simpl. f_equal. f_equal. lia.
Qed.

(** C14: normalisation.  [NormalizeCursorPosition] always succeeds, lands
    on an existing line, is idempotent, leaves a valid position unchanged,
    and yields a valid position on every line but the last. *)
Theorem NormalizeCursorPosition_props p :
  in_u32 (x p) -> in_u32 (y p) ->
  exists q, NormalizeCursorPosition d p = Some q /\
    0 <= y q < GetLineCount d /\ NormalizeCursorPosition d q = Some q /\
    (y q + 1 < GetLineCount d -> valid_pos d q) /\ (valid_pos d p -> q = p).
Proof.
  intros Hx Hy. wf_facts. rewrite NormalizeCursorPosition_spec by nz_lia.
  set (py := Z.min (y p) (GetLineCount d - 1)).
  assert (Hpy : 0 <= py < GetLineCount d) by (unfold in_u32 in *; lia).
  pose proof (line_start_nonneg d Hwf py Hpy).
  destruct (line_end_bounds py Hpy) as (Hb & Heq & Hlast).
  eexists; split; [done|]. simpl. split; [done|].
  rewrite NormalizeCursorPosition_spec by (simpl; nz_lia). simpl.
  rewrite (Z.min_l py) by lia.
  destruct (Z.ltb_spec (py + 1) (GetLineCount d)) as [Hlt|Hge].
  - specialize (Heq Hlt). pose proof (line_start_succ d Hwf py ltac:(lia) Hlt).
    split; [f_equal; f_equal; lia|]. split.
    + intros _. repeat split; simpl; unfold in_u32 in *; lia.
    + intros (Hy' & Hx' & Hle). destruct p as [px pyy]; simpl in *.
      unfold py in *. assert (E : Z.min pyy (GetLineCount d - 1) = pyy) by lia.
      rewrite E in *. f_equal. lia.
  - split; [done|]. split; [lia|].
    intros (Hy' & Hx' & Hle). destruct p as [px pyy]; simpl in *. f_equal. lia.
Qed.

(** C15: on the last line the column is not clamped.  A position on or past
    the last line is moved to the last line with its column unchanged, even
    when that column lies past the end of the text. *)
Theorem NormalizeCursorPosition_last_line p :
  in_u32 (y p) -> GetLineCount d - 1 <= y p ->
  NormalizeCursorPosition d p = Some (mkVec2ui (x p) (GetLineCount d - 1)).
Proof.
  intros Hy Hl. wf_facts. rewrite NormalizeCursorPosition_spec by nz_lia.
  rewrite Z.min_r by lia. destruct (Z.ltb_spec (GetLineCount d - 1 + 1) (GetLineCount d)); [lia|].
  done.
Qed.
End Conversions.

(** ** Moving the cursor *)

Section Cursor.
Context {D : Type} `{AbstractTextDrawer D}.

Lemma GetCursorPosition_clamp (d : D) gi :
  GetCursorPosition d gi = GetCursorPosition d (Z.min gi (GetGlyphCount d)).
Proof. unfold GetCursorPosition. rewrite <- Z.min_assoc, Z.min_id. reflexivity. Qed.

(** Every index [GetGlyphIndex] returns lies between 0 and the glyph count. *)
Lemma GetGlyphIndex_range (d : D) p c :
  drawer_wf d -> GetGlyphIndex d p = Some c -> 0 <= c <= GetGlyphCount d.
Proof.
  intros Hwf. pose proof (wf_count_range d Hwf). pose proof (line_count_le d Hwf).
  unfold GetGlyphIndex.
  destruct (GetLine d (y p)) as [li|] eqn:Hl; [|done]. simpl.
  destruct (GetLine_some d Hwf _ _ Hl) as [Hy _].
  pose proof (wrap64_range (glyphIndex li + x p)).
  rewrite (wrap32_small (y p + 1)) by nz_lia.
  destruct (_ <? _).
  - destruct (GetLine d (y p + 1)) as [nx|] eqn:Hn; [|done]. simpl.
    intros [= <-]. destruct (GetLine_some d Hwf _ _ Hn) as [Hi Hg].
    rewrite (wrap64_small (glyphIndex nx - 1)) by nz_lia. lia.
  - intros [= <-]. lia.
Qed.

(** With no slot connected, [SetCursorPosition(glyphIndex)] puts both ends
    at the position of the clamped index. *)
Lemma SetCursorPosition_index_noslot (w : TextArea D) gi :
  drawer_wf (ta_drawer w) -> 0 <= gi < u64_modulus ->
  exists p, SetCursorPosition_index [] w gi = Some (SetCursorPositionInternal w p) /\
    valid_pos (ta_drawer w) p /\
    GetGlyphIndex (ta_drawer w) p = Some (Z.min gi (GetGlyphCount (ta_drawer w))).
Proof.
  intros Hwf Hgi. pose proof (wf_count_range _ Hwf).
  destruct (index_position_roundtrip (ta_drawer w) Hwf (Z.min gi (GetGlyphCount (ta_drawer w))))
    as (p & Hp & Hv & Hi); [lia|].
  exists p. split; [|done]. unfold SetCursorPosition_index.
  rewrite GetCursorPosition_clamp, Hp. simpl. unfold emit. simpl.
  rewrite decide_True by done. done.
Qed.

(** C16: [MoveCursor(int)] moves the cursor index by the offset and
    saturates at both ends: at 0 below (the §8 clamping property) and at
    the glyph count above.  Both selection ends land on that index. *)
Theorem MoveCursor_int_clamps (w : TextArea D) offset c :
  drawer_wf (ta_drawer w) ->
  GetGlyphIndex_current w = Some c ->
  - 2 ^ 31 < offset < 2 ^ 31 ->
  exists w', MoveCursor_int [] w offset = Some w' /\
    GetGlyphIndex_current w' = Some (Z.max 0 (Z.min (c + offset) (GetGlyphCount (ta_drawer w)))) /\
    m_cursorPositionEnd w' = GetCursorPosition_current w'.
Proof.
  unfold GetGlyphIndex_current, GetCursorPosition_current. intros Hwf Hc Hoff. pose proof (GetGlyphIndex_range _ _ _ Hwf Hc). pose proof (wf_count_range _ Hwf).
  unfold MoveCursor_int. rewrite Hc. simpl.
  assert (Hgo : forall gi, 0 <= gi < u64_modulus ->
            Z.max 0 (Z.min (c + offset) (GetGlyphCount (ta_drawer w))) =
              Z.min gi (GetGlyphCount (ta_drawer w)) ->
            exists w', SetCursorPosition_index [] w gi = Some w' /\
              GetGlyphIndex (ta_drawer w') (m_cursorPositionBegin w') =
                Some (Z.max 0 (Z.min (c + offset) (GetGlyphCount (ta_drawer w)))) /\
              m_cursorPositionEnd w' = m_cursorPositionBegin w').
  { intros gi Hgi Heq. destruct (SetCursorPosition_index_noslot w gi Hwf Hgi) as (p & -> & _ & Hi).
    eexists; split; [done|]. simpl. rewrite Heq. done. }
  destruct (Z.leb_spec 0 offset).
  - rewrite (wrap64_small (c + offset)) by nz_lia. apply Hgo; nz_lia.
  - rewrite int_neg_Some by lia. simpl. rewrite (wrap64_small (- offset)) by nz_lia.
    destruct (Z.leb_spec c (- offset)); apply Hgo; nz_lia.
Qed.

(** [MoveCursor(INT_MIN)] negates [INT_MIN]: undefined behaviour. *)
Lemma MoveCursor_int_min slots (w : TextArea D) c :
  GetGlyphIndex_current w = Some c -> MoveCursor_int slots w (- 2 ^ 31) = None.
Proof. unfold GetGlyphIndex_current, MoveCursor_int. intros ->. reflexivity. Qed.

(** C21: the spec's open question (section 9) has one answer.
    [SetCursorPosition(glyphIndex)] compares the slots' answer with the
    original position by its coordinates; comparing by the glyph index it
    denotes stores the same cursor, whatever the slots answer, a different
    position at the end of a line that denotes the same index included. *)
Theorem SetCursorPosition_index_by_index_equiv slots (w : TextArea D) gi :
  drawer_wf (ta_drawer w) -> 0 <= gi ->
  SetCursorPosition_index slots w gi = SetCursorPosition_index_by_index slots w gi.
Proof.
  intros Hwf Hgi. pose proof (wf_count_range _ Hwf).
  destruct (index_position_roundtrip (ta_drawer w) Hwf (Z.min gi (GetGlyphCount (ta_drawer w))))
    as (p & Hp & _ & Hgp); [lia|].
  unfold SetCursorPosition_index, SetCursorPosition_index_by_index.
  rewrite GetCursorPosition_clamp, Hp. simpl.
  destruct (decide (p = emit slots w p)) as [Heq|Hne].
  - rewrite <- Heq, Hgp. simpl. by rewrite decide_True.
  - destruct (GetGlyphIndex (ta_drawer w) (emit slots w p)) as [g|]; simpl; [|done].
    destruct (decide (g = Z.min gi (GetGlyphCount (ta_drawer w)))) as [->|]; [|done].
    unfold SetCursorPositionInternal_index. by rewrite Hp.
Qed.

(** C17: whatever the connected cursor-move slots return, as long as it is
    a position on an existing line, [SetCursorPosition(glyphIndex)] stores
    a valid position at both selection ends. *)
Theorem SetCursorPosition_index_valid slots (w : TextArea D) gi :
  drawer_wf (ta_drawer w) -> 0 <= gi < u64_modulus ->
  (forall p, in_u32 (x (emit slots w p)) /\ 0 <= y (emit slots w p) < GetLineCount (ta_drawer w)) ->
  exists w', SetCursorPosition_index slots w gi = Some w' /\
    valid_pos (ta_drawer w') (m_cursorPositionBegin w') /\
    m_cursorPositionEnd w' = m_cursorPositionBegin w'.
Proof.
  intros Hwf Hgi Hslots. pose proof (wf_count_range _ Hwf).
  destruct (index_position_roundtrip (ta_drawer w) Hwf (Z.min gi (GetGlyphCount (ta_drawer w))))
    as (p & Hp & Hv & _); [lia|].
  unfold SetCursorPosition_index. rewrite GetCursorPosition_clamp, Hp. simpl.
  destruct (decide (p = emit slots w p)) as [_|_]; [eexists; split; [done|]; done|].
  destruct (Hslots p) as [Hx Hy].
  rewrite GetGlyphIndex_spec by done. simpl.
  destruct (line_end_bounds _ Hwf (y (emit slots w p)) Hy) as (Hb & _ & _).
  pose proof (line_start_nonneg _ Hwf (y (emit slots w p)) Hy).
  destruct (index_position_roundtrip (ta_drawer w) Hwf
              (Z.min (line_start (ta_drawer w) (y (emit slots w p)) + x (emit slots w p))
                     (line_end (ta_drawer w) (y (emit slots w p))))) as (q & Hq & Hvq & _).
  { unfold in_u32 in *. lia. }
  unfold SetCursorPositionInternal_index. rewrite Hq. eexists; split; [done|]. done.
Qed.

(** C18: the two [SetCursorPosition] overloads treat a slot's answer
    differently.  A slot that sends the cursor to a line past the last one
    makes the index overload read that line out of range (no result), while
    the position overload normalises the answer onto the last line. *)
Theorem SetCursorPosition_slot_past_last_line (w : TextArea D) gi q :
  drawer_wf (ta_drawer w) -> 0 <= gi < u64_modulus ->
  in_u32 (y q) -> GetLineCount (ta_drawer w) <= y q ->
  SetCursorPosition_index [fun _ _ => q] w gi = None /\
  exists w', SetCursorPosition_pos [fun _ _ => q] w (m_cursorPositionBegin w) = Some w' /\
    m_cursorPositionBegin w' = mkVec2ui (x q) (GetLineCount (ta_drawer w) - 1).
Proof.
  intros Hwf Hgi Hyq Hq. pose proof (wf_count_range _ Hwf). pose proof (line_count_le _ Hwf).
  split.
  - destruct (index_position_roundtrip (ta_drawer w) Hwf (Z.min gi (GetGlyphCount (ta_drawer w))))
      as (p & Hp & (Hy & _) & _); [lia|].
    unfold SetCursorPosition_index. rewrite GetCursorPosition_clamp, Hp. simpl. unfold emit. simpl.
    rewrite decide_False by (intros ->; lia).
    rewrite GetGlyphIndex_out_of_range by done. done.
  - unfold SetCursorPosition_pos, emit. simpl.
    rewrite NormalizeCursorPosition_spec by (done || nz_lia).
    rewrite Z.min_r by lia. destruct (Z.ltb_spec (GetLineCount (ta_drawer w) - 1 + 1) (GetLineCount (ta_drawer w))); [lia|].
    eexists; split; [done|]. done.
Qed.
(** [MoveCursor(Vector2i)] with no slot stores the normalised target of
    the two clamped steps. *)
Lemma MoveCursor_vec_noslot (w : TextArea D) ox oy px py :
  ClampOffset (x (m_cursorPositionBegin w)) ox = Some px ->
  ClampOffset (y (m_cursorPositionBegin w)) oy = Some py ->
  MoveCursor_vec [] w ox oy =
    (np ← NormalizeCursorPosition (ta_drawer w) (mkVec2ui px py);
     Some (SetCursorPositionInternal w np)).
Proof. intros Hx Hy. unfold MoveCursor_vec. rewrite Hx, Hy. reflexivity. Qed.

(** C36: vertical moves.  From a valid cursor, [MoveCursor({0, -1})]
    goes one line up and clamps the column to that line's length, landing
    on a valid position.  [MoveCursor({0, 1})] onto the last line keeps
    the column as it is, even past the end of the text. *)
Theorem MoveCursor_vertical (w : TextArea D) :
  drawer_wf (ta_drawer w) -> valid_pos (ta_drawer w) (m_cursorPositionBegin w) ->
  (0 < y (m_cursorPositionBegin w) ->
   exists w', MoveCursor_vec [] w 0 (-1) = Some w' /\
     m_cursorPositionEnd w' = m_cursorPositionBegin w' /\
     m_cursorPositionBegin w' =
       mkVec2ui (Z.min (x (m_cursorPositionBegin w))
                       (line_end (ta_drawer w) (y (m_cursorPositionBegin w) - 1) -
                        line_start (ta_drawer w) (y (m_cursorPositionBegin w) - 1)))
                (y (m_cursorPositionBegin w) - 1) /\
     valid_pos (ta_drawer w) (m_cursorPositionBegin w')) /\
  (y (m_cursorPositionBegin w) + 2 = GetLineCount (ta_drawer w) ->
   exists w', MoveCursor_vec [] w 0 1 = Some w' /\
     m_cursorPositionBegin w' = mkVec2ui (x (m_cursorPositionBegin w)) (y (m_cursorPositionBegin w) + 1)).
Proof.
  intros Hwf Hv. destruct (valid_pos_u32 _ Hwf _ Hv) as [Hxu Hyu].
  pose proof Hv as (Hy & Hx & Hle). pose proof (wf_count_range _ Hwf).
  set (b := m_cursorPositionBegin w) in *.
  assert (Hcx : ClampOffset (x b) 0 = Some (x b))
    by (unfold ClampOffset; simpl; rewrite Z.add_0_r; nz_unwrap; done).
  split.
  - intros Hy0.
    assert (Hcy : ClampOffset (y b) (-1) = Some (y b - 1)).
    { unfold ClampOffset. simpl. nz_unwrap. f_equal. nz_cases; lia. }
    rewrite (MoveCursor_vec_noslot w 0 (-1) _ _ Hcx Hcy).
    rewrite NormalizeCursorPosition_spec by (done || simpl; nz_lia). simpl.
    rewrite Z.min_l by lia. replace (y b - 1 + 1) with (y b) by lia.
    destruct (line_end_bounds _ Hwf (y b - 1) ltac:(lia)) as (Hb & Heq & _).
    replace (y b - 1 + 1) with (y b) in Heq by lia. rewrite Heq in * by lia. pose proof (line_start_nonneg _ Hwf (y b - 1) ltac:(lia)).
    destruct (Z.ltb_spec (y b) (GetLineCount (ta_drawer w))); [|lia].
    eexists; split; [done|]. simpl. split; [done|]. split; [f_equal; lia|].
    repeat split; simpl; lia.
  - intros Hlast.
    assert (Hcy : ClampOffset (y b) 1 = Some (y b + 1)).
    { unfold ClampOffset. simpl. f_equal. apply wrap32_small. pose proof (line_count_le _ Hwf). nz_lia. }
    rewrite (MoveCursor_vec_noslot w 0 1 _ _ Hcx Hcy).
    rewrite NormalizeCursorPosition_spec by (done || simpl; pose proof (line_count_le _ Hwf); nz_lia). simpl.
    rewrite Z.min_l by lia. destruct (Z.ltb_spec (y b + 1 + 1) (GetLineCount (ta_drawer w))); [lia|].
    eexists; split; [done|]. done.
Qed.
End Cursor.

(** ** Selections *)

Lemma pos_ltb_asym a b : pos_ltb a b = true -> pos_ltb b a = false.
Proof.
  unfold pos_ltb. intros Hab. apply orb_true_iff in Hab.
  rewrite !orb_false_iff, !andb_false_iff, Z.eqb_neq, !Z.ltb_ge.
  destruct Hab as [Hy%Z.ltb_lt | [Hy%Z.eqb_eq Hx%Z.ltb_lt]%andb_true_iff]; lia.
Qed.

Lemma order_positions_sorted p : pos_leb (order_positions p).1 (order_positions p).2 = true.
Proof.
  unfold order_positions, pos_leb. destruct (pos_ltb p.2 p.1) eqn:E; simpl.
  - rewrite (pos_ltb_asym _ _ E). done.
  - rewrite E. done.
Qed.

(** A property both ends have survives the reordering. *)
Lemma order_positions_both (P : Vec2ui -> Prop) p :
  P p.1 -> P p.2 -> P (order_positions p).1 /\ P (order_positions p).2.
Proof. unfold order_positions. destruct (pos_ltb _ _); simpl; auto. Qed.

Section Selection.
Context {D : Type} `{AbstractTextDrawer D} (d : D) (Hwf : drawer_wf d).
Local Set Default Proof Using "All".

Definition on_lines (p : Vec2ui) : Prop := in_u32 (x p) /\ 0 <= y p < GetLineCount d.

(** Normalising two positions on existing lines keeps their order. *)
Lemma NormalizeCursorPosition_mono a b :
  on_lines a -> on_lines b -> pos_leb a b = true ->
  exists na nb, NormalizeCursorPosition d a = Some na /\ NormalizeCursorPosition d b = Some nb /\
                pos_leb na nb = true.
Proof.
  intros [Hxa Hya] [Hxb Hyb] Hab. pose proof (wf_count_range d Hwf). pose proof (line_count_le d Hwf).
  rewrite !NormalizeCursorPosition_spec by (done || nz_lia).
  rewrite (Z.min_l (y a)), (Z.min_l (y b)) by lia.
  do 2 eexists; split; [done|]; split; [done|].
  unfold pos_leb, pos_ltb in *. simpl. apply negb_true_iff in Hab. apply negb_true_iff.
  apply orb_false_iff in Hab as [Hb1 Hb2]. apply Z.ltb_ge in Hb1.
  apply orb_false_iff. split; [apply Z.ltb_ge; lia|].
  apply andb_false_iff in Hb2 as [Hb2|Hb2]; apply andb_false_iff; [left; done|].
  destruct (Z.eqb_spec (y b) (y a)) as [E|]; [right|left; done].
  apply Z.ltb_ge in Hb2. apply Z.ltb_ge. rewrite E.
  destruct (_ <? _); lia.
Qed.

(** C19: selection ordering.  After [SetSelection], the stored begin is not
    after the stored end, whatever order the caller passed the ends in and
    whatever the selection slots do, provided the ends the slots leave lie
    on existing lines. *)
Theorem SetSelection_ordered slots (w : TextArea D) fromP toP :
  ta_drawer w = d ->
  on_lines (emit slots w (order_positions (fromP, toP))).1 ->
  on_lines (emit slots w (order_positions (fromP, toP))).2 ->
  exists w', SetSelection slots w fromP toP = Some w' /\
    pos_leb (m_cursorPositionBegin w') (m_cursorPositionEnd w') = true.
Proof.
  intros Hd Hl1 Hl2. unfold SetSelection.
  pose proof (order_positions_sorted (fromP, toP)) as Hs.
  destruct (order_positions (fromP, toP)) as [f t] eqn:Ho. simpl in *.
  destruct (decide _) as [Hch|Hsame].
  - pose proof (order_positions_sorted (emit slots w (f, t))) as Hs'.
    destruct (order_positions_both on_lines (emit slots w (f, t)) Hl1 Hl2) as [Hf Ht].
    destruct (order_positions (emit slots w (f, t))) as [f' t']. simpl in *. rewrite Hd.
    destruct (NormalizeCursorPosition_mono f' t' Hf Ht Hs') as (nf & nt & -> & -> & Hn).
    eexists; split; [done|]. done.
  - exists w. split; [done|].
    assert (m_cursorPositionBegin w = f) as -> by (apply dec_stable; tauto).
    assert (m_cursorPositionEnd w = t) as -> by (apply dec_stable; tauto). done.
Qed.

(** C20: the ordering fails past the last line.  Two ends on lines past the
    last one are both moved to the last line with their columns kept, so an
    end with the smaller column is stored as the end although it comes
    first. *)
Theorem SetSelection_reversed_past_last_line (w : TextArea D) fromP toP :
  ta_drawer w = d -> valid_pos d (m_cursorPositionBegin w) ->
  GetLineCount d <= y fromP < y toP -> in_u32 (y toP) -> x toP < x fromP ->
  exists w', SetSelection [] w fromP toP = Some w' /\
    pos_ltb (m_cursorPositionEnd w') (m_cursorPositionBegin w') = true.
Proof.
  intros Hd Hv Hy Hyt Hx. pose proof Hv as (Hvy & _). pose proof (line_count_le d Hwf).
  pose proof (wf_count_range d Hwf).
  unfold SetSelection, order_positions. simpl.
  assert (Hnlt : pos_ltb toP fromP = false).
  { unfold pos_ltb. apply orb_false_iff. split; [apply Z.ltb_ge; lia|].
    apply andb_false_iff. left. apply Z.eqb_neq. lia. }
  rewrite Hnlt. rewrite decide_True by (left; intros E; rewrite <- E in Hy; lia).
  unfold emit. simpl. rewrite Hnlt, Hd.
  rewrite !NormalizeCursorPosition_spec by (done || nz_lia).
  rewrite (Z.min_r (y fromP)), (Z.min_r (y toP)) by lia.
  destruct (Z.ltb_spec (GetLineCount d - 1 + 1) (GetLineCount d)); [lia|].
  eexists; split; [done|]. simpl. unfold pos_ltb. simpl.
  rewrite Z.ltb_irrefl, Z.eqb_refl. simpl. apply Z.ltb_lt. done.
Qed.

(** The glyph index of valid positions follows their order. *)
Lemma GetGlyphIndex_mono a b ia ib :
  valid_pos d a -> valid_pos d b -> pos_leb a b = true ->
  GetGlyphIndex d a = Some ia -> GetGlyphIndex d b = Some ib -> ia <= ib.
Proof.
  intros Ha Hb Hab. destruct (valid_pos_index d Hwf a Ha) as [-> _].
  destruct (valid_pos_index d Hwf b Hb) as [-> _]. intros [= <-] [= <-].
  pose proof Ha as (Hya & Hxa & Hla). pose proof Hb as (Hyb & Hxb & Hlb).
  unfold pos_leb, pos_ltb in Hab. apply negb_true_iff, orb_false_iff in Hab as [H1 H2].
  apply Z.ltb_ge in H1. destruct (Z.eq_dec (y a) (y b)) as [E|E].
  - rewrite E in *. apply andb_false_iff in H2 as [H2|H2]; [rewrite Z.eqb_refl in H2; done|].
    apply Z.ltb_ge in H2. lia.
  - destruct (line_end_bounds d Hwf (y a) Hya) as (_ & Heq & _).
    rewrite Heq in Hla by lia.
    pose proof (line_start_mono d Hwf (y a + 1) (y b) ltac:(lia) ltac:(lia)). lia.
Qed.

(** [EraseSelection] erases nothing without a selection, and otherwise
    erases the glyph range between the two ends, which is never reversed
    when the ends are valid and ordered. *)
Theorem EraseSelection_range (w : TextArea D) :
  ta_drawer w = d ->
  valid_pos d (m_cursorPositionBegin w) -> valid_pos d (m_cursorPositionEnd w) ->
  pos_leb (m_cursorPositionBegin w) (m_cursorPositionEnd w) = true ->
  exists a b, GetGlyphIndex d (m_cursorPositionBegin w) = Some a /\
    GetGlyphIndex d (m_cursorPositionEnd w) = Some b /\ a <= b /\
    EraseSelection w = if HasSelection w then Some (Some (EraseRange a b)) else Some None.
Proof.
  intros Hd Hb He Hle.
  destruct (valid_pos_index d Hwf _ Hb) as [Ha _]. destruct (valid_pos_index d Hwf _ He) as [Hc _].
  do 2 eexists. split; [exact Ha|]. split; [exact Hc|]. split.
  - exact (GetGlyphIndex_mono _ _ _ _ Hb He Hle Ha Hc).
  - unfold EraseSelection. rewrite Hd, Ha, Hc. done.
Qed.
End Selection.

(** ** Empty lines *)

Section EmptyLines.
Context {D : Type} `{AbstractTextDrawer D}.

(** What the line scan returns: the line it started from or a line that
    starts at or before the index; and either the next line starts past
    the index or the scan ran out of lines. *)
Lemma scan_lines_result (d : D) gi n i line L :
  line + 1 = i -> scan_lines d gi i n line = Some L ->
  line <= L <= line + Z.of_nat n /\
  (L = line \/ exists sL, GetLine d L = Some sL /\ LineTable.glyphIndex sL <= gi) /\
  ((exists s', GetLine d (L + 1) = Some s' /\ gi < LineTable.glyphIndex s') \/ L + 1 = i + Z.of_nat n).
Proof.
  revert i line. induction n as [|n IH]; intros i line Hi; simpl.
  - intros [= <-]. split; [lia|]. split; [by left|]. right. lia.
  - destruct (GetLine d i) as [li|] eqn:Hl; [|done].
    destruct (Z.ltb_spec gi (LineTable.glyphIndex li)).
    + intros [= <-]. split; [lia|]. split; [by left|]. left. rewrite Hi. eauto.
    + intros Hs. destruct (IH (i + 1) i ltac:(lia) Hs) as (Hr & [->|Hex] & Hnext).
      * split; [lia|]. split; [right; subst; eauto|]. destruct Hnext; [by left|right; lia].
      * split; [lia|]. split; [by right|]. destruct Hnext; [by left|right; lia].
Qed.


(** C39: an empty line, whose start equals the next line's start (as
    two consecutive newlines give in the line table of the spec), is
    broken for the cursor.  No glyph index converts to a position on it.
    Every column on it converts to the glyph before its start, which lies
    on an earlier line.  Normalisation keeps any column there, because the
    line length [next - start - 1] wraps to 2^32 - 1. *)
Theorem empty_line_cursor (d : D) l s :
  1 <= l -> l + 1 < GetLineCount d -> GetLineCount d <= u32_modulus -> 1 <= s ->
  GetLine d l = Some (mkLine s) -> GetLine d (l + 1) = Some (mkLine s) ->
  (forall gi p, GetCursorPosition d gi = Some p -> y p <> l) /\
  (forall col, in_u32 col -> s + col < u64_modulus ->
     GetGlyphIndex d (mkVec2ui col l) = Some (s - 1) /\
     NormalizeCursorPosition d (mkVec2ui col l) = Some (mkVec2ui col l)).
Proof.
  intros Hl Hlc Hlcu Hs Hgl Hgl1. split.
  - intros gi p. unfold GetCursorPosition.
    destruct (scan_lines d _ 1 _ 0) as [L|] eqn:Hsc; [|done]. simpl.
    destruct (GetLine d L) as [li|]; [|done]. intros [= <-]. simpl.
    destruct (scan_lines_result d _ _ 1 0 L eq_refl Hsc) as (Hr & Hstart & Hnext).
    rewrite Z2Nat.id in * by lia. rewrite wrap32_small by nz_lia. intros ->.
    destruct Hstart as [?|(sL & HsL & Hle)]; [lia|]. rewrite Hgl in HsL. injection HsL as <-.
    destruct Hnext as [(s' & Hs' & Hlt)|?]; [|lia]. rewrite Hgl1 in Hs'. injection Hs' as <-.
    simpl in *. lia.
  - intros col Hcol Hsc. unfold GetGlyphIndex, NormalizeCursorPosition. simpl.
    destruct (Z.leb_spec (GetLineCount d) l); [lia|]. rewrite Hgl. simpl.
    rewrite (wrap32_small (l + 1)) by nz_lia.
    destruct (Z.ltb_spec (l + 1) (GetLineCount d)); [|lia]. rewrite Hgl1. simpl.
    rewrite (wrap64_small (s + col)), (wrap64_small (s - 1)) by nz_lia.
    rewrite (wrap64_neg (s - s - 1)) by nz_lia.
    replace (s - s - 1 + u64_modulus) with (-1 + u64_modulus) by ring. rewrite wrap32_max_u64.
    unfold in_u32 in Hcol. split; [f_equal; lia|]. do 2 f_equal. nz_lia.
Qed.
End EmptyLines.


(** C22: [ClampOffset] (the column/line step of [MoveCursor(Vector2i)])
    saturates at 0 when moving back past the start, and wraps modulo 2^32
    when moving forward past the largest [unsigned int].  For the offset
    [INT_MIN] its negation [-cursorOffset] overflows: undefined behaviour. *)
Theorem ClampOffset_spec p o :
  in_u32 p -> - 2 ^ 31 <= o < 2 ^ 31 ->
  ClampOffset p o =
    if o =? - 2 ^ 31 then None else Some (if p + o <? 0 then 0 else wrap32 (p + o)).
Proof.
  intros Hp Ho. unfold ClampOffset.
  destruct (Z.eqb_spec o (- 2 ^ 31)) as [->|Hmin]; [reflexivity|].
  destruct (Z.leb_spec 0 o); [destruct (Z.ltb_spec (p + o) 0); [nz_lia|done]|].
  rewrite int_neg_Some by lia. simpl. rewrite (wrap32_small (- o)) by nz_lia.
  f_equal. destruct (Z.leb_spec p (- o)), (Z.ltb_spec (p + o) 0); nz_unwrap; lia.
Qed.

Lemma MoveCursor_vertical_witness :
  (exists w', MoveCursor_vec [] (short_last_line_widget (mkVec2ui 1 1)) 0 (-1) = Some w' /\
     m_cursorPositionEnd w' = m_cursorPositionBegin w' /\
     m_cursorPositionBegin w' = mkVec2ui (Z.min 1 (line_end short_last_line 0 - line_start short_last_line 0)) 0 /\
     valid_pos short_last_line (m_cursorPositionBegin w')) /\
  (exists w', MoveCursor_vec [] (short_last_line_widget (mkVec2ui 3 0)) 0 1 = Some w' /\
     m_cursorPositionBegin w' = mkVec2ui 3 1) /\
  ~ valid_pos short_last_line (mkVec2ui 3 1).
Proof.
  assert (Hwf : drawer_wf short_last_line) by (apply line_table_wf; reflexivity).
  split; [|split].
  - apply (MoveCursor_vertical (short_last_line_widget (mkVec2ui 1 1)) Hwf); [|simpl; lia].
    unfold valid_pos, line_end, line_start. vm_compute. split_and!; congruence.
  - apply (MoveCursor_vertical (short_last_line_widget (mkVec2ui 3 0)) Hwf); [|reflexivity].
    unfold valid_pos, line_end, line_start. vm_compute. split_and!; congruence.
  - unfold valid_pos, line_end, line_start. vm_compute. intros (_ & _ & H). apply H. reflexivity.
Defined.

Lemma empty_line_cursor_witness :
  empty_line_table = mkLineTable 2 [0; 1; 1] /\
  GetGlyphIndex empty_line_table (mkVec2ui 5 1) = Some 0 /\
  (forall gi p, GetCursorPosition empty_line_table gi = Some p -> y p <> 1) /\
  (forall col, in_u32 col -> 1 + col < u64_modulus ->
     GetGlyphIndex empty_line_table (mkVec2ui col 1) = Some (1 - 1) /\
     NormalizeCursorPosition empty_line_table (mkVec2ui col 1) = Some (mkVec2ui col 1)).
Proof.
  split; [reflexivity|]. split; [reflexivity|].
  apply (empty_line_cursor empty_line_table 1 1); try reflexivity; vm_compute; try discriminate.
Defined.

Lemma GetCursorPosition_reference_witness :
  line_of_index sample_table 4 = 1 /\
  GetCursorPosition sample_table 4 =
    Some (mkVec2ui (Z.min 4 (GetGlyphCount sample_table) -
                    line_start sample_table (line_of_index sample_table (Z.min 4 (GetGlyphCount sample_table))))
                   (line_of_index sample_table (Z.min 4 (GetGlyphCount sample_table)))).
Proof.
  split; [vm_compute; reflexivity|].
  apply (GetCursorPosition_reference sample_table sample_table_wf). nz_lia.
Defined.



Lemma GetCursorPosition_roundtrip_witness :
  exists p, GetCursorPosition sample_table 4 = Some p /\ valid_pos sample_table p /\
            GetGlyphIndex sample_table p = Some 4.
Proof. apply (GetCursorPosition_roundtrip sample_table sample_table_wf). simpl; lia. Defined.

Lemma GetGlyphIndex_roundtrip_witness :
  exists i, GetGlyphIndex sample_table (mkVec2ui 2 0) = Some i /\
            GetCursorPosition sample_table i = Some (mkVec2ui 2 0).
Proof.
  apply (GetGlyphIndex_roundtrip sample_table sample_table_wf).
  unfold valid_pos, line_end, line_start; simpl; lia.
Defined.

Lemma NormalizeCursorPosition_props_witness :
  exists q, NormalizeCursorPosition sample_table (mkVec2ui 7 0) = Some q /\
    0 <= y q < GetLineCount sample_table /\ NormalizeCursorPosition sample_table q = Some q /\
    (y q + 1 < GetLineCount sample_table -> valid_pos sample_table q) /\
    (valid_pos sample_table (mkVec2ui 7 0) -> q = mkVec2ui 7 0).
Proof. apply (NormalizeCursorPosition_props sample_table sample_table_wf); simpl; nz_lia. Defined.

(** The column 9 kept on the last line of "ab\ncd" is past the end. *)
Lemma NormalizeCursorPosition_last_line_witness :
  NormalizeCursorPosition sample_table (mkVec2ui 9 7) = Some (mkVec2ui 9 1) /\
  ~ valid_pos sample_table (mkVec2ui 9 1).
Proof.
  split.
  - apply (NormalizeCursorPosition_last_line sample_table sample_table_wf); simpl; nz_lia.
  - unfold valid_pos, line_end, line_start; simpl; lia.
Defined.

(** ** Witnesses on the sample widget *)

Lemma MoveCursor_int_clamps_witness :
  exists w', MoveCursor_int [] (sample_widget (mkVec2ui 1 1) (mkVec2ui 1 1)) (-10) = Some w' /\
    GetGlyphIndex_current w' = Some (Z.max 0 (Z.min (4 + -10) (GetGlyphCount sample_table))) /\
    m_cursorPositionEnd w' = GetCursorPosition_current w'.
Proof. apply MoveCursor_int_clamps; [exact sample_table_wf | reflexivity | lia]. Defined.

(** A slot that moves the cursor past the end of line 0 of "ab\ncd":
    (5, 0) denotes index 2 like (2, 0), and both readings store (2, 0). *)
Lemma SetCursorPosition_index_by_index_equiv_witness :
  SetCursorPosition_index [fun _ _ => mkVec2ui 5 0] (sample_widget (mkVec2ui 0 0) (mkVec2ui 0 0)) 2 =
    Some (SetCursorPositionInternal (sample_widget (mkVec2ui 0 0) (mkVec2ui 0 0)) (mkVec2ui 2 0)) /\
  SetCursorPosition_index [fun _ _ => mkVec2ui 5 0] (sample_widget (mkVec2ui 0 0) (mkVec2ui 0 0)) 2 =
  SetCursorPosition_index_by_index [fun _ _ => mkVec2ui 5 0] (sample_widget (mkVec2ui 0 0) (mkVec2ui 0 0)) 2.
Proof.
  split; [vm_compute; reflexivity|].
  apply SetCursorPosition_index_by_index_equiv; [exact sample_table_wf|lia].
Defined.

Lemma SetCursorPosition_index_valid_witness :
  exists w', SetCursorPosition_index [fun _ _ => mkVec2ui 0 1]
               (sample_widget (mkVec2ui 0 0) (mkVec2ui 0 0)) 1 = Some w' /\
    valid_pos (ta_drawer w') (m_cursorPositionBegin w') /\
    m_cursorPositionEnd w' = m_cursorPositionBegin w'.
Proof.
  apply SetCursorPosition_index_valid; [exact sample_table_wf | nz_lia |].
  intros p. unfold emit. simpl. split; nz_lia.
Defined.

Lemma SetCursorPosition_slot_past_last_line_witness :
  SetCursorPosition_index [fun _ _ => mkVec2ui 4 5] (sample_widget (mkVec2ui 0 0) (mkVec2ui 0 0)) 3 = None /\
  exists w', SetCursorPosition_pos [fun _ _ => mkVec2ui 4 5] (sample_widget (mkVec2ui 0 0) (mkVec2ui 0 0))
               (mkVec2ui 0 0) = Some w' /\
    m_cursorPositionBegin w' = mkVec2ui 4 (GetLineCount sample_table - 1).
Proof. apply SetCursorPosition_slot_past_last_line; [exact sample_table_wf | nz_lia | simpl; nz_lia | simpl; lia]. Defined.

Lemma SetSelection_ordered_witness :
  exists w', SetSelection [] (sample_widget (mkVec2ui 0 0) (mkVec2ui 0 0)) (mkVec2ui 1 1) (mkVec2ui 2 0) = Some w' /\
    pos_leb (m_cursorPositionBegin w') (m_cursorPositionEnd w') = true.
Proof.
  apply (SetSelection_ordered sample_table sample_table_wf); [reflexivity | |];
    unfold on_lines; simpl; nz_lia.
Defined.

Lemma SetSelection_reversed_past_last_line_witness :
  exists w', SetSelection [] (sample_widget (mkVec2ui 0 0) (mkVec2ui 0 0)) (mkVec2ui 5 5) (mkVec2ui 1 6) = Some w' /\
    pos_ltb (m_cursorPositionEnd w') (m_cursorPositionBegin w') = true.
Proof.
  apply (SetSelection_reversed_past_last_line sample_table sample_table_wf); simpl;
    [reflexivity | unfold valid_pos, line_end, line_start; simpl; lia | lia | nz_lia | lia].
Defined.

(** Moving right by 2 from the largest column wraps to column 1. *)
Lemma ClampOffset_spec_witness :
  ClampOffset 4294967295 2 = Some 1 /\ ClampOffset 3 (-5) = Some 0 /\ ClampOffset 3 (- 2 ^ 31) = None.
Proof. split_and!; rewrite ClampOffset_spec by nz_lia; reflexivity. Defined.

End TextArea.
