(* ===== verification/Console.v ===== *)
(** * The scripting console: [src/SDK/src/NDK/Console.cpp]

    The console owns two text areas: a read-only history, [m_history], and
    an input line, [m_input], that starts with the prefix ["> "].  It
    connects four slots to the input's signals, and it keeps the command
    history and the history lines.  Here:
    - [Console] is the console's state.  Each text area is reduced to what
      the console sets on it: its text, character size, font, geometry
      and, for the input line, its focus.
    - The Lua state is a type [L] with [Execute] and [GetLastError] taken
      as section variables, because the interpreter is external.
    - The four slots are functions.  The history slots change the state
      and fail ([None]) where the C++ indexes [m_commandHistory] out of
      range.
    - [Layout] is computed in exact rationals.  The products of
      [unsigned int] values wrap.  The float-to-unsigned cast is
      [float_to_u32] of the ceiling: [None] (undefined behaviour) out of
      the range of [unsigned int].
    - [console_step] is the relation of every state change of the
      console.
    The text operations of [TextAreaWidget] ([SetText], [AppendText],
    [Clear]) and [Nz::String::SubString] are not among the sources.  They
    are modelled from their documented behaviour as string operations. *)

From Stdlib Require Import String Ascii QArith Qround Lqa.
From stdpp Require Import relations strings.
From S2P Require Import Prelude Font Layout LineTable TextArea.

Module Console.

Import Layout.
Import (hints) LineTable.
Local Open Scope Z_scope.

(** ** Strings *)

(** [s_inputPrefix] and [s_inputPrefixSize] (lines 20-21). *)
Definition s_inputPrefix : string := "> ".
Definition s_inputPrefixSize : Z := 2.

(** [Nz::String::SubString(startPos)]: the characters from [startPos] on. *)
Definition SubString (s : string) (startPos : nat) : string :=
  substring startPos (String.length s - startPos) s.

(** ['\n'] as a one-character string. *)
Definition newline : string := String (ascii_of_nat 10) EmptyString.

(** [Nz::Color::Red]. *)
Definition Color_Red : Color := mkColor 255 0 0 255.

(** ** State *)

(** [Console::Line]. *)
Record Line := mkLine { line_color : Color; line_text : string }.

(** The position and size a widget is given by [SetPosition] and [Resize]. *)
Record Geometry := mkGeometry { geo_pos : Vec2f; geo_size : Vec2f }.

Record Console := mkConsole {
  m_historyPosition : Z;               (* std::size_t *)
  m_commandHistory : list string;
  m_historyLines : list Line;
  m_defaultFont : option Font;         (* FontRef, null as None *)
  m_characterSize : Z;                 (* unsigned int *)
  m_maxHistoryLines : Z;               (* unsigned int *)
  widget_pos : Vec2f;                  (* BaseWidget::GetPosition() *)
  widget_size : Vec2f;                 (* BaseWidget::GetSize() *)
  history_text : string;               (* m_history's text *)
  history_characterSize : Z;
  history_font : option Font;
  historyArea_geometry : Geometry;     (* m_historyArea *)
  input_text : string;                 (* m_input's text *)
  input_characterSize : Z;
  input_font : option Font;
  input_geometry : Geometry;          (* m_input *)
  input_focus : bool                   (* m_input has the keyboard focus *)
}.

(** The record-update helpers used by the operations below. *)
Definition set_history (c : Console) (pos : Z) (cmds : list string) : Console :=
  mkConsole pos cmds (m_historyLines c) (m_defaultFont c) (m_characterSize c)
    (m_maxHistoryLines c) (widget_pos c) (widget_size c) (history_text c)
    (history_characterSize c) (history_font c) (historyArea_geometry c) (input_text c)
    (input_characterSize c) (input_font c) (input_geometry c) (input_focus c).

Definition set_input_text (c : Console) (s : string) : Console :=
  mkConsole (m_historyPosition c) (m_commandHistory c) (m_historyLines c) (m_defaultFont c)
    (m_characterSize c) (m_maxHistoryLines c) (widget_pos c) (widget_size c) (history_text c)
    (history_characterSize c) (history_font c) (historyArea_geometry c) s
    (input_characterSize c) (input_font c) (input_geometry c) (input_focus c).

Definition set_lines (c : Console) (ls : list Line) (htext : string) : Console :=
  mkConsole (m_historyPosition c) (m_commandHistory c) ls (m_defaultFont c)
    (m_characterSize c) (m_maxHistoryLines c) (widget_pos c) (widget_size c) htext
    (history_characterSize c) (history_font c) (historyArea_geometry c) (input_text c)
    (input_characterSize c) (input_font c) (input_geometry c) (input_focus c).

(** ** Operations *)

(** Lines 38-63: the fields the constructor sets.  [m_maxHistoryLines]
    and the geometry are left unset until the first [Layout()], so they are
    arguments.  The cursor move of line 63 runs before the slots are
    connected, so the console state does not see it. *)
Definition Console_ctor (defaultFont : option Font) (pos size : Vec2f)
    (maxLines0 : Z) (geo0 : Geometry) : Console :=
  mkConsole 0 [] [] defaultFont 24 maxLines0 pos size EmptyString 24 defaultFont geo0
    s_inputPrefix 24 defaultFont geo0 false.

(** Lines 104-111.  The resize and scroll calls only move widgets. *)
Definition AddLine (c : Console) (text : string) (color : Color) : Console :=
  set_lines c (m_historyLines c ++ [mkLine color text])
    (history_text c +:+ (text +:+ newline)).

(** Lines 118-125. *)
Definition Clear (c : Console) : Console :=
  set_input_text (set_lines c [] EmptyString) s_inputPrefix.

(** The slot of lines 77-85 ([OnTextAreaKeyUp]).  It returns the new
    console and the [ignoreDefaultAction] flag. *)
Definition OnKeyUp (c : Console) (ignoreDefaultAction : bool) : option (Console * bool) :=
  let pos := if 0 <? m_historyPosition c then m_historyPosition c - 1 else m_historyPosition c in
  cmd ← m_commandHistory c !! Z.to_nat pos;
  Some (set_input_text (set_history c pos (m_commandHistory c)) (s_inputPrefix +:+ cmd), true).

(** The slot of lines 87-95 ([OnTextAreaKeyDown]). *)
Definition OnKeyDown (c : Console) (ignoreDefaultAction : bool) : option (Console * bool) :=
  let pos := wrap64 (m_historyPosition c + 1) in
  let pos := if Z.of_nat (length (m_commandHistory c)) <=? pos then 0 else pos in
  cmd ← m_commandHistory c !! Z.to_nat pos;
  Some (set_input_text (set_history c pos (m_commandHistory c)) (s_inputPrefix +:+ cmd), true).

(** The slot of lines 70-74 ([OnTextAreaKeyBackspace]). *)
Definition OnKeyBackspace (glyphIndex : Z) (ignoreDefaultAction : bool) : bool :=
  if glyphIndex <=? s_inputPrefixSize then true else ignoreDefaultAction.

(** The slot of lines 65-68 ([OnTextAreaCursorMove]), on a glyph index. *)
Definition OnCursorMove (newCursorPos : Z) : Z := Z.max newCursorPos s_inputPrefixSize.

(** [m_commandHistory.back()], [None] on an empty vector. *)
Definition last_command (cmds : list string) : option string := stdpp.list_basics.list.last cmds.

Section Lua.
Context {L : Type} (Execute : L -> string -> bool * L) (GetLastError : L -> string).

(** Lines 183-200 ([OnTextAreaKeyReturn]). *)
Definition ExecuteInput (c : Console) (lua : L) : Console * L :=
  let input := input_text c in
  let inputCmd := SubString input (Z.to_nat s_inputPrefixSize) in
  let c := set_input_text c s_inputPrefix in
  let cmds := if decide (last_command (m_commandHistory c) = Some inputCmd)
              then m_commandHistory c else m_commandHistory c ++ [inputCmd] in
  let c := set_history c (Z.of_nat (length cmds)) cmds in
  let c := AddLine c input Color_White in
  let '(ok, lua) := Execute lua inputCmd in
  if ok then (c, lua) else (AddLine c (GetLastError lua) Color_Red, lua).
End Lua.

(** ** Layout *)

(** Lines 206-222, on the widget's origin and size and the font's line
    height.  It returns [m_maxHistoryLines] and the geometry given to
    [m_historyArea] and to [m_input].  The cast of line 214,
    [static_cast<unsigned int>(std::ceil(historyHeight / lineHeight))], is
    [float_to_u32]: undefined ([None]) when the ceiling is negative or at
    least 2^32, and when [lineHeight] is 0 (the quotient is then infinite
    or not a number).  [m_maxHistoryLines * lineHeight] is an [unsigned
    int] product, so it wraps before it becomes a float. *)
Definition Layout_geometry (origin size : Vec2f) (lineHeight : Z) : option (Z * Geometry * Geometry) :=
  if lineHeight =? 0 then None else
  let historyHeight := (fy size - inject_Z lineHeight)%Q in
  maxHistoryLines ← float_to_u32 (inject_Z (Qceiling (historyHeight / inject_Z lineHeight)));
  let diff := (historyHeight - inject_Z (wrap32 (maxHistoryLines * lineHeight)))%Q in
  Some (maxHistoryLines,
        mkGeometry (mkVec2f (fx origin) (fy origin + diff)) (mkVec2f (fx size) (historyHeight - diff - 4)),
        mkGeometry (mkVec2f (fx origin) (fy origin + historyHeight)) (mkVec2f (fx size) (fy size - historyHeight))).

Definition set_layout (c : Console) (maxLines : Z) (hg ig : Geometry) : Console :=
  mkConsole (m_historyPosition c) (m_commandHistory c) (m_historyLines c) (m_defaultFont c)
    (m_characterSize c) maxLines (widget_pos c) (widget_size c) (history_text c)
    (history_characterSize c) (history_font c) hg (input_text c)
    (input_characterSize c) (input_font c) ig (input_focus c).

(** [Console::Layout()]: a null default font, or an undefined cast, is
    [None]. *)
Definition Layout (c : Console) : option Console :=
  font ← m_defaultFont c;
  match Layout_geometry (widget_pos c) (widget_size c) (lineHeight (GetSizeInfo font (m_characterSize c))) with
  | Some (maxLines, hg, ig) => Some (set_layout c maxLines hg ig)
  | None => None
  end.

(** Lines 142-150. *)
Definition SetCharacterSize (c : Console) (size : Z) : option Console :=
  Layout (mkConsole (m_historyPosition c) (m_commandHistory c) (m_historyLines c) (m_defaultFont c)
    size (m_maxHistoryLines c) (widget_pos c) (widget_size c) (history_text c)
    size (history_font c) (historyArea_geometry c) (input_text c)
    size (input_font c) (input_geometry c) (input_focus c)).

(** Lines 168-177: the assertion on the font is [None]. *)
Definition SetTextFont (c : Console) (font : option Font) : option Console :=
  match font with
  | Some f =>
      if IsValid f then
        Layout (mkConsole (m_historyPosition c) (m_commandHistory c) (m_historyLines c) font
          (m_characterSize c) (m_maxHistoryLines c) (widget_pos c) (widget_size c) (history_text c)
          (history_characterSize c) font (historyArea_geometry c) (input_text c)
          (input_characterSize c) font (input_geometry c) (input_focus c))
      else None
  | None => None
  end.

(** Lines 132-135 and 156-159: focus goes to the input line. *)
Definition SetFocus (c : Console) : Console :=
  mkConsole (m_historyPosition c) (m_commandHistory c) (m_historyLines c) (m_defaultFont c)
    (m_characterSize c) (m_maxHistoryLines c) (widget_pos c) (widget_size c) (history_text c)
    (history_characterSize c) (history_font c) (historyArea_geometry c) (input_text c)
    (input_characterSize c) (input_font c) (input_geometry c) true.

Definition ClearFocus (c : Console) : Console :=
  mkConsole (m_historyPosition c) (m_commandHistory c) (m_historyLines c) (m_defaultFont c)
    (m_characterSize c) (m_maxHistoryLines c) (widget_pos c) (widget_size c) (history_text c)
    (history_characterSize c) (history_font c) (historyArea_geometry c) (input_text c)
    (input_characterSize c) (input_font c) (input_geometry c) false.

(** [BaseWidget::Resize] stores the size and calls the virtual [Layout()]. *)
Definition Resize (c : Console) (size : Vec2f) : option Console :=
  Layout (mkConsole (m_historyPosition c) (m_commandHistory c) (m_historyLines c) (m_defaultFont c)
    (m_characterSize c) (m_maxHistoryLines c) (widget_pos c) size (history_text c)
    (history_characterSize c) (history_font c) (historyArea_geometry c) (input_text c)
    (input_characterSize c) (input_font c) (input_geometry c) (input_focus c)).

(** ** The console as a state machine *)

Section Steps.
Context {L : Type} (Execute : L -> string -> bool * L) (GetLastError : L -> string).

(** Every way the console's state changes: the four slots, the public
    members, a resize, and an edit of the input line by the text area
    itself (typing, erasing), which may leave any text there. *)
Inductive console_step : Console * L -> Console * L -> Prop :=
  | step_ExecuteInput c lua :
      console_step (c, lua) (ExecuteInput Execute GetLastError c lua)
  | step_KeyUp c c' lua b b' :
      OnKeyUp c b = Some (c', b') -> console_step (c, lua) (c', lua)
  | step_KeyDown c c' lua b b' :
      OnKeyDown c b = Some (c', b') -> console_step (c, lua) (c', lua)
  | step_AddLine c lua text color :
      console_step (c, lua) (AddLine c text color, lua)
  | step_Clear c lua :
      console_step (c, lua) (Clear c, lua)
  | step_SetCharacterSize c c' lua size :
      SetCharacterSize c size = Some c' -> console_step (c, lua) (c', lua)
  | step_SetTextFont c c' lua font :
      SetTextFont c font = Some c' -> console_step (c, lua) (c', lua)
  | step_Resize c c' lua size :
      Resize c size = Some c' -> console_step (c, lua) (c', lua)
  | step_SetFocus c lua :
      console_step (c, lua) (SetFocus c, lua)
  | step_ClearFocus c lua :
      console_step (c, lua) (ClearFocus c, lua)
  | step_Edit c lua text :
      console_step (c, lua) (set_input_text c text, lua).
End Steps.

(** ** The history invariant *)

(** The text the history area shows for a list of history lines. *)
Fixpoint lines_text (ls : list Line) : string :=
  match ls with
  | [] => EmptyString
  | l :: ls => line_text l +:+ (newline +:+ lines_text ls)
  end.

(** No command appears twice in a row. *)
Fixpoint no_adjacent_dup (cmds : list string) : bool :=
  match cmds with
  | a :: ((b :: _) as t) => negb (bool_decide (a = b)) && no_adjacent_dup t
  | _ => true
  end.

(** The history position is a valid index or one past the end, no
    command is recorded twice in a row, and the history area shows exactly
    the history lines. *)
Definition console_inv (c : Console) : Prop :=
  0 <= m_historyPosition c <= Z.of_nat (length (m_commandHistory c)) /\
  no_adjacent_dup (m_commandHistory c) = true /\
  history_text c = lines_text (m_historyLines c).

(** The position each history slot moves to. *)
Definition key_up_position (c : Console) : Z :=
  if 0 <? m_historyPosition c then m_historyPosition c - 1 else m_historyPosition c.

Definition key_down_position (c : Console) : Z :=
  let pos := wrap64 (m_historyPosition c + 1) in
  if Z.of_nat (length (m_commandHistory c)) <=? pos then 0 else pos.

(** The user pressing the up key [n] times. *)
Fixpoint press_key_up (c : Console) (n : nat) : option Console :=
  match n with
  | O => Some c
  | S n => '(c', _) ← OnKeyUp c false; press_key_up c' n
  end.

(** The cursor-move slot of lines 65-68 takes a glyph index, while the
    [OnTextAreaCursorMove] signal of [AbstractTextAreaWidget.inl] passes
    a position.  [lift_index_slot] converts between the two through the
    text area's own conversions, keeping the position when a conversion
    fails. *)
Definition lift_index_slot {D} `{LineTable.AbstractTextDrawer D} (slot : Z -> Z)
    (w : TextArea.TextArea D) (p : TextArea.Vec2ui) : TextArea.Vec2ui :=
  match TextArea.GetGlyphIndex (TextArea.ta_drawer w) p with
  | Some i => match TextArea.GetCursorPosition (TextArea.ta_drawer w) (slot i) with
              | Some q => q
              | None => p
              end
  | None => p
  end.

(** A console of 640x100 at the origin, without a font. *)
Definition sample_console : Console :=
  Console_ctor None (mkVec2f 0 0) (mkVec2f 640 100) 0 (mkGeometry (mkVec2f 0 0) (mkVec2f 0 0)).

(** An interpreter that accepts the command ["ok"] only. *)
Definition sample_lua_exec (u : unit) (cmd : string) : bool * unit := (bool_decide (cmd = "ok"), u).
Definition sample_lua_error (u : unit) : string := "syntax error".

(** The sample console after running ["a"] and then ["b"]. *)
Definition run_command (c : Console) (cmd : string) : Console :=
  (ExecuteInput sample_lua_exec sample_lua_error (set_input_text c (s_inputPrefix +:+ cmd)) tt).1.

Definition sample_history : Console := run_command (run_command sample_console "a") "b".

(** ** Lemmas on strings and the history lists *)

Lemma string_app_cons a (s t : string) : String a s +:+ t = String a (s +:+ t).
Proof. reflexivity. Qed.

Lemma string_app_nil_l (s : string) : EmptyString +:+ s = s.
Proof. reflexivity. Qed.

Lemma string_app_nil_r (s : string) : s +:+ EmptyString = s.
Proof. induction s as [|a s IH]; [done|]. rewrite string_app_cons, IH. done. Qed.

Lemma string_app_assoc (a b c : string) : a +:+ (b +:+ c) = (a +:+ b) +:+ c.
Proof. induction a as [|x a IH]; [done|]. rewrite !string_app_cons, IH. done. Qed.

(** Appending a line appends its text and a newline to the shown text. *)
Lemma lines_text_snoc ls l :
  lines_text (ls ++ [l]) = lines_text ls +:+ (line_text l +:+ newline).
Proof.
  induction ls as [|a ls IH]; simpl.
  - rewrite string_app_nil_r. done.
  - rewrite IH, !string_app_assoc. done.
Qed.

Lemma substring_all (s : string) : substring 0 (String.length s) s = s.
Proof. induction s as [|a s IH]; simpl; [done|]. rewrite IH. done. Qed.

(** [SubString] drops exactly the prefix it was given. *)
Lemma SubString_prefix (cmd : string) :
  SubString (s_inputPrefix +:+ cmd) (Z.to_nat s_inputPrefixSize) = cmd.
Proof.
  unfold SubString, s_inputPrefix. rewrite !string_app_cons, string_app_nil_l. simpl.
  rewrite Nat.sub_0_r. apply substring_all.
Qed.
Lemma no_adjacent_dup_snoc cmds a :
  no_adjacent_dup cmds = true -> last_command cmds <> Some a ->
  no_adjacent_dup (cmds ++ [a]) = true.
Proof.
  unfold last_command. induction cmds as [|x [|y t] IH]; intros Hd Hl; [done| |].
  - simpl in *. rewrite bool_decide_false; [done|]. intros ->. done.
  - simpl in Hd |- *. apply andb_prop in Hd as [Hxy Hd]. rewrite Hxy. apply IH; done.
Qed.

Lemma AddLine_inv c text color : console_inv c -> console_inv (AddLine c text color).
Proof.
  intros (Hp & Hd & Ht). unfold console_inv, AddLine, set_lines. simpl.
  rewrite lines_text_snoc, Ht. done.
Qed.

(** [Layout] only writes [m_maxHistoryLines] and the two geometries. *)
Lemma Layout_fields c c' :
  Layout c = Some c' ->
  m_historyPosition c' = m_historyPosition c /\ m_commandHistory c' = m_commandHistory c /\
  m_historyLines c' = m_historyLines c /\ history_text c' = history_text c /\
  input_text c' = input_text c.
Proof.
  unfold Layout. destruct (m_defaultFont c); [|done]. simpl.
  repeat case_match; [intros [= <-]; done|done].
Qed.

Lemma Layout_inv c c' : Layout c = Some c' -> console_inv c -> console_inv c'.
Proof.
  intros HL. destruct (Layout_fields c c' HL) as (E1 & E2 & E3 & E4 & _).
  unfold console_inv. rewrite E1, E2, E3, E4. done.
Qed.

Lemma key_up_position_range c :
  console_inv c -> m_commandHistory c <> [] ->
  0 <= key_up_position c < Z.of_nat (length (m_commandHistory c)).
Proof.
  intros (Hp & _ & _) Hne. destruct (m_commandHistory c) as [|? ?] eqn:E; [done|].
  unfold key_up_position. simpl length in *. destruct (Z.ltb_spec 0 (m_historyPosition c)); lia.
Qed.

Lemma key_down_position_range c :
  m_commandHistory c <> [] ->
  0 <= key_down_position c < Z.of_nat (length (m_commandHistory c)).
Proof.
  intros Hne. destruct (m_commandHistory c) as [|? ?] eqn:E; [done|].
  unfold key_down_position. rewrite E. simpl length.
  pose proof (wrap64_range (m_historyPosition c + 1)).
  destruct (Z.leb_spec (Z.of_nat (S (length l))) (wrap64 (m_historyPosition c + 1))); lia.
Qed.

(** A history slot succeeds on a non-empty history and shows the entry at
    its new position after the prefix. *)
Lemma history_slot_some c pos :
  0 <= pos < Z.of_nat (length (m_commandHistory c)) ->
  exists cmd, m_commandHistory c !! Z.to_nat pos = Some cmd /\
  (cmd ← m_commandHistory c !! Z.to_nat pos;
   Some (set_input_text (set_history c pos (m_commandHistory c)) (s_inputPrefix +:+ cmd), true))
  = Some (set_input_text (set_history c pos (m_commandHistory c)) (s_inputPrefix +:+ cmd), true).
Proof.
  intros Hpos. destruct (lookup_lt_is_Some_2 (m_commandHistory c) (Z.to_nat pos)) as [cmd Hc]; [lia|].
  exists cmd. rewrite Hc. done.
Qed.

Lemma set_history_inv c pos :
  console_inv c -> 0 <= pos <= Z.of_nat (length (m_commandHistory c)) ->
  console_inv (set_history c pos (m_commandHistory c)).
Proof. intros (_ & Hd & Ht) Hp. done. Qed.

Lemma OnKeyUp_inv c b c' b' : console_inv c -> OnKeyUp c b = Some (c', b') -> console_inv c'.
Proof.
  intros Hi. destruct (decide (m_commandHistory c = [])) as [E|Hne].
  { unfold OnKeyUp. rewrite E. case_match; done. }
  pose proof (key_up_position_range c Hi Hne) as Hr. unfold OnKeyUp. fold (key_up_position c).
  destruct (history_slot_some c _ Hr) as (cmd & _ & ->). intros [= <- _].
  apply (set_history_inv c); [done|lia].
Qed.

Lemma OnKeyDown_inv c b c' b' : console_inv c -> OnKeyDown c b = Some (c', b') -> console_inv c'.
Proof.
  intros Hi. destruct (decide (m_commandHistory c = [])) as [E|Hne].
  { unfold OnKeyDown. rewrite E. case_match; done. }
  pose proof (key_down_position_range c Hne) as Hr. unfold OnKeyDown. fold (key_down_position c).
  destruct (history_slot_some c _ Hr) as (cmd & _ & ->). intros [= <- _].
  apply (set_history_inv c); [done|lia].
Qed.

Lemma set_input_text_inv c s : console_inv c -> console_inv (set_input_text c s).
Proof. done. Qed.

Lemma Clear_inv c : console_inv c -> console_inv (Clear c).
Proof. intros (Hp & Hd & _). done. Qed.

(** The command list and position [ExecuteInput] leaves keep the invariant. *)
Lemma record_command_inv c cmd :
  console_inv c ->
  console_inv (set_history c
    (Z.of_nat (length (if decide (last_command (m_commandHistory c) = Some cmd)
                       then m_commandHistory c else m_commandHistory c ++ [cmd])))
    (if decide (last_command (m_commandHistory c) = Some cmd)
     then m_commandHistory c else m_commandHistory c ++ [cmd])).
Proof.
  intros (Hp & Hd & Ht). unfold console_inv. simpl.
  destruct (decide _) as [E|E]; split_and!; try done; try lia.
  apply no_adjacent_dup_snoc; done.
Qed.

Lemma SetCharacterSize_inv c c' size :
  SetCharacterSize c size = Some c' -> console_inv c -> console_inv c'.
Proof. intros HL Hi. eapply Layout_inv; [exact HL|]. done. Qed.

Lemma SetTextFont_inv c c' font :
  SetTextFont c font = Some c' -> console_inv c -> console_inv c'.
Proof.
  unfold SetTextFont. destruct font as [f|]; [|done]. destruct (IsValid f); [|done].
  intros HL Hi. eapply Layout_inv; [exact HL|]. done.
Qed.

Lemma Resize_inv c c' size : Resize c size = Some c' -> console_inv c -> console_inv c'.
Proof. intros HL Hi. eapply Layout_inv; [exact HL|]. done. Qed.

Section LuaFacts.
Context {L : Type} (Execute : L -> string -> bool * L) (GetLastError : L -> string).

Lemma ExecuteInput_inv c lua :
  console_inv c -> console_inv (ExecuteInput Execute GetLastError c lua).1.
Proof.
  intros Hi. unfold ExecuteInput.
  pose proof (AddLine_inv _ (input_text c) Color_White
    (record_command_inv (set_input_text c s_inputPrefix)
       (SubString (input_text c) (Z.to_nat s_inputPrefixSize)) (set_input_text_inv c _ Hi))) as HA.
  destruct (Execute lua (SubString (input_text c) (Z.to_nat s_inputPrefixSize))) as [[|] lua'];
    simpl; [done|]. apply AddLine_inv. done.
Qed.

Lemma console_step_inv s s' :
  console_step Execute GetLastError s s' -> console_inv s.1 -> console_inv s'.1.
Proof.
  destruct 1; simpl; eauto using ExecuteInput_inv, OnKeyUp_inv, OnKeyDown_inv, AddLine_inv,
    Clear_inv, SetCharacterSize_inv, SetTextFont_inv, Resize_inv, set_input_text_inv.
  all: done.
Qed.

Lemma rtc_console_inv s s' :
  rtc (console_step Execute GetLastError) s s' -> console_inv s.1 -> console_inv s'.1.
Proof. induction 1; eauto using console_step_inv. Qed.
End LuaFacts.

(** ** Layout arithmetic *)

(** [m = ceil(h / l)] lines of height [l] cover [h] with less than one
    line to spare. *)
Lemma ceil_div_bounds (hh : Q) (lh : Z) : 0 < lh ->
  (hh <= inject_Z (Qceiling (hh / inject_Z lh)) * inject_Z lh /\
   inject_Z (Qceiling (hh / inject_Z lh)) * inject_Z lh < hh + inject_Z lh)%Q.
Proof.
  intros Hlh. assert (Hq : (0 < inject_Z lh)%Q) by (change 0%Q with (inject_Z 0); rewrite <- Zlt_Qlt; exact Hlh).
  set (r := (hh / inject_Z lh)%Q).
  assert (Hr : (r * inject_Z lh == hh)%Q) by (unfold r; field; lra).
  pose proof (Qle_ceiling r) as H1. pose proof (Qceiling_lt r) as H2.
  set (m := Qceiling r) in *.
  unfold Z.sub in H2. rewrite inject_Z_plus in H2.
  pose proof (Qmult_le_compat_r _ _ _ H1 (Qlt_le_weak _ _ Hq)) as H3.
  pose proof (Qmult_lt_compat_r _ _ _ Hq H2) as H4.
  rewrite Hr in H3, H4.
  assert (E : ((inject_Z m + inject_Z (-1)) * inject_Z lh == inject_Z m * inject_Z lh - inject_Z lh)%Q) by ring.
  rewrite E in H4. split; [exact H3|]. lra.
Qed.

(** For a console of positive height, the line count does not wrap: it
    is [ceil(h / l)] and its product with the line height fits. *)
Lemma Layout_no_wrap (sy : Q) (lh : Z) :
  0 < lh -> (0 < sy < inject_Z u32_modulus)%Q ->
  let m := Qceiling ((sy - inject_Z lh) / inject_Z lh) in
  0 <= m /\ 0 <= m * lh < u32_modulus /\ wrap32 m = m /\ wrap32 (m * lh) = m * lh.
Proof.
  intros Hlh Hsy m. destruct (ceil_div_bounds (sy - inject_Z lh) lh Hlh) as [H1 H2]. fold m in H1, H2.
  rewrite <- inject_Z_mult in H1, H2.
  assert (Hlo : - lh < m * lh).
  { rewrite Zlt_Qlt, inject_Z_opp. lra. }
  assert (Hhi : m * lh < u32_modulus).
  { rewrite Zlt_Qlt. lra. }
  assert (0 <= m) by nia.
  split; [done|]. split; [lia|]. split; apply wrap32_small; nia.
Qed.

(** The line count [ceil((h - l) / l)] fits an [unsigned int] exactly
    when the height [h] is positive and at most [2^32 * l]. *)
Lemma ceil_lines_range (sy : Q) (lh : Z) :
  0 < lh ->
  0 <= Qceiling ((sy - inject_Z lh) / inject_Z lh) < u32_modulus <->
  (0 < sy <= inject_Z (u32_modulus * lh))%Q.
Proof.
  intros Hlh. destruct (ceil_div_bounds (sy - inject_Z lh) lh Hlh) as [H1 H2].
  set (m := Qceiling _) in *. rewrite <- inject_Z_mult in H1, H2.
  assert (Hq : (0 < inject_Z lh)%Q) by (change 0%Q with (inject_Z 0); rewrite <- Zlt_Qlt; exact Hlh).
  split.
  - intros Hm. assert (Hlo : 0 <= m * lh) by nia.
    assert (Hhi : m * lh <= u32_modulus * lh - lh) by nia.
    unfold Z.sub in Hhi. rewrite Zle_Qle in Hlo, Hhi. rewrite inject_Z_plus, inject_Z_opp in Hhi.
    change (inject_Z 0) with 0%Q in Hlo. split; lra.
  - intros [Hpos Hle]. split.
    + destruct (Z.le_gt_cases 0 m) as [|Hneg]; [done|].
      assert (Hn : m * lh <= - lh) by nia. rewrite Zle_Qle, inject_Z_opp in Hn. lra.
    + destruct (Z.lt_ge_cases m u32_modulus) as [|Hbig]; [done|].
      assert (Hn : u32_modulus * lh <= m * lh) by nia. rewrite Zle_Qle in Hn. lra.
Qed.

(** ** History navigation *)

(** One press of the up key on a non-empty history. *)
Lemma OnKeyUp_some c b :
  console_inv c -> m_commandHistory c <> [] ->
  exists cmd, m_commandHistory c !! Z.to_nat (Z.max 0 (m_historyPosition c - 1)) = Some cmd /\
  OnKeyUp c b = Some (set_input_text (set_history c (Z.max 0 (m_historyPosition c - 1))
                        (m_commandHistory c)) (s_inputPrefix +:+ cmd), true).
Proof.
  intros Hi Hne. pose proof (key_up_position_range c Hi Hne) as Hr.
  assert (E : key_up_position c = Z.max 0 (m_historyPosition c - 1)).
  { destruct Hi as [Hp _]. unfold key_up_position. destruct (Z.ltb_spec 0 (m_historyPosition c)); lia. }
  unfold OnKeyUp. fold (key_up_position c). rewrite E in *.
  destruct (history_slot_some c _ Hr) as (cmd & Hc & ->). eauto.
Qed.

Section Claims.
Context {L : Type} (Execute : L -> string -> bool * L) (GetLastError : L -> string).

(** C23: every state the console reaches from its constructor, through
    any sequence of slots, member calls, resizes and edits of the input
    line, keeps the history invariant: the history position is at most
    the number of recorded commands, no command is recorded twice in a
    row, and the history area shows exactly the history lines, each
    followed by a newline. *)
Theorem console_reachable_inv font pos size maxLines0 geo0 (lua0 : L) s :
  rtc (console_step Execute GetLastError) (Console_ctor font pos size maxLines0 geo0, lua0) s ->
  console_inv s.1.
Proof. intros Hr. apply (rtc_console_inv Execute GetLastError _ _ Hr). done. Qed.

(** C24: running a command.  The input line's text after the prefix
    becomes the command.  It is appended to the command history unless it
    equals the last one, the history position moves past the end, and the
    input line goes back to the bare prefix.  The history gains the whole
    input line in white, then the interpreter's last error in red when
    [Execute] fails. *)
Theorem ExecuteInput_spec c (lua : L) cmd :
  input_text c = s_inputPrefix +:+ cmd ->
  let '(c', lua') := ExecuteInput Execute GetLastError c lua in
  input_text c' = s_inputPrefix /\
  m_commandHistory c' = (if decide (last_command (m_commandHistory c) = Some cmd)
                         then m_commandHistory c else m_commandHistory c ++ [cmd]) /\
  last_command (m_commandHistory c') = Some cmd /\
  m_historyPosition c' = Z.of_nat (length (m_commandHistory c')) /\
  lua' = (Execute lua cmd).2 /\
  m_historyLines c' = m_historyLines c ++ mkLine Color_White (s_inputPrefix +:+ cmd) ::
    (if (Execute lua cmd).1 then [] else [mkLine Color_Red (GetLastError (Execute lua cmd).2)]).
Proof.
  intros Hin. unfold ExecuteInput. rewrite Hin, SubString_prefix.
  assert (Hl : last_command (if decide (last_command (m_commandHistory c) = Some cmd)
                             then m_commandHistory c else m_commandHistory c ++ [cmd]) = Some cmd).
  { destruct (decide _); [done|]. unfold last_command. apply last_snoc. }
  destruct (Execute lua cmd) as [[|] lua'] eqn:E; simpl;
    (split_and!; [done|done|done|done|done|]); rewrite ?app_nil_r, <- ?app_assoc; done.
Qed.

(** C26: the down key moves the position forward by one and wraps to the
    first (oldest) command after the last one.  Right after a command has
    run, the position is one past the end, so the down key shows the
    oldest command. *)
Theorem OnKeyDown_cycles c b :
  console_inv c -> m_commandHistory c <> [] ->
  Z.of_nat (length (m_commandHistory c)) < u64_modulus ->
  let pos' := if m_historyPosition c + 1 <? Z.of_nat (length (m_commandHistory c))
              then m_historyPosition c + 1 else 0 in
  exists cmd, m_commandHistory c !! Z.to_nat pos' = Some cmd /\
  OnKeyDown c b = Some (set_input_text (set_history c pos' (m_commandHistory c))
                          (s_inputPrefix +:+ cmd), true).
Proof.
  intros Hi Hne Hlen pos'. pose proof (key_down_position_range c Hne) as Hr.
  assert (E : key_down_position c = pos').
  { destruct Hi as [Hp _]. unfold key_down_position, pos'.
    assert (Hw : wrap64 (m_historyPosition c + 1) =
                 if m_historyPosition c + 1 =? u64_modulus then 0 else m_historyPosition c + 1).
    { nz_cases; [rewrite e; reflexivity|apply wrap64_small; nz_lia]. }
    rewrite Hw. destruct (m_commandHistory c); [done|]. simpl length in *. nz_cases; nz_lia. }
  unfold OnKeyDown. fold (key_down_position c). rewrite E in *.
  destruct (history_slot_some c _ Hr) as (cmd & Hc & ->). eauto.
Qed.

(** C27: with no command recorded yet, the up and down keys read
    [m_commandHistory[0]] of an empty vector: out of range.  This is the
    state right after construction. *)
Theorem history_keys_empty_history c b :
  m_commandHistory c = [] -> OnKeyUp c b = None /\ OnKeyDown c b = None.
Proof. intros E. unfold OnKeyUp, OnKeyDown. rewrite E. split; case_match; done. Qed.

(** C35: history recall.  On a console that keeps the console invariant
    (every console reachable from the constructor does, C23) and has a
    non-empty command history, pressing the up key [n + 1] times
    walks back [n + 1] commands, stopping at the oldest one, keeps the
    command history, and shows the command reached after the prompt. *)
Theorem press_key_up_recall c n :
  console_inv c -> m_commandHistory c <> [] ->
  exists c' cmd, press_key_up c (S n) = Some c' /\
    m_historyPosition c' = Z.max 0 (m_historyPosition c - Z.of_nat (S n)) /\
    m_commandHistory c' = m_commandHistory c /\
    m_commandHistory c !! Z.to_nat (m_historyPosition c') = Some cmd /\
    input_text c' = s_inputPrefix +:+ cmd.
Proof.
  revert c. induction n as [|n IH]; intros c Hi Hne.
  - destruct (OnKeyUp_some c false Hi Hne) as (cmd & Hc & E).
    exists (set_input_text (set_history c (Z.max 0 (m_historyPosition c - 1)) (m_commandHistory c))
              (s_inputPrefix +:+ cmd)), cmd.
    simpl. rewrite E. simpl. split_and!; [done|lia|done|done|done].
  - destruct (OnKeyUp_some c false Hi Hne) as (cmd & Hc & E).
    destruct (IH _ (OnKeyUp_inv c false _ true Hi E) Hne) as (c' & cmd' & Hp & Hpos & Hcs & Hc' & Ht).
    exists c', cmd'. simpl. rewrite E. simpl. simpl in Hp. rewrite Hp.
    simpl in Hpos, Hcs. split_and!; [done|lia|done|done|done].
Qed.

(** C38: [Clear] empties the history area and resets the input line to
    the prefix, but keeps the command history and the position.  The up
    key still recalls the commands typed before. *)
Theorem Clear_keeps_commands c b :
  console_inv c -> m_commandHistory c <> [] ->
  m_historyLines (Clear c) = [] /\ history_text (Clear c) = EmptyString /\
  input_text (Clear c) = s_inputPrefix /\ m_commandHistory (Clear c) = m_commandHistory c /\
  exists c' cmd, OnKeyUp (Clear c) b = Some (c', true) /\
    m_commandHistory c !! Z.to_nat (Z.max 0 (m_historyPosition c - 1)) = Some cmd /\
    input_text c' = s_inputPrefix +:+ cmd.
Proof.
  intros Hi Hne. split_and!; try done.
  destruct (OnKeyUp_some (Clear c) b (Clear_inv c Hi) Hne) as (cmd & Hc & E).
  do 2 eexists. split; [exact E|]. split; [exact Hc|]. done.
Qed.
End Claims.

(** ** Layout *)

(** C29: for a console of positive height (below 2^32) and a positive
    line height, [Layout()] gives the input line one line of height at
    the bottom of the console.  The history area holds [m] whole lines,
    minus a 4-pixel gap above the input line, where [m] is the ceiling of
    the remaining height over the line height (no wrap-around).  It starts
    less than one line above the console's top.  Both areas span the
    console's width. *)
Theorem Layout_geometry_props origin size lh :
  0 < lh -> (0 < fy size < inject_Z u32_modulus)%Q ->
  exists m hg ig, Layout_geometry origin size lh = Some (m, hg, ig) /\
  m = Qceiling ((fy size - inject_Z lh) / inject_Z lh) /\
  (fy (geo_size ig) == inject_Z lh)%Q /\
  (fy (geo_pos ig) + fy (geo_size ig) == fy origin + fy size)%Q /\
  (fy (geo_size hg) == inject_Z (m * lh) - 4)%Q /\
  (fy (geo_pos hg) + fy (geo_size hg) + 4 == fy (geo_pos ig))%Q /\
  (fy origin - inject_Z lh < fy (geo_pos hg) <= fy origin)%Q /\
  fx (geo_pos hg) = fx origin /\ fx (geo_pos ig) = fx origin /\
  fx (geo_size hg) = fx size /\ fx (geo_size ig) = fx size.
Proof.
  intros Hlh Hsy. unfold Layout_geometry.
  destruct (Layout_no_wrap (fy size) lh Hlh Hsy) as (Hm0 & Hml & _ & Hw2).
  destruct (ceil_div_bounds (fy size - inject_Z lh) lh Hlh) as [H1 H2].
  rewrite (proj2 (Z.eqb_neq lh 0)) by lia. rewrite float_to_u32_Z, bool_decide_true by nia.
  simpl. rewrite Hw2. do 3 eexists. split; [reflexivity|]. simpl. rewrite inject_Z_mult.
  split_and!; try done; lra.
Qed.

(** C30: the cast of line 214 is undefined for most sizes the console can
    be given.  With a positive line height, [Layout()] has a defined
    result exactly when the console's height is positive and at most
    [2^32 * lineHeight]: for a console of zero height (its size before the
    first resize) [ceil(-1)] is negative, and its conversion to [unsigned
    int] is undefined behaviour. *)
Theorem Layout_undefined_height c font :
  m_defaultFont c = Some font -> 0 < lineHeight (GetSizeInfo font (m_characterSize c)) ->
  Layout c = None <->
  (fy (widget_size c) <= 0 \/
   inject_Z (u32_modulus * lineHeight (GetSizeInfo font (m_characterSize c))) < fy (widget_size c))%Q.
Proof.
  intros Hf Hlh. unfold Layout. rewrite Hf. simpl. unfold Layout_geometry.
  rewrite (proj2 (Z.eqb_neq _ 0)) by lia. rewrite float_to_u32_Z.
  pose proof (ceil_lines_range (fy (widget_size c)) _ Hlh) as Hr.
  case_bool_decide as Hb; simpl; split; try done.
  - intros Hd. exfalso. apply Hr in Hb. destruct Hd; lra.
  - intros _. destruct (Qlt_le_dec 0 (fy (widget_size c))) as [Hp|Hp]; [|by left].
    destruct (Qlt_le_dec (inject_Z (u32_modulus * lineHeight (GetSizeInfo font (m_characterSize c))))
                (fy (widget_size c))) as [Hg|Hg]; [by right|].
    exfalso. apply Hb, Hr. split; done.
Qed.

(** ** The protected prefix *)

Section Prefix.
Context {D : Type} `{LineTable.AbstractTextDrawer D}.

(** C31: with the console's cursor-move slot connected, setting the
    cursor of the input line to any glyph index, 0 included, stores a
    cursor at index [max 2 (min index glyphCount)].  The cursor never
    reports an index inside the two-character prefix. *)
Theorem cursor_prefix_protected (w : TextArea.TextArea D) gi :
  LineTable.drawer_wf (TextArea.ta_drawer w) ->
  s_inputPrefixSize <= LineTable.GetGlyphCount (TextArea.ta_drawer w) ->
  0 <= gi < u64_modulus ->
  exists w', TextArea.SetCursorPosition_index [lift_index_slot OnCursorMove] w gi = Some w' /\
    TextArea.m_cursorPositionEnd w' = TextArea.m_cursorPositionBegin w' /\
    TextArea.GetGlyphIndex (TextArea.ta_drawer w') (TextArea.m_cursorPositionBegin w') =
      Some (Z.max s_inputPrefixSize (Z.min gi (LineTable.GetGlyphCount (TextArea.ta_drawer w)))).
Proof.
  intros Hwf Hc Hgi. pose proof (LineTable.wf_count_range _ Hwf).
  destruct (TextArea.index_position_roundtrip _ Hwf (Z.min gi (LineTable.GetGlyphCount (TextArea.ta_drawer w))))
    as (p & Hp & _ & Hi); [lia|].
  destruct (TextArea.index_position_roundtrip _ Hwf
              (Z.max s_inputPrefixSize (Z.min gi (LineTable.GetGlyphCount (TextArea.ta_drawer w)))))
    as (q & Hq & _ & Hiq); [unfold s_inputPrefixSize in *; lia|].
  assert (Hslot : lift_index_slot OnCursorMove w p = q).
  { unfold lift_index_slot, OnCursorMove. rewrite Hi, Z.max_comm, Hq. done. }
  unfold TextArea.SetCursorPosition_index. rewrite TextArea.GetCursorPosition_clamp, Hp. simpl.
  rewrite Hslot. destruct (decide (p = q)) as [<-|Hne].
  - eexists; split; [done|]. split; [done|]. simpl. done.
  - rewrite Hiq. simpl. unfold TextArea.SetCursorPositionInternal_index. rewrite Hq.
    eexists; split; [done|]. split; [done|]. simpl. done.
Qed.
End Prefix.

(** ** Witnesses *)

Lemma console_reachable_inv_witness :
  console_inv (ExecuteInput sample_lua_exec sample_lua_error
                 (set_input_text sample_console "> x") tt).1.
Proof.
  apply (console_reachable_inv sample_lua_exec sample_lua_error None (mkVec2f 0 0) (mkVec2f 640 100) 0
           (mkGeometry (mkVec2f 0 0) (mkVec2f 0 0)) tt).
  eapply rtc_l; [apply step_Edit|]. eapply rtc_l; [apply step_ExecuteInput|]. apply rtc_refl.
Defined.

Lemma ExecuteInput_spec_witness :
  input_text (set_input_text sample_console "> x") = s_inputPrefix +:+ "x" /\
  m_commandHistory (ExecuteInput sample_lua_exec sample_lua_error
                      (set_input_text sample_console "> x") tt).1 = ["x"] /\
  m_historyLines (ExecuteInput sample_lua_exec sample_lua_error
                    (set_input_text sample_console "> x") tt).1 =
    [mkLine Color_White "> x"; mkLine Color_Red "syntax error"].
Proof.
  pose proof (ExecuteInput_spec sample_lua_exec sample_lua_error
                (set_input_text sample_console "> x") tt "x" eq_refl) as W.
  vm_compute in W |- *. destruct W as (_ & Hc & _ & _ & _ & Hl). split_and!; [done|exact Hc|exact Hl].
Defined.

Lemma sample_history_inv : console_inv sample_history.
Proof. unfold console_inv. vm_compute. split_and!; done. Qed.

Lemma OnKeyDown_cycles_witness :
  m_historyPosition sample_history = 2 /\
  input_text (fst (default (sample_history, false) (OnKeyDown sample_history false))) = "> a" /\
  let pos' := if m_historyPosition sample_history + 1 <? Z.of_nat (length (m_commandHistory sample_history))
              then m_historyPosition sample_history + 1 else 0 in
  exists cmd, m_commandHistory sample_history !! Z.to_nat pos' = Some cmd /\
  OnKeyDown sample_history false = Some (set_input_text (set_history sample_history pos'
                          (m_commandHistory sample_history)) (s_inputPrefix +:+ cmd), true).
Proof.
  split; [reflexivity|]. split; [vm_compute; reflexivity|].
  apply OnKeyDown_cycles; [exact sample_history_inv|vm_compute; done|vm_compute; done].
Defined.

Lemma history_keys_empty_history_witness :
  OnKeyUp sample_console true = None /\ OnKeyDown sample_console true = None.
Proof. apply history_keys_empty_history. reflexivity. Defined.

Lemma Clear_keeps_commands_witness :
  m_historyLines (Clear sample_history) = [] /\ history_text (Clear sample_history) = EmptyString /\
  input_text (Clear sample_history) = s_inputPrefix /\
  m_commandHistory (Clear sample_history) = m_commandHistory sample_history /\
  exists c' cmd, OnKeyUp (Clear sample_history) false = Some (c', true) /\
    m_commandHistory sample_history !! Z.to_nat (Z.max 0 (m_historyPosition sample_history - 1)) = Some cmd /\
    input_text c' = s_inputPrefix +:+ cmd.
Proof. apply Clear_keeps_commands; [exact sample_history_inv|vm_compute; done]. Defined.

(** After "a" and "b", two presses of the up key show "a". *)
Lemma press_key_up_recall_witness :
  exists c' cmd, press_key_up sample_history 2 = Some c' /\
    m_historyPosition c' = Z.max 0 (m_historyPosition sample_history - Z.of_nat 2) /\
    m_commandHistory c' = m_commandHistory sample_history /\
    m_commandHistory sample_history !! Z.to_nat (m_historyPosition c') = Some cmd /\
    input_text c' = s_inputPrefix +:+ cmd.
Proof.
  apply (press_key_up_recall sample_history 1); [exact sample_history_inv|].
  intros E. vm_compute in E. discriminate E.
Defined.

Lemma Layout_geometry_props_witness :
  exists m hg ig, Layout_geometry (mkVec2f 0 0) (mkVec2f 640 100) 12 = Some (m, hg, ig) /\
    m = 8 /\ (fy (geo_pos hg) == -8)%Q /\ (fy (geo_size hg) == 92)%Q.
Proof.
  destruct (Layout_geometry_props (mkVec2f 0 0) (mkVec2f 640 100) 12 ltac:(lia)
              ltac:(split; vm_compute; reflexivity)) as (m & hg & ig & Hl & Hm & _ & _ & Hh & _).
  exists m, hg, ig. split; [exact Hl|]. vm_compute in Hm. split; [exact Hm|].
  injection Hl as <- <- <-. split; vm_compute; reflexivity.
Defined.

(** A console given zero height, with a font of line height 12. *)
Lemma Layout_undefined_height_witness :
  Layout (Console_ctor (Some (sample_font 0)) (mkVec2f 0 0) (mkVec2f 640 0) 0
            (mkGeometry (mkVec2f 0 0) (mkVec2f 0 0))) = None.
Proof.
  apply (Layout_undefined_height _ (sample_font 0)); [reflexivity|simpl; lia|].
  left. simpl. apply Qle_refl.
Defined.

Lemma cursor_prefix_protected_witness :
  exists w', TextArea.SetCursorPosition_index [lift_index_slot OnCursorMove]
               (TextArea.sample_widget (TextArea.mkVec2ui 0 0) (TextArea.mkVec2ui 0 0)) 0 = Some w' /\
    TextArea.m_cursorPositionEnd w' = TextArea.m_cursorPositionBegin w' /\
    TextArea.GetGlyphIndex (TextArea.ta_drawer w') (TextArea.m_cursorPositionBegin w') =
      Some (Z.max s_inputPrefixSize (Z.min 0 (LineTable.GetGlyphCount
        (TextArea.ta_drawer (TextArea.sample_widget (TextArea.mkVec2ui 0 0) (TextArea.mkVec2ui 0 0)))))).
Proof.
  apply cursor_prefix_protected; [exact LineTable.sample_table_wf|vm_compute; done|nz_lia].
Defined.

End Console.
