(* ===== verification/Window.v ===== *)
(** * The window's open/close and event state: [src/include/Nazara/Platform/Window.inl]

    The inline members of [Nz::Window] read and write a few flags:
    - [m_closed], [m_closeOnQuit], [m_eventPolling], [m_asyncWindow] and
      [m_waitForEvent];
    - the event queue [m_events] and the pending queue [m_pendingEvents];
    - [m_impl], whose nullness alone matters here.
    [Destroy], [HandleEvent], [Create], the default constructor and
    [SetCursor(CursorRef)] are defined in [Window.cpp], and [Cursor::Get]
    in [Cursor.cpp]; neither file is among the sources.  The class
    [WindowBackend] states them, and [backend_laws] states what the inline
    code relies on.  The constructors turn the first error [Create]
    reports into an exception ([CtorThrows]).  The
    condition-variable signal of [PushEvent] is counted.  The mutex only
    orders threads, and the model is sequential.  Events are of an
    abstract type [E].  [window_step] relates the states the members
    produce.  [run] executes a sequence of calls ([Call]) and collects the
    answers of the [IsOpen] calls, for interleavings. *)

From stdpp Require Import relations.
From Stdlib Require Import String.
From S2P Require Import Prelude.

Module Window.

Record Window (E : Type) := mkWindow {
  m_impl : bool;                  (* m_impl != nullptr *)
  m_closed : bool;
  m_closeOnQuit : bool;
  m_eventPolling : bool;
  m_asyncWindow : bool;
  m_waitForEvent : bool;
  m_events : list E;              (* std::queue: front is the head *)
  m_pendingEvents : list E;       (* std::vector *)
  condition_signals : nat;        (* calls to m_eventCondition.Signal() *)
  m_cursor : Z                    (* the CursorRef, by the identity of the cursor *)
}.

Arguments mkWindow {E}.
Arguments m_impl {E}.
Arguments m_closed {E}.
Arguments m_closeOnQuit {E}.
Arguments m_eventPolling {E}.
Arguments m_asyncWindow {E}.
Arguments m_waitForEvent {E}.
Arguments m_events {E}.
Arguments m_pendingEvents {E}.
Arguments condition_signals {E}.
Arguments m_cursor {E}.

(** The arguments of the two [Create] overloads: a video mode (its size),
    a title and a style, or a native handle. *)
Inductive CreateRequest :=
  | CreateFromMode (width height : Z) (title : string) (style : Z)
  | CreateFromHandle (handle : Z).

(** The members the inline code calls that are defined elsewhere: in
    [Window.cpp] ([Destroy], [HandleEvent], [SetCursor(CursorRef)], the
    default constructor, [Create]) and [Cursor.cpp] ([Cursor::Get]).
    [Create] gives the errors it reports (through [NazaraError]), the
    value it returns, and the window it leaves. *)
Class WindowBackend (E : Type) := {
  Destroy : Window E -> Window E;
  HandleEvent : Window E -> E -> Window E;
  SetCursorRef : Window E -> Z -> Window E;
  Cursor_Get : Z -> Z;
  DefaultWindow : Window E;
  Create : Window E -> CreateRequest -> list string * bool * Window E
}.

Section Members.
Context {E : Type} `{WindowBackend E}.
Implicit Types (w : Window E) (e : E).

(** Lines 30-33. *)
Definition Close w : Window E :=
  mkWindow (m_impl w) true (m_closeOnQuit w) (m_eventPolling w) (m_asyncWindow w)
    (m_waitForEvent w) (m_events w) (m_pendingEvents w) (condition_signals w) (m_cursor w).

(** Lines 35-38. *)
Definition EnableCloseOnQuit w (closeOnQuit : bool) : Window E :=
  mkWindow (m_impl w) (m_closed w) closeOnQuit (m_eventPolling w) (m_asyncWindow w)
    (m_waitForEvent w) (m_events w) (m_pendingEvents w) (condition_signals w) (m_cursor w).

(** Lines 45-46: [while (!m_events.empty()) m_events.pop();]. *)
Fixpoint pop_all (q : list E) : list E :=
  match q with
  | [] => []
  | _ :: q' => pop_all q'
  end.

(** Lines 40-48. *)
Definition EnableEventPolling w (enable : bool) : Window E :=
  mkWindow (m_impl w) (m_closed w) (m_closeOnQuit w) enable (m_asyncWindow w)
    (m_waitForEvent w) (if negb enable then pop_all (m_events w) else m_events w)
    (m_pendingEvents w) (condition_signals w) (m_cursor w).

(** Lines 65-77: the non-const [IsOpen(checkClosed)], with the window it
    leaves. *)
Definition IsOpen_check w (checkClosed : bool) : bool * Window E :=
  if negb (m_impl w) then (false, w)
  else if checkClosed && m_closed w then (false, Destroy w)
  else (true, w).



(** Lines 50-53. *)
Definition GetCursor w : Z := m_cursor w.

(** Lines 89-92: [SetCursor(Cursor::Get(systemCursor))]. *)
Definition SetCursor w (systemCursor : Z) : Window E := SetCursorRef w (Cursor_Get systemCursor).

(** Lines 79-82 and 84-87. *)
Definition IsOpen w : bool := m_impl w.

(** Lines 115-123: both overloads of [GetImpl]; only the pointer's
    nullness is modelled. *)
Definition GetImpl w : bool := m_impl w.

(** Lines 94-113. *)
Definition PushEvent w e : Window E :=
  if negb (m_asyncWindow w) then HandleEvent w e
  else
    mkWindow (m_impl w) (m_closed w) (m_closeOnQuit w) (m_eventPolling w) (m_asyncWindow w)
      (m_waitForEvent w) (m_events w) (m_pendingEvents w ++ [e])
      (if m_waitForEvent w then S (condition_signals w) else condition_signals w) (m_cursor w).

(** Every state change the inline members make. *)
Inductive window_step : Window E -> Window E -> Prop :=
  | step_Close w : window_step w (Close w)
  | step_EnableCloseOnQuit w b : window_step w (EnableCloseOnQuit w b)
  | step_EnableEventPolling w b : window_step w (EnableEventPolling w b)
  | step_IsOpen w b : window_step w (IsOpen_check w b).2
  | step_PushEvent w e : window_step w (PushEvent w e)
  | step_SetCursor w c : window_step w (SetCursor w c).

(** With polling disabled, the event queue is empty. *)
Definition polling_inv w : Prop := m_eventPolling w = false -> m_events w = [].

(** Pushing [es] one after the other. *)
Definition push_events w (es : list E) : Window E := fold_left PushEvent es w.

(** A call of the user thread to an inline member, for interleavings. *)
Inductive Call :=
  | CallClose
  | CallEnableCloseOnQuit (closeOnQuit : bool)
  | CallEnableEventPolling (enable : bool)
  | CallIsOpen (checkClosed : bool)
  | CallIsOpenConst
  | CallPushEvent (e : E)
  | CallSetCursor (systemCursor : Z).

(** One call: what it reports, for the two [IsOpen], and the window after. *)
Definition exec_call w (c : Call) : option bool * Window E :=
  match c with
  | CallClose => (None, Close w)
  | CallEnableCloseOnQuit b => (None, EnableCloseOnQuit w b)
  | CallEnableEventPolling b => (None, EnableEventPolling w b)
  | CallIsOpen b => let '(r, w') := IsOpen_check w b in (Some r, w')
  | CallIsOpenConst => (Some (IsOpen w), w)
  | CallPushEvent e => (None, PushEvent w e)
  | CallSetCursor c => (None, SetCursor w c)
  end.

(** A sequence of calls, with the answers of the [IsOpen] calls in order. *)
Fixpoint run w (cs : list Call) : list bool * Window E :=
  match cs with
  | [] => ([], w)
  | c :: cs' =>
      let '(r, w1) := exec_call w c in
      let '(rs, w2) := run w1 cs' in
      (option_list r ++ rs, w2)
  end.

Definition is_report (c : Call) : bool :=
  match c with CallIsOpen _ | CallIsOpenConst => true | _ => false end.
Definition is_check (c : Call) : bool :=
  match c with CallIsOpen true => true | _ => false end.
Definition n_reports (cs : list Call) : nat := length (filter (fun c => is_report c = true) cs).
End Members.

Arguments Call : clear implicits.
Arguments CallClose {E}.
Arguments CallEnableCloseOnQuit {E}.
Arguments CallEnableEventPolling {E}.
Arguments CallIsOpen {E}.
Arguments CallIsOpenConst {E}.
Arguments CallPushEvent {E}.
Arguments CallSetCursor {E}.

(** What the inline code relies on from [Window.cpp]: [Destroy] releases
    the implementation, and neither member breaks the polling invariant. *)
Record backend_laws (E : Type) `{WindowBackend E} : Prop := {
  Destroy_impl : forall w, m_impl (Destroy w) = false;
  Destroy_inv : forall w, polling_inv w -> polling_inv (Destroy w);
  HandleEvent_inv : forall w e, polling_inv w -> polling_inv (HandleEvent w e);
  HandleEvent_async : forall w e, m_asyncWindow (HandleEvent w e) = m_asyncWindow w;
  HandleEvent_impl : forall w e, m_impl (HandleEvent w e) = m_impl w;
  HandleEvent_closed : forall w e, m_closed w = true -> m_closed (HandleEvent w e) = true;
  SetCursorRef_cursor : forall w c, m_cursor (SetCursorRef w c) = c;
  SetCursorRef_inv : forall w c, polling_inv w -> polling_inv (SetCursorRef w c);
  SetCursorRef_impl : forall w c, m_impl (SetCursorRef w c) = m_impl w;
  SetCursorRef_closed : forall w c, m_closed (SetCursorRef w c) = m_closed w;
  Create_true : forall w req errors w',
    Create w req = (errors, true, w') -> errors = [] /\ m_impl w' = true
}.

(** A backend for the examples: [HandleEvent] queues the event when
    polling is on and closes the window on a quit event when
    [m_closeOnQuit] is set; [Destroy] drops the implementation.  [Create]
    reports an error for an empty video mode and fails silently for a
    null handle. *)
Section Sample.
Context {E : Type} (is_quit : E -> bool).

Definition sample_backend : WindowBackend E := {|
  Destroy := fun w => mkWindow false (m_closed w) (m_closeOnQuit w) (m_eventPolling w)
                         (m_asyncWindow w) (m_waitForEvent w) (m_events w) (m_pendingEvents w)
                         (condition_signals w) (m_cursor w);
  HandleEvent := fun w e =>
    let w := mkWindow (m_impl w) (m_closed w) (m_closeOnQuit w) (m_eventPolling w)
               (m_asyncWindow w) (m_waitForEvent w)
               (if m_eventPolling w then m_events w ++ [e] else m_events w)
               (m_pendingEvents w) (condition_signals w) (m_cursor w) in
    if is_quit e && m_closeOnQuit w then mkWindow (m_impl w) true (m_closeOnQuit w)
      (m_eventPolling w) (m_asyncWindow w) (m_waitForEvent w) (m_events w)
      (m_pendingEvents w) (condition_signals w) (m_cursor w) else w;
  SetCursorRef := fun w c => mkWindow (m_impl w) (m_closed w) (m_closeOnQuit w) (m_eventPolling w)
                    (m_asyncWindow w) (m_waitForEvent w) (m_events w) (m_pendingEvents w)
                    (condition_signals w) c;
  Cursor_Get := fun sc => 100 + sc;
  DefaultWindow := mkWindow false false true true false false [] [] 0 0;
  Create := fun w req =>
    let opened := mkWindow true (m_closed w) (m_closeOnQuit w) (m_eventPolling w)
                    (m_asyncWindow w) (m_waitForEvent w) (m_events w) (m_pendingEvents w)
                    (condition_signals w) (m_cursor w) in
    match req with
    | CreateFromMode width height _ _ =>
        if (0 <? width) && (0 <? height) then ([], true, opened)
        else (["Invalid video mode"%string], false, w)
    | CreateFromHandle handle => if handle =? 0 then ([], false, w) else ([], true, opened)
    end
|}.

(** An open, synchronous window with polling on. *)
Definition sample_window : Window E := mkWindow true false true true false false [] [] 0 0.
End Sample.


(** ** Lemmas *)

(** The draining loop terminates with an empty queue. *)
Lemma pop_all_nil {E} (q : list E) : pop_all q = [].
Proof. induction q; done. Qed.

Lemma sample_backend_laws {E} (is_quit : E -> bool) :
  @backend_laws E (sample_backend is_quit).
Proof.
  split.
  - done.
  - intros w Hi. exact Hi.
  - intros w e Hi. unfold polling_inv in *. simpl.
    destruct (is_quit e && m_closeOnQuit w); simpl; intros Hp; rewrite Hp in *; auto.
  - intros w e. simpl. destruct (is_quit e && m_closeOnQuit w); done.
  - intros w e. simpl. destruct (is_quit e && m_closeOnQuit w); done.
  - intros w e Hc. simpl. destruct (is_quit e && m_closeOnQuit w); done.
  - done.
  - intros w c Hi. exact Hi.
  - done.
  - done.
  - intros w [width height title style|handle] errors w'; simpl.
    + destruct ((0 <? width) && (0 <? height)); intros [= <- <-]; done.
    + destruct (handle =? 0); intros [= <- <-]; done.
Qed.

Section Laws.
Context {E : Type} `{WindowBackend E} (Hb : backend_laws E).
Local Set Default Proof Using "All".

Lemma window_step_inv w w' : window_step w w' -> polling_inv w -> polling_inv w'.
Proof.
  destruct 1; unfold polling_inv; simpl; intros Hi.
  - done.
  - done.
  - destruct b; simpl; [done|]. intros _. apply pop_all_nil.
  - unfold IsOpen_check. destruct (m_impl w), b, (m_closed w); simpl; try done.
    apply (Destroy_inv _ Hb); done.
  - unfold PushEvent. destruct (m_asyncWindow w); simpl; [done|].
    apply (HandleEvent_inv _ Hb); done.
  - unfold SetCursor. apply (SetCursorRef_inv _ Hb); done.
Qed.

Lemma rtc_window_inv w w' : rtc window_step w w' -> polling_inv w -> polling_inv w'.
Proof. induction 1; eauto using window_step_inv. Qed.

(** C32: whatever the sequence of [Close], [EnableCloseOnQuit],
    [EnableEventPolling], [IsOpen] and [PushEvent] calls, a window whose
    queue was empty while polling was off keeps it so: disabling polling
    drains the queue, and no later call fills it while polling stays off. *)
Theorem window_reachable_inv w0 w :
  polling_inv w0 -> rtc window_step w0 w -> polling_inv w.
Proof. intros Hi Hr. exact (rtc_window_inv w0 w Hr Hi). Qed.

Lemma run_cons (w : Window E) (c : Call E) cs :
  run w (c :: cs) =
    (option_list (exec_call w c).1 ++ (run (exec_call w c).2 cs).1, (run (exec_call w c).2 cs).2).
Proof. simpl. destruct (exec_call w c), (run _ cs). done. Qed.

Lemma run_app (w : Window E) (l1 l2 : list (Call E)) :
  run w (l1 ++ l2) = ((run w l1).1 ++ (run (run w l1).2 l2).1, (run (run w l1).2 l2).2).
Proof.
  revert w. induction l1 as [|c l1 IH]; intros w; [simpl; by destruct (run w l2)|].
  rewrite <-app_comm_cons, !run_cons, IH. simpl. by rewrite app_assoc.
Qed.

Lemma n_reports_cons (c : Call E) cs :
  n_reports (c :: cs) = ((if is_report c then 1 else 0) + n_reports cs)%nat.
Proof. unfold n_reports. rewrite filter_cons. by destruct (is_report c). Qed.

(** Calls that keep a predicate of the window and all answer [b]
    answer [b] along any sequence of them. *)
Lemma run_replicate (P : Window E -> Prop) (ok : Call E -> Prop) (b : bool) :
  (forall w c, P w -> ok c ->
     (exec_call w c).1 = (if is_report c then Some b else None) /\ P (exec_call w c).2) ->
  forall w cs, P w -> Forall ok cs ->
  (run w cs).1 = replicate (n_reports cs) b /\ P (run w cs).2.
Proof.
  intros Hstep w cs. revert w. induction cs as [|c cs IH]; intros w Hw Hok; [done|].
  inversion_clear Hok as [|? ? Hc Hcs]. destruct (Hstep w c Hw Hc) as [Hr HP].
  destruct (IH _ HP Hcs) as [Hrs HP']. rewrite run_cons, n_reports_cons, Hr, Hrs.
  split; [by destruct (is_report c)|done].
Qed.

(** Before the check: a closed window with an implementation answers
    [true] and stays so. *)
Lemma run_pending (w : Window E) (cs : list (Call E)) :
  m_impl w = true -> m_closed w = true -> Forall (fun c => is_check c = false) cs ->
  (run w cs).1 = replicate (n_reports cs) true /\
  (m_impl (run w cs).2 = true /\ m_closed (run w cs).2 = true).
Proof.
  intros Hi Hc. apply (run_replicate (fun w => m_impl w = true /\ m_closed w = true)); [|done].
  intros w' c [Hi' Hc'] Hk. destruct c as [| | |[]| |e|sc]; simpl in *; try done;
    unfold IsOpen_check, IsOpen, PushEvent, SetCursor in *;
    rewrite ?(SetCursorRef_impl _ Hb), ?(SetCursorRef_closed _ Hb), ?Hi', ?Hc'; simpl; try done.
  destruct (m_asyncWindow w'); simpl; [done|].
  rewrite (HandleEvent_impl _ Hb), (HandleEvent_closed _ Hb); done.
Qed.

(** After [Destroy]: every [IsOpen] answers [false]. *)
Lemma run_dead (w : Window E) (cs : list (Call E)) :
  m_impl w = false -> (run w cs).1 = replicate (n_reports cs) false /\ m_impl (run w cs).2 = false.
Proof.
  intros Hi. apply (run_replicate (fun w => m_impl w = false) (fun _ => True)); [|done|by apply Forall_true].
  intros w' c Hi' _. destruct c as [| | |[]| |e|sc]; simpl in *; try done;
    unfold IsOpen_check, IsOpen, PushEvent, SetCursor in *;
    rewrite ?(SetCursorRef_impl _ Hb), ?Hi'; simpl; try done.
  destruct (m_asyncWindow w'); simpl; [done|]. rewrite (HandleEvent_impl _ Hb); done.
Qed.


(** [GetCursor] after [SetCursor(systemCursor)] is the shared cursor of
    that system cursor. *)
Lemma GetCursor_SetCursor w sc : GetCursor (SetCursor w sc) = Cursor_Get sc.
Proof. apply (SetCursorRef_cursor _ Hb). Qed.

(** C33: after [Close] on a valid window, in any sequence of calls to the
    inline members, every [IsOpen()] and [IsOpen(false)] before the first
    [IsOpen(true)] answers [true] and the window keeps its implementation;
    that first [IsOpen(true)] answers [false] and destroys the window, and
    every later [IsOpen] answers [false]. *)
Theorem Close_first_check_reports_closed (w : Window E) (pre post : list (Call E)) :
  m_impl w = true -> Forall (fun c => is_check c = false) pre ->
  m_impl (run (Close w) pre).2 = true /\
  (run (Close w) (pre ++ CallIsOpen true :: post)).1 =
    replicate (n_reports pre) true ++ false :: replicate (n_reports post) false /\
  m_impl (run (Close w) (pre ++ CallIsOpen true :: post)).2 = false.
Proof.
  intros Hi Hpre. destruct (run_pending (Close w) pre Hi eq_refl Hpre) as (Hr & Hi' & Hc').
  rewrite run_app, run_cons, Hr. simpl. unfold IsOpen_check. rewrite Hi', Hc'. simpl.
  destruct (run_dead (Destroy (run (Close w) pre).2) post (Destroy_impl _ Hb _)) as [-> ->].
  done.
Qed.

(** On an asynchronous window, pushing events appends them, in
    order, to [m_pendingEvents], leaves [m_events] and the flags alone, and
    signals the waiting thread once per event when it waits. *)
Theorem push_events_async w es :
  m_asyncWindow w = true ->
  m_pendingEvents (push_events w es) = m_pendingEvents w ++ es /\
  m_events (push_events w es) = m_events w /\
  m_asyncWindow (push_events w es) = true /\
  condition_signals (push_events w es) =
    ((if m_waitForEvent w then length es else 0) + condition_signals w)%nat.
Proof.
  unfold push_events. revert w. induction es as [|e es IH]; intros w Ha.
  - rewrite app_nil_r. destruct (m_waitForEvent w); done.
  - simpl. assert (Ha1 : m_asyncWindow (PushEvent w e) = true).
    { unfold PushEvent. rewrite Ha. done. }
    destruct (IH _ Ha1) as (Hp & He & Ha' & Hs). split_and!; [rewrite Hp| rewrite He|exact Ha'|rewrite Hs];
      unfold PushEvent; rewrite Ha; simpl; [rewrite <- app_assoc; done|done|].
    destruct (m_waitForEvent w); simpl; lia.
Qed.

(** On a synchronous window, pushing events hands each one to
    [HandleEvent] immediately, in order. *)
Theorem push_events_sync w es :
  m_asyncWindow w = false -> push_events w es = fold_left HandleEvent es w.
Proof.
  unfold push_events. revert w. induction es as [|e es IH]; intros w Ha; [done|].
  simpl. assert (E1 : PushEvent w e = HandleEvent w e) by (unfold PushEvent; rewrite Ha; done).
  rewrite E1. apply IH. rewrite (HandleEvent_async _ Hb). done.
Qed.
End Laws.

(** ** Witnesses *)

Definition sample_quit (n : nat) : bool := bool_decide (n = 0%nat).

Lemma window_reachable_inv_witness :
  let _ := sample_backend sample_quit in
  polling_inv (EnableEventPolling (PushEvent (@sample_window nat) 3%nat) false).
Proof.
  intros. apply (window_reachable_inv (sample_backend_laws sample_quit) sample_window).
  - intros Hp. done.
  - eapply rtc_l; [apply step_PushEvent|]. apply rtc_once, step_EnableEventPolling.
Defined.

Lemma Close_first_check_reports_closed_witness :
  let _ := sample_backend sample_quit in
  let pre := [CallPushEvent 3%nat; CallIsOpenConst; CallIsOpen false] in
  let post := [CallPushEvent 0%nat; CallIsOpenConst] in
  (run (Close (@sample_window nat)) (pre ++ CallIsOpen true :: post)).1 = [true; true; false; false] /\
  m_impl (run (Close (@sample_window nat)) pre).2 = true /\
  (run (Close (@sample_window nat)) (pre ++ CallIsOpen true :: post)).1 =
    replicate (n_reports pre) true ++ false :: replicate (n_reports post) false /\
  m_impl (run (Close (@sample_window nat)) (pre ++ CallIsOpen true :: post)).2 = false.
Proof.
  intros. split; [reflexivity|].
  apply (Close_first_check_reports_closed (sample_backend_laws sample_quit)); [reflexivity|].
  repeat constructor.
Defined.


End Window.
